(** * CloudUtil: the storage router and its two adapters

    A shallow embedding of [CloudUtil/cloud_manager.py],
    [CloudUtil/aws_s3_manager.py] and [CloudUtil/render_file_manager.py].

    A Python function becomes a function in a state-and-exception monad
    over a [world]: the process environment, the local filesystem, the
    object store, the remote file service and the trace of every I/O call
    made so far.  The two remote services are no part of the repository:
    what they answer is an arbitrary function of the request and of the
    calls made before it, so a statement about every world is a
    statement about every behaviour of the services and of the network.

    Python text is a Rocq [string] (code points below 256), and bytes are
    the same type.  The [json] module is a parameter of the router; a
    model of it on these values comes with the sample worlds.

    The mail and console utilities ([EmailUtil], [ConsoleUtil]) come
    after the router, on a state of their own. *)

From Stdlib Require Import ZArith String Ascii List Bool Lia.
From Stdlib Require Import DecimalString DecimalFacts DecimalPos DecimalN.
From stdpp Require Import base strings gmap list.

Local Open Scope string_scope.
Local Open Scope Z_scope.

(** ** Python values *)

(** The values that travel through the router: what a caller passes as
    [data], what [json.loads] builds and what the remote service puts in
    the ["data"] field of its reply.  [PObject] stands for any object that
    is none of the others (a set, a bytes object, ...), named by its type.
    A float is not modelled beyond being an object of type [float]. *)
Unset Elimination Schemes.
Inductive pyval : Type :=
| PNone
| PBool (b : bool)
| PInt (n : Z)
| PStr (s : string)
| PList (xs : list pyval)
| PDict (items : list (string * pyval))
| PObject (type_name : string).
Set Elimination Schemes.


(** [type(v).__name__], as it appears in Python's error messages. *)
Definition type_name_of (v : pyval) : string :=
  match v with
  | PNone => "NoneType"
  | PBool _ => "bool"
  | PInt _ => "int"
  | PStr _ => "str"
  | PList _ => "list"
  | PDict _ => "dict"
  | PObject n => n
  end.

(** ** Induction over values *)

Section PyvalInduction.

Variable P : pyval -> Prop.
Hypothesis PNone_case : P PNone.
Hypothesis PBool_case : forall b, P (PBool b).
Hypothesis PInt_case : forall n, P (PInt n).
Hypothesis PStr_case : forall s, P (PStr s).
Hypothesis PList_case : forall xs, Forall P xs -> P (PList xs).
Hypothesis PDict_case : forall items, Forall (fun kv => P (snd kv)) items -> P (PDict items).
Hypothesis PObject_case : forall n, P (PObject n).

Fixpoint pyval_ind (v : pyval) : P v :=
  match v with
  | PNone => PNone_case
  | PBool b => PBool_case b
  | PInt n => PInt_case n
  | PStr s => PStr_case s
  | PList xs =>
      PList_case xs
        ((fix all (xs : list pyval) : Forall P xs :=
            match xs with
            | [] => List.Forall_nil P
            | x :: rest => @List.Forall_cons _ P x rest (pyval_ind x) (all rest)
            end) xs)
  | PDict items =>
      PDict_case items
        ((fix all (items : list (string * pyval)) : Forall (fun kv => P (snd kv)) items :=
            match items with
            | [] => List.Forall_nil _
            | kv :: rest => @List.Forall_cons _ _ kv rest (pyval_ind (snd kv)) (all rest)
            end) items)
  | PObject n => PObject_case n
  end.

End PyvalInduction.

(** No key occurs twice in a dict, at any depth: what makes an
    association list stand for a Python dict. *)
Fixpoint distinct_keys (v : pyval) : bool :=
  match v with
  | PList xs => forallb distinct_keys xs
  | PDict items =>
      forallb (fun kv => distinct_keys (snd kv)) items
      && bool_decide (NoDup (map fst items))
  | _ => true
  end.

(** ** Exceptions and outcomes *)

Inductive exn : Type :=
| EnvironmentError (msg : string)
| TypeError (msg : string)
| JSONDecodeError (msg : string)
| Exception (msg : string).   (* any other subclass of Exception *)

(** [str(e)] *)
Definition str_exn (e : exn) : string :=
  match e with
  | EnvironmentError m | TypeError m | JSONDecodeError m | Exception m => m
  end.

Definition is_JSONDecodeError (e : exn) : bool :=
  match e with JSONDecodeError _ => true | _ => false end.

(** The two ways a Python call ends: it returns, or an exception leaves it. *)
Inductive outcome (A : Type) : Type :=
| Ret (a : A)
| Raise (e : exn).
Arguments Ret {A} a.
Arguments Raise {A} e.


(** ** The world *)

Inductive s3_request : Type :=
| S3PutObject (bucket key body content_type : string)
| S3GetObject (bucket key : string)
| S3HeadObject (bucket key : string).

(** What the SDK call does: it returns (with the object's text where there
    is one) or raises, and [str] of what it raises is the message. *)
Inductive s3_response : Type :=
| S3Ok (body : string)
| S3Error (msg : string).

Record http_request : Type := HttpRequest {
  http_method : string;
  http_url : string;
  http_api_key : option string;           (* the X-API-Key header *)
  http_params : option string;            (* the data_format query parameter *)
  http_json : option (pyval * string)     (* the body {"data":, "data_format":} *)
}.

(** A reply with its status line and its body read as JSON ([None]: the
    body is not JSON), or no reply at all. *)
Inductive http_response : Type :=
| Response (status_code : Z) (reason : string) (json_body : option pyval)
| ConnectionError (msg : string).

Inductive io_event : Type :=
| EvOpen (path mode : string)
| EvS3 (access_key secret_key region : string) (req : s3_request)
| EvHttp (req : http_request).

Record world : Type := World {
  environ : gmap string string;
  hostname : string;
  files : gmap string string;
  (** paths that cannot be opened in a mode, with the text of the OSError *)
  file_error : string -> string -> option string;
  s3_service : list io_event -> s3_request -> s3_response;
  http_service : list io_event -> http_request -> http_response;
  (** every I/O call so far, newest first *)
  trace : list io_event
}.

Definition set_files (f : gmap string string) (w : world) : world :=
  World (environ w) (hostname w) f (file_error w) (s3_service w)
        (http_service w) (trace w).

Definition log (ev : io_event) (w : world) : world :=
  World (environ w) (hostname w) (files w) (file_error w) (s3_service w)
        (http_service w) (ev :: trace w).

(** ** The monad *)

Definition M (A : Type) : Type := world -> outcome A * world.

Definition ret {A} (a : A) : M A := fun w => (Ret a, w).
Definition raise {A} (e : exn) : M A := fun w => (Raise e, w).
Definition bind {A B} (m : M A) (k : A -> M B) : M B :=
  fun w => match m w with
           | (Ret a, w') => k a w'
           | (Raise e, w') => (Raise e, w')
           end.

Notation "'let*' x ':=' m 'in' k" := (bind m (fun x => k))
  (at level 10, x name, m at level 100, k at level 200).
Notation "'let*' ' p ':=' m 'in' k" :=
  (bind m (fun x => match x with p => k end))
  (at level 10, p pattern, m at level 100, k at level 200).

(** [try: m  except Exception as e: h e] *)
Definition try_except {A} (m : M A) (h : exn -> M A) : M A :=
  fun w => match m w with
           | (Ret a, w') => (Ret a, w')
           | (Raise e, w') => h e w'
           end.

(** [try: m  except cls as e: h e] *)
Definition try_except_only {A} (cls : exn -> bool) (m : M A) (h : exn -> M A) : M A :=
  fun w => match m w with
           | (Ret a, w') => (Ret a, w')
           | (Raise e, w') => if cls e then h e w' else (Raise e, w')
           end.

(** ** The process environment *)

(** [os.getenv(name)] *)
Definition os_getenv (name : string) : M (option string) :=
  fun w => (Ret (environ w !! name), w).

(** [name in os.environ] *)
Definition in_environ (name : string) : M bool :=
  fun w => (Ret (bool_decide (is_Some (environ w !! name))), w).

(** [socket.gethostname()] *)
Definition socket_gethostname : M string :=
  fun w => (Ret (hostname w), w).

(** [get_host], lines 9-25 *)
Definition get_host : M string :=
  let* on_lambda := in_environ "AWS_LAMBDA_FUNCTION_NAME" in
  if on_lambda then ret "Amazon"
  else
    let* render := os_getenv "RENDER" in
    if bool_decide (render = Some "true") then ret "Render"
    else socket_gethostname.

(** ** Builtins and collaborators *)

(** An outcome computed without the world. *)
Definition lift {A} (o : outcome A) : M A := fun w => (o, w).

(** Text mode reads with universal newlines: ["\r\n"] and ["\r"] both
    come back as ["\n"]. *)
Fixpoint universal_newlines (s : string) : string :=
  match s with
  | EmptyString => EmptyString
  | String "013" (String "010" rest) => String "010" (universal_newlines rest)
  | String "013" rest => String "010" (universal_newlines rest)
  | String c rest => String c (universal_newlines rest)
  end.

(** [open(path, 'r')] or [open(path, 'rb')] followed by [f.read()]. *)
Definition read_file (path mode : string) : M string :=
  fun w =>
    let w1 := log (EvOpen path mode) w in
    match file_error w path mode with
    | Some msg => (Raise (Exception msg), w1)
    | None =>
        match files w !! path with
        | Some content =>
            (Ret (if mode =? "r" then universal_newlines content else content)%string, w1)
        | None =>
            (Raise (Exception ("[Errno 2] No such file or directory: '" +:+ path +:+ "'")), w1)
        end
    end.

(** [open(path, 'w')] or [open(path, 'wb')]: the file is created or
    truncated as soon as it is opened. *)
Definition open_truncate (path mode : string) : M unit :=
  fun w =>
    let w1 := log (EvOpen path mode) w in
    match file_error w path mode with
    | Some msg => (Raise (Exception msg), w1)
    | None => (Ret tt, set_files (<[path := ""]> (files w1)) w1)
    end.

(** [f.write(data)] on a file just opened for writing in text mode. *)
Definition write_text (path : string) (data : pyval) : M unit :=
  match data with
  | PStr s => fun w => (Ret tt, set_files (<[path := s]> (files w)) w)
  | _ => raise (TypeError ("write() argument must be str, not " +:+ type_name_of data))
  end.

(** [f.write(b)] on a file just opened for writing in binary mode. *)
Definition write_bytes (path : string) (b : string) : M unit :=
  fun w => (Ret tt, set_files (<[path := b]> (files w)) w).

(** [content.encode('utf-8')]: only a [str] has the method.  Text and its
    encoding are identified. *)
Definition str_encode (content : pyval) : outcome string :=
  match content with
  | PStr s => Ret s
  | _ => Raise (Exception ("'" +:+ type_name_of content +:+ "' object has no attribute 'encode'"))
  end.

(** [list(b)] for a bytes object [b] *)
Definition list_of_bytes (b : string) : pyval :=
  PList (map (fun c => PInt (Z.of_N (N_of_ascii c))) (list_ascii_of_string b)).

Definition byte_of_item (v : pyval) : outcome ascii :=
  match v with
  | PInt n =>
      if (0 <=? n) && (n <? 256) then Ret (ascii_of_N (Z.to_N n))
      else Raise (Exception "bytes must be in range(0, 256)")
  | PBool b => Ret (if b then "001"%char else "000"%char)
  | _ => Raise (TypeError ("'" +:+ type_name_of v +:+ "' object cannot be interpreted as an integer"))
  end.

Fixpoint bytes_of_items (xs : list pyval) : outcome string :=
  match xs with
  | [] => Ret ""
  | x :: rest =>
      match byte_of_item x with
      | Ret c => match bytes_of_items rest with
                 | Ret s => Ret (String c s)
                 | Raise e => Raise e
                 end
      | Raise e => Raise e
      end
  end.

(** [bytes(content)] *)
Definition py_bytes (content : pyval) : outcome string :=
  match content with
  | PList xs => bytes_of_items xs
  | PInt n =>
      if n <? 0 then Raise (Exception "negative count")
      else Ret (string_of_list_ascii (repeat "000"%char (Z.to_nat n)))
  | PBool b => Ret (if b then String "000" "" else "")
  | PDict items => bytes_of_items (map (fun kv => PStr (fst kv)) items)
  | PStr _ => Raise (TypeError "string argument without an encoding")
  | _ => Raise (TypeError ("cannot convert '" +:+ type_name_of content +:+ "' object to bytes"))
  end.

(** Whether the JSON encoder of [requests] accepts the value. *)
Fixpoint json_serializable (v : pyval) : bool :=
  match v with
  | PObject _ => false
  | PList xs => forallb json_serializable xs
  | PDict items => forallb (fun kv => json_serializable (snd kv)) items
  | _ => true
  end.

(** [s.rstrip('/')] *)
Fixpoint rstrip_slash (s : string) : string :=
  match s with
  | EmptyString => EmptyString
  | String c rest =>
      match rstrip_slash rest with
      | EmptyString => if Ascii.eqb c "/" then EmptyString else String c EmptyString
      | rest' => String c rest'
      end
  end.

(** Decimal text of a status code. *)
Definition str_of_Z (n : Z) : string :=
  NilZero.string_of_int (Z.to_int n).

(** ** The object-store adapter ([aws_s3_manager.py]) *)

Module S3Manager.

(** An initialised manager is its client handle: [boto3.client] stores
    the credentials and the region and opens no connection. *)
Record t : Type := Build {
  aws_access_key : string;
  aws_secret_key : string;
  region : string
}.

(** [__init__(aws_access_key, aws_secret_key, region='us-west-2')] *)
Definition init (access_key secret_key : string) : t :=
  Build access_key secret_key "us-west-2".

(** One call of the SDK client: it is logged and the service answers.
    [S3Error] covers everything the call and the decoding of its result
    can raise. *)
Definition s3_client (self : t) (req : s3_request) : M string :=
  fun w =>
    let w1 := log (EvS3 (aws_access_key self) (aws_secret_key self) (region self) req) w in
    match s3_service w (trace w) req with
    | S3Ok body => (Ret body, w1)
    | S3Error msg => (Raise (Exception msg), w1)
    end.

(** [s3_client.download_file(Bucket, Key, Filename)]: the SDK fetches the
    object and writes it to the local path. *)
Definition s3_client_download_file (self : t) (bucket key filename : string) : M unit :=
  let* body := s3_client self (S3GetObject bucket key) in
  let* _ := open_truncate filename "wb" in
  write_bytes filename body.

(** [s3_client.upload_file(Filename, Bucket, Key, ExtraArgs)]: the SDK
    reads the local file and stores it. *)
Definition s3_client_upload_file (self : t) (filename bucket key : string) : M unit :=
  let* body := read_file filename "rb" in
  let* _ := s3_client self (S3PutObject bucket key body "binary/octet-stream") in
  ret tt.

(** [S3Manager.download_file], lines 26-47 *)
Definition download_file (self : t) (bucket_name s3_file_path local_file_path : string)
  : M string :=
  try_except
    (let* _ := s3_client_download_file self bucket_name s3_file_path local_file_path in
     ret "")
    (fun e => ret ("[AWS Download Error] " +:+ str_exn e)).

(** [S3Manager.upload_file], lines 49-78 *)
Definition upload_file (self : t) (bucket_name local_file_path s3_file_path : string)
  : M string :=
  try_except
    (let* _ := s3_client_upload_file self local_file_path bucket_name s3_file_path in
     ret "")
    (fun e => ret ("[AWS Upload Error] " +:+ str_exn e)).

(** [S3Manager.put_text], lines 80-110 *)
Definition put_text (self : t) (bucket_name s3_path : string) (content : pyval)
  : M string :=
  try_except
    (let* body := lift (str_encode content) in
     let* _ := s3_client self (S3PutObject bucket_name s3_path body "text/plain") in
     ret "")
    (fun e => ret ("[AWS Put Error] " +:+ str_exn e)).

(** [S3Manager.get_text], lines 112-136 *)
Definition get_text (self : t) (bucket_name s3_path : string) : M (pyval * string) :=
  try_except
    (let* content := s3_client self (S3GetObject bucket_name s3_path) in
     ret (PStr content, ""))
    (fun e => ret (PNone, "[AWS Get Error] " +:+ str_exn e)).

(** [S3Manager.file_exists], lines 138-153: a bare [except] *)
Definition file_exists (self : t) (bucket_name s3_path : string) : M bool :=
  try_except
    (let* _ := s3_client self (S3HeadObject bucket_name s3_path) in
     ret true)
    (fun _ => ret false).

End S3Manager.

(** ** The remote-file-service adapter ([render_file_manager.py]) *)

Module RenderFileManager.

Record t : Type := Build {
  base_url : string;
  headers : option string     (* the value under "X-API-Key"; None is Python's None *)
}.

(** [__init__(service_url, api_key)] *)
Definition init (service_url : string) (api_key : option string) : t :=
  Build (rstrip_slash service_url) api_key.

(** [f"{self.base_url}/files/{disk_path}"] *)
Definition file_url (self : t) (disk_path : string) : string :=
  base_url self +:+ "/files/" +:+ disk_path.

Record response : Type := Resp {
  url : string;
  status_code : Z;
  reason : string;
  json_body : option pyval
}.

(** The request goes out: it is logged and either a reply comes back or
    the call raises.  A header whose value is [None] is not sent. *)
Definition send (req : http_request) : M response :=
  fun w =>
    match http_service w (trace w) req with
    | Response st rs b => (Ret (Resp (http_url req) st rs b), log (EvHttp req) w)
    | ConnectionError msg => (Raise (Exception msg), log (EvHttp req) w)
    end.

(** [requests.get] and [requests.put]: a body that the JSON encoder
    refuses raises before anything is sent. *)
Definition requests (req : http_request) : M response :=
  match http_json req with
  | Some (data, _) =>
      if json_serializable data then send req
      else raise (TypeError ("Object of type " +:+ type_name_of data
                             +:+ " is not JSON serializable"))
  | None => send req
  end.

(** [response.raise_for_status()] *)
Definition raise_for_status (r : response) : M unit :=
  if (400 <=? status_code r) && (status_code r <? 500) then
    raise (Exception (str_of_Z (status_code r) +:+ " Client Error: " +:+ reason r
                      +:+ " for url: " +:+ url r))
  else if (500 <=? status_code r) && (status_code r <? 600) then
    raise (Exception (str_of_Z (status_code r) +:+ " Server Error: " +:+ reason r
                      +:+ " for url: " +:+ url r))
  else ret tt.

(** [response.json()] *)
Definition response_json (r : response) : M pyval :=
  match json_body r with
  | Some v => ret v
  | None => raise (Exception "Expecting value: line 1 column 1 (char 0)")
  end.

(** [v["data"]] *)
Definition getitem_data (v : pyval) : M pyval :=
  match v with
  | PDict items =>
      match find (fun kv => fst kv =? "data")%string items with
      | Some kv => ret (snd kv)
      | None => raise (Exception "'data'")
      end
  | PList _ => raise (TypeError "list indices must be integers or slices, not str")
  | PStr _ => raise (TypeError "string indices must be integers, not 'str'")
  | _ => raise (TypeError ("'" +:+ type_name_of v +:+ "' object is not subscriptable"))
  end.

(** [RenderFileManager.download_file], lines 22-50: the file is opened, and
    so truncated, before [bytes(content)] is computed. *)
Definition download_file (self : t) (disk_path local_file_path : string) : M string :=
  try_except
    (let* response :=
       requests (HttpRequest "GET" (file_url self disk_path) (headers self)
                             (Some "pickle") None) in
     let* _ := raise_for_status response in
     let* body := response_json response in
     let* content := getitem_data body in
     let* _ := open_truncate local_file_path "wb" in
     let* b := lift (py_bytes content) in
     let* _ := write_bytes local_file_path b in
     ret "")
    (fun e => ret ("[Render Download Error] " +:+ str_exn e)).

(** [RenderFileManager.upload_file], lines 52-82 *)
Definition upload_file (self : t) (local_file_path disk_path : string) : M string :=
  try_except
    (let* b := read_file local_file_path "rb" in
     let content := list_of_bytes b in
     let* response :=
       requests (HttpRequest "PUT" (file_url self disk_path) (headers self)
                             None (Some (content, "pickle"))) in
     let* _ := raise_for_status response in
     ret "")
    (fun e => ret ("[Render Upload Error] " +:+ str_exn e)).

(** [RenderFileManager.put_object], lines 84-113 *)
Definition put_object (self : t) (disk_path : string) (data : pyval) (data_format : string)
  : M string :=
  try_except
    (let* response :=
       requests (HttpRequest "PUT" (file_url self disk_path) (headers self)
                             None (Some (data, data_format))) in
     let* _ := raise_for_status response in
     ret "")
    (fun e => ret ("[Render Put Error] " +:+ str_exn e)).

(** [RenderFileManager.get_object], lines 115-141 *)
Definition get_object (self : t) (disk_path data_format : string) : M (pyval * string) :=
  try_except
    (let* response :=
       requests (HttpRequest "GET" (file_url self disk_path) (headers self)
                             (Some data_format) None) in
     let* _ := raise_for_status response in
     let* body := response_json response in
     let* data := getitem_data body in
     ret (data, ""))
    (fun e => ret (PNone, "[Render Get Error] " +:+ str_exn e)).

(** [RenderFileManager.file_exists], lines 143-160: a bare GET, no
    [data_format] *)
Definition file_exists (self : t) (disk_path : string) : M bool :=
  try_except
    (let* response :=
       requests (HttpRequest "GET" (file_url self disk_path) (headers self) None None) in
     ret (status_code response =? 200))
    (fun _ => ret false).

End RenderFileManager.

(** ** The router ([cloud_manager.py]) *)

Definition unsupported_format : string :=
  "Unsupported data_format. Only text and json are supported.".

(** [if error:] on a string *)
Definition truthy (s : string) : bool := negb (s =? "")%string.

(** [_initialize_amazon], lines 28-41 *)
Definition _initialize_amazon : M (S3Manager.t * string) :=
  let* access_key := os_getenv "AWS_WATCHDOG_ACCESS_KEY" in
  let* secret_key := os_getenv "AWS_WATCHDOG_SECRET_KEY" in
  let* bucket := os_getenv "AWS_WATCHDOG_BUCKET" in
  match access_key, secret_key, bucket with
  | Some access_key, Some secret_key, Some bucket =>
      ret (S3Manager.init access_key secret_key, bucket)
  | _, _, _ =>
      raise (EnvironmentError "One or more Environment Variables not available")
  end.

(** [_initialize_render], lines 44-53: the key is passed on as it is, [None]
    included *)
Definition _initialize_render : M RenderFileManager.t :=
  let* API_KEY := os_getenv "RENDER_FILE_API_KEY" in
  let BASE_URL := "https://file-manager-vist.onrender.com" in
  ret (RenderFileManager.init BASE_URL API_KEY).

Section Router.

(** The [json] module of the standard library, as the router uses it. *)
Variable json_dumps : pyval -> outcome string.
Variable json_loads : string -> outcome pyval.

(** The conversion each of the three writers makes before it writes
    (lines 73-76, 100-103 and 124-127). *)
Definition convert_for_write (data : pyval) (data_format : string) : M pyval :=
  if (data_format =? "json")%string then
    let* text := lift (json_dumps data) in ret (PStr text)
  else if negb (data_format =? "text")%string then
    raise (TypeError unsupported_format)
  else ret data.

(** [_write_to_amazon], lines 56-80 *)
Definition _write_to_amazon (file_name : string) (data : pyval) (data_format : string)
  : M string :=
  let* '(s3_manager, bucket) := _initialize_amazon in
  let* data := convert_for_write data data_format in
  let* error := S3Manager.put_text s3_manager bucket file_name data in
  ret error.

(** [_write_to_render], lines 83-107; the adapter is always asked to store
    text *)
Definition _write_to_render (file_name : string) (data : pyval) (data_format : string)
  : M string :=
  let* manager := _initialize_render in
  let* data := convert_for_write data data_format in
  let* error := RenderFileManager.put_object manager file_name data "text" in
  ret error.

(** [_write_to_local], lines 110-136 *)
Definition _write_to_local (file_path : string) (data : pyval) (data_format : string)
  : M string :=
  let* data := convert_for_write data data_format in
  let* error :=
    try_except
      (let* _ := open_truncate file_path "w" in
       let* _ := write_text file_path data in
       ret "")
      (fun e => ret ("[Local Write Error] " +:+ str_exn e)) in
  ret error.

(** [_read_from_amazon], lines 139-169.  [get_text] hands back a [str]
    whenever its error is empty; on anything else [json.loads] would raise
    a TypeError. *)
Definition _read_from_amazon (file_name data_format : string) : M (pyval * string) :=
  let* '(s3_manager, bucket) := _initialize_amazon in
  let* '(data, error) := S3Manager.get_text s3_manager bucket file_name in
  if truthy error then ret (PNone, error)
  else if (data_format =? "json")%string then
    match data with
    | PStr text =>
        try_except_only is_JSONDecodeError
          (let* data := lift (json_loads text) in ret (data, ""))
          (fun e => ret (PNone, "[Amazon Read Error] " +:+ str_exn e))
    | _ => raise (TypeError ("the JSON object must be str, bytes or bytearray, not "
                             +:+ type_name_of data))
    end
  else if negb (data_format =? "text")%string then
    ret (PNone, unsupported_format)
  else ret (data, "").

(** [_read_from_render], lines 172-202: the parse is guarded by
    [data_format == 'json' and isinstance(data, str)], and when the guard
    fails the [elif] on the format is what runs. *)
Definition _read_from_render (file_name data_format : string) : M (pyval * string) :=
  let* manager := _initialize_render in
  let* '(data, error) := RenderFileManager.get_object manager file_name data_format in
  if truthy error then ret (PNone, error)
  else
    match (data_format =? "json")%string, data with
    | true, PStr text =>
        try_except_only is_JSONDecodeError
          (let* data := lift (json_loads text) in ret (data, ""))
          (fun e => ret (PNone, "[Render Read Error] " +:+ str_exn e))
    | _, _ =>
        if negb (data_format =? "text")%string then ret (PNone, unsupported_format)
        else ret (data, "")
    end.

(** [_read_from_local], lines 205-234 *)
Definition _read_from_local (file_path data_format : string) : M (pyval * string) :=
  (* inl: the early return of the first except clause *)
  let* read :=
    try_except
      (let* data := read_file file_path "r" in ret (inr data))
      (fun e => ret (inl (PNone, "[Local Read Error] " +:+ str_exn e))) in
  match read with
  | inl early => ret early
  | inr text =>
      if (data_format =? "json")%string then
        try_except_only is_JSONDecodeError
          (let* data := lift (json_loads text) in ret (data, ""))
          (fun e => ret (PNone, "[Local Read Error] " +:+ str_exn e))
      else if negb (data_format =? "text")%string then
        ret (PNone, unsupported_format)
      else ret (PStr text, "")
  end.

(** [_upload_to_amazon], lines 237-250: the call gives [upload_file] the
    local path first and the bucket second. *)
Definition _upload_to_amazon (local_file_path file_name : string) : M string :=
  let* '(s3_manager, bucket) := _initialize_amazon in
  let* error := S3Manager.upload_file s3_manager local_file_path bucket file_name in
  ret error.

(** [_upload_to_render], lines 253-266 *)
Definition _upload_to_render (local_file_path file_name : string) : M string :=
  let* manager := _initialize_render in
  let* error := RenderFileManager.upload_file manager local_file_path file_name in
  ret error.

(** [_download_from_amazon], lines 269-282 *)
Definition _download_from_amazon (file_name local_file_path : string) : M string :=
  let* '(s3_manager, bucket) := _initialize_amazon in
  let* error := S3Manager.download_file s3_manager bucket file_name local_file_path in
  ret error.

(** [_download_from_render], lines 285-298 *)
Definition _download_from_render (file_name local_file_path : string) : M string :=
  let* manager := _initialize_render in
  let* error := RenderFileManager.download_file manager file_name local_file_path in
  ret error.

(** [put], lines 301-322 *)
Definition put (file_name : string) (data : pyval) (host data_format : string) : M string :=
  if (host =? "Amazon")%string then
    let* error := _write_to_amazon file_name data data_format in ret error
  else if (host =? "Render")%string then
    let* error := _write_to_render file_name data data_format in ret error
  else
    let* error := _write_to_local file_name data data_format in ret error.

(** [get], lines 325-346 *)
Definition get (file_name host data_format : string) : M (pyval * string) :=
  if (host =? "Amazon")%string then
    let* '(data, error) := _read_from_amazon file_name data_format in ret (data, error)
  else if (host =? "Render")%string then
    let* '(data, error) := _read_from_render file_name data_format in ret (data, error)
  else
    let* '(data, error) := _read_from_local file_name data_format in ret (data, error).

(** [upload], lines 349-368 *)
Definition upload (local_file_path file_name host : string) : M string :=
  if (host =? "Amazon")%string then
    let* error := _upload_to_amazon local_file_path file_name in ret error
  else if (host =? "Render")%string then
    let* error := _upload_to_render local_file_path file_name in ret error
  else ret "".

(** [download], lines 371-390 *)
Definition download (file_name local_file_path host : string) : M string :=
  if (host =? "Amazon")%string then
    let* error := _download_from_amazon file_name local_file_path in ret error
  else if (host =? "Render")%string then
    let* error := _download_from_render file_name local_file_path in ret error
  else ret "".

End Router.

(** ** The [json] module on the modelled values

    [json.dumps] with its default arguments ([ensure_ascii], separators
    [", "] and [": "]) and [json.loads].  Text is a Rocq string, so a code
    point is below 256; a float is read as an opaque object of type
    [float]; the position that Python appends to the message of a decode
    error is left out, and so is the limit that recent interpreters put
    on the number of digits of an integer. *)

Module Json.

Definition quote : ascii := "034".
Definition backslash : ascii := "092".

(** *** [json.dumps] *)

Definition hex_digit (n : N) : ascii :=
  ascii_of_N (if (n <? 10)%N then 48 + n else 87 + n)%N.

(** What [ensure_ascii] writes for one character. *)
Definition escape_char (c : ascii) : string :=
  if Ascii.eqb c quote then String backslash (String quote "")
  else if Ascii.eqb c backslash then String backslash (String backslash "")
  else if Ascii.eqb c "010" then "\n"
  else if Ascii.eqb c "013" then "\r"
  else if Ascii.eqb c "009" then "\t"
  else if Ascii.eqb c "008" then "\b"
  else if Ascii.eqb c "012" then "\f"
  else
    let n := N_of_ascii c in
    if ((32 <=? n) && (n <=? 126))%N then String c ""
    else "\u00" +:+ String (hex_digit (n / 16)) (String (hex_digit (n mod 16)) "").

Fixpoint escape (s : string) : string :=
  match s with
  | EmptyString => EmptyString
  | String c rest => escape_char c +:+ escape rest
  end.

Definition encode_str (s : string) : string :=
  String quote (escape s +:+ String quote "").

(** [repr] of an int *)
Definition encode_int (n : Z) : string :=
  match n with
  | Z0 => "0"
  | Zpos p => NilEmpty.string_of_uint (Pos.to_uint p)
  | Zneg p => String "-" (NilEmpty.string_of_uint (Pos.to_uint p))
  end.

(** The elements of a list after the opening bracket, each written by
    [enc]. *)
Fixpoint encode_elements (enc : pyval -> string) (xs : list pyval) : string :=
  match xs with
  | [] => "]"
  | [x] => enc x +:+ "]"
  | x :: rest => enc x +:+ ", " +:+ encode_elements enc rest
  end.

(** The members of a dict after the opening brace. *)
Fixpoint encode_members (enc : pyval -> string) (items : list (string * pyval)) : string :=
  match items with
  | [] => "}"
  | [(k, x)] => encode_str k +:+ ": " +:+ enc x +:+ "}"
  | (k, x) :: rest =>
      encode_str k +:+ ": " +:+ enc x +:+ ", " +:+ encode_members enc rest
  end.

(** The text of a value; an object the encoder refuses is checked for
    separately, by [unserializable]. *)
Fixpoint encode (v : pyval) : string :=
  match v with
  | PNone => "null"
  | PBool true => "true"
  | PBool false => "false"
  | PInt n => encode_int n
  | PStr s => encode_str s
  | PList xs => "[" +:+ encode_elements encode xs
  | PDict items => "{" +:+ encode_members encode items
  | PObject _ => ""
  end.

(** The type of the first object the encoder refuses, if any. *)
Fixpoint unserializable (v : pyval) : option string :=
  match v with
  | PObject n => Some n
  | PList xs =>
      (fix first (xs : list pyval) : option string :=
         match xs with
         | [] => None
         | x :: rest => match unserializable x with
                        | Some n => Some n
                        | None => first rest
                        end
         end) xs
  | PDict items =>
      (fix first (items : list (string * pyval)) : option string :=
         match items with
         | [] => None
         | (_, x) :: rest => match unserializable x with
                             | Some n => Some n
                             | None => first rest
                             end
         end) items
  | _ => None
  end.

Definition dumps (v : pyval) : outcome string :=
  match unserializable v with
  | Some n => Raise (TypeError ("Object of type " +:+ n +:+ " is not JSON serializable"))
  | None => Ret (encode v)
  end.

(** *** [json.loads] *)

Inductive parsed (A : Type) : Type :=
| Parsed (a : A) (rest : string)
| Malformed (msg : string)
| Exhausted.
Arguments Parsed {A} a rest.
Arguments Malformed {A} msg.
Arguments Exhausted {A}.

Definition is_ws (c : ascii) : bool :=
  Ascii.eqb c " " || Ascii.eqb c "009" || Ascii.eqb c "010" || Ascii.eqb c "013".

Fixpoint skip_ws (s : string) : string :=
  match s with
  | String c rest => if is_ws c then skip_ws rest else s
  | EmptyString => s
  end.

Definition is_digit (c : ascii) : bool :=
  let n := N_of_ascii c in ((48 <=? n) && (n <=? 57))%N.

(** The longest run of digits at the front, and what follows it. *)
Fixpoint span_digits (s : string) : string * string :=
  match s with
  | String c rest =>
      if is_digit c then let '(ds, r) := span_digits rest in (String c ds, r)
      else (EmptyString, s)
  | EmptyString => (EmptyString, EmptyString)
  end.

Definition hex_value (c : ascii) : option N :=
  let n := N_of_ascii c in
  if ((48 <=? n) && (n <=? 57))%N then Some (n - 48)%N
  else if ((97 <=? n) && (n <=? 102))%N then Some (n - 87)%N
  else if ((65 <=? n) && (n <=? 70))%N then Some (n - 55)%N
  else None.

(** The four hex digits after [\u]. *)
Definition decode_uXXXX (s : string) : option (N * string) :=
  match s with
  | String a (String b (String c (String d rest))) =>
      match hex_value a, hex_value b, hex_value c, hex_value d with
      | Some a, Some b, Some c, Some d => Some (((a * 16 + b) * 16 + c) * 16 + d, rest)%N
      | _, _, _, _ => None
      end
  | _ => None
  end.

(** The character an escape letter stands for. *)
Definition unescape (c : ascii) : option ascii :=
  if Ascii.eqb c quote then Some quote
  else if Ascii.eqb c backslash then Some backslash
  else if Ascii.eqb c "/" then Some "/"%char
  else if Ascii.eqb c "b" then Some "008"%char
  else if Ascii.eqb c "f" then Some "012"%char
  else if Ascii.eqb c "n" then Some "010"%char
  else if Ascii.eqb c "r" then Some "013"%char
  else if Ascii.eqb c "t" then Some "009"%char
  else None.

(** [scanstring], from the character after the opening quote. *)
Fixpoint scanstring (fuel : nat) (s : string) : parsed string :=
  match fuel with
  | O => Exhausted
  | S fuel =>
      match s with
      | EmptyString => Malformed "Unterminated string starting at"
      | String c rest =>
          if Ascii.eqb c quote then Parsed "" rest
          else if Ascii.eqb c backslash then
            match rest with
            | EmptyString => Malformed "Unterminated string starting at"
            | String "u" rest' =>
                match decode_uXXXX rest' with
                | Some (n, rest'') =>
                    if (n <? 256)%N then
                      match scanstring fuel rest'' with
                      | Parsed s' r => Parsed (String (ascii_of_N n) s') r
                      | other => other
                      end
                    else Malformed "code point outside the modelled text"
                | None => Malformed "Invalid \uXXXX escape"
                end
            | String e rest' =>
                match unescape e with
                | Some ch =>
                    match scanstring fuel rest' with
                    | Parsed s' r => Parsed (String ch s') r
                    | other => other
                    end
                | None => Malformed "Invalid \escape"
                end
            end
          else if (N_of_ascii c <? 32)%N then Malformed "Invalid control character at"
          else
            match scanstring fuel rest with
            | Parsed s' r => Parsed (String c s') r
            | other => other
            end
      end
  end.

(** The fraction of the number pattern (a dot and at least one digit),
    if it is there. *)
Definition scan_frac (s : string) : option string :=
  match s with
  | String "." rest =>
      match span_digits rest with
      | (EmptyString, _) => None
      | (_, r) => Some r
      end
  | _ => None
  end.

(** The exponent of the number pattern (e or E, an optional sign and at
    least one digit), if it is there. *)
Definition scan_exp (s : string) : option string :=
  match s with
  | String c rest =>
      if Ascii.eqb c "e" || Ascii.eqb c "E" then
        let digits :=
          match rest with
          | String sign rest' =>
              if Ascii.eqb sign "-" || Ascii.eqb sign "+" then rest' else rest
          | EmptyString => rest
          end in
        match span_digits digits with
        | (EmptyString, _) => None
        | (_, r) => Some r
        end
      else None
  | EmptyString => None
  end.

(** The integer part of the number pattern: a lone zero, or a digit from
    1 to 9 followed by any digits. *)
Definition scan_integer (s : string) : option (string * string) :=
  match s with
  | String "0" rest => Some ("0", rest)
  | String c _ => if is_digit c then Some (span_digits s) else None
  | EmptyString => None
  end.

Definition int_of_digits (negative : bool) (ds : string) : Z :=
  match NilEmpty.uint_of_string ds with
  | Some d => if negative then - Z.of_N (N.of_uint d) else Z.of_N (N.of_uint d)
  | None => 0
  end.

(** A match of the number pattern at the front of the text. *)
Definition scan_number (s : string) : option (pyval * string) :=
  let '(negative, s1) :=
    match s with
    | String "-" rest => (true, rest)
    | _ => (false, s)
    end in
  match scan_integer s1 with
  | None => None
  | Some (ds, r) =>
      match scan_frac r with
      | Some r1 =>
          Some (PObject "float", match scan_exp r1 with Some r2 => r2 | None => r1 end)
      | None =>
          match scan_exp r with
          | Some r2 => Some (PObject "float", r2)
          | None => Some (PInt (int_of_digits negative ds), r)
          end
      end
  end.

(** [s.startswith(word)], giving what follows the word. *)
Fixpoint strip_prefix (word s : string) : option string :=
  match word, s with
  | EmptyString, _ => Some s
  | String a word', String b s' => if Ascii.eqb a b then strip_prefix word' s' else None
  | String _ _, EmptyString => None
  end.

(** [dict(pairs)]: a later pair with a key already seen replaces the
    value and keeps the key where it was first put. *)
Fixpoint dict_set (k : string) (v : pyval) (items : list (string * pyval))
  : list (string * pyval) :=
  match items with
  | [] => [(k, v)]
  | (k', v') :: rest =>
      if (k' =? k)%string then (k, v) :: rest else (k', v') :: dict_set k v rest
  end.

Definition dict_of_pairs (pairs : list (string * pyval)) : list (string * pyval) :=
  fold_left (fun d kv => dict_set (fst kv) (snd kv) d) pairs [].

(** [scan_once], with the array and the object loops.  A call uses one
    unit of [fuel]; twice the length of the text and one more is always
    enough. *)
Fixpoint scan_once (fuel : nat) (s : string) : parsed pyval :=
  match fuel with
  | O => Exhausted
  | S fuel =>
      match s with
      | EmptyString => Malformed "Expecting value"
      | String c rest =>
          if Ascii.eqb c quote then
            match scanstring (S (String.length rest)) rest with
            | Parsed str r => Parsed (PStr str) r
            | Malformed m => Malformed m
            | Exhausted => Exhausted
            end
          else if Ascii.eqb c "{" then
            match skip_ws rest with
            | String "}" r => Parsed (PDict []) r
            | String "034" r => scan_members fuel r []
            | _ => Malformed "Expecting property name enclosed in double quotes"
            end
          else if Ascii.eqb c "[" then
            match skip_ws rest with
            | String "]" r => Parsed (PList []) r
            | r => scan_elements fuel r []
            end
          else
            match strip_prefix "null" s, strip_prefix "true" s, strip_prefix "false" s with
            | Some r, _, _ => Parsed PNone r
            | _, Some r, _ => Parsed (PBool true) r
            | _, _, Some r => Parsed (PBool false) r
            | None, None, None =>
                match scan_number s with
                | Some (v, r) => Parsed v r
                | None =>
                    match strip_prefix "NaN" s, strip_prefix "Infinity" s,
                          strip_prefix "-Infinity" s with
                    | Some r, _, _ | _, Some r, _ | _, _, Some r => Parsed (PObject "float") r
                    | None, None, None => Malformed "Expecting value"
                    end
                end
            end
      end
  end

(** The loop of [JSONArray], at the start of an element; [acc] holds the
    elements read so far, newest first. *)
with scan_elements (fuel : nat) (s : string) (acc : list pyval) : parsed pyval :=
  match fuel with
  | O => Exhausted
  | S fuel =>
      match scan_once fuel s with
      | Parsed v r =>
          match skip_ws r with
          | String "]" r' => Parsed (PList (rev (v :: acc))) r'
          | String "," r' => scan_elements fuel (skip_ws r') (v :: acc)
          | _ => Malformed "Expecting ',' delimiter"
          end
      | other => other
      end
  end

(** The loop of [JSONObject], after the opening quote of a key. *)
with scan_members (fuel : nat) (s : string) (acc : list (string * pyval)) : parsed pyval :=
  match fuel with
  | O => Exhausted
  | S fuel =>
      match scanstring (S (String.length s)) s with
      | Parsed key r =>
          match skip_ws r with
          | String ":" r' =>
              match scan_once fuel (skip_ws r') with
              | Parsed v r2 =>
                  match skip_ws r2 with
                  | String "}" r3 => Parsed (PDict (dict_of_pairs (rev ((key, v) :: acc)))) r3
                  | String "," r3 =>
                      match skip_ws r3 with
                      | String "034" r4 => scan_members fuel r4 ((key, v) :: acc)
                      | _ => Malformed "Expecting property name enclosed in double quotes"
                      end
                  | _ => Malformed "Expecting ',' delimiter"
                  end
              | other => other
              end
          | _ => Malformed "Expecting ':' delimiter"
          end
      | Malformed m => Malformed m
      | Exhausted => Exhausted
      end
  end.

Definition loads (s : string) : outcome pyval :=
  match scan_once (2 * String.length s + 1) (skip_ws s) with
  | Parsed v rest =>
      match skip_ws rest with
      | EmptyString => Ret v
      | _ => Raise (JSONDecodeError "Extra data")
      end
  | Malformed m => Raise (JSONDecodeError m)
  | Exhausted => Raise (Exception "maximum recursion depth exceeded")
  end.

(** *** Predicates on texts, for the properties of the codec *)

(** Printable ASCII, all of it. *)
Fixpoint printable (s : string) : bool :=
  match s with
  | EmptyString => true
  | String c rest =>
      ((32 <=? N_of_ascii c) && (N_of_ascii c <=? 126))%N && printable rest
  end.

(** What may follow the text of an integer for the number pattern to stop
    there. *)
Definition ends_number (rest : string) : bool :=
  match rest with
  | EmptyString => true
  | String c _ =>
      negb (is_digit c || Ascii.eqb c "." || Ascii.eqb c "e" || Ascii.eqb c "E")
  end.

(** The first character of an encoded value: no blank, no closing
    bracket or brace. *)
Definition starts_value (s : string) : bool :=
  match s with
  | EmptyString => false
  | String c _ => negb (is_ws c || Ascii.eqb c "]" || Ascii.eqb c "}")
  end.

(** A value whose text is read back, whatever follows it. *)
Definition reads_back (v : pyval) : Prop :=
  forall fuel rest,
    (2 * String.length (encode v) + 1 <= fuel)%nat ->
    ends_number rest = true ->
    scan_once fuel (encode v +:+ rest) = Parsed v rest.

(** *** The branches of [scan_once], for the properties of the parser *)





End Json.

(** The manager [_initialize_render] builds in a world. *)
Definition render_manager (w : world) : RenderFileManager.t :=
  RenderFileManager.init "https://file-manager-vist.onrender.com"
                         (environ w !! "RENDER_FILE_API_KEY").

(** ** Error tags *)

(** The bracketed tags the adapters and the router put in front of an
    error message. *)
Definition error_tags : list string :=
  [ "[AWS Download Error] "; "[AWS Upload Error] "; "[AWS Put Error] ";
    "[AWS Get Error] "; "[Render Download Error] "; "[Render Upload Error] ";
    "[Render Put Error] "; "[Render Get Error] "; "[Local Write Error] ";
    "[Local Read Error] "; "[Amazon Read Error] "; "[Render Read Error] " ].

(** [s.startswith(prefix)] *)
Fixpoint startswith (s prefix : string) {struct prefix} : bool :=
  match prefix with
  | EmptyString => true
  | String a prefix' =>
      match s with
      | String b s' => Ascii.eqb a b && startswith s' prefix'
      | EmptyString => false
      end
  end.

Definition has_tag (error : string) : bool :=
  existsb (startswith error) error_tags.

(** ** Vocabulary of the properties *)

(** The three variables [_initialize_amazon] asks for are all set. *)
Definition amazon_configured (w : world) : Prop :=
  is_Some (environ w !! "AWS_WATCHDOG_ACCESS_KEY") /\
  is_Some (environ w !! "AWS_WATCHDOG_SECRET_KEY") /\
  is_Some (environ w !! "AWS_WATCHDOG_BUCKET").

(** A call that asks a backend for the content of an object. *)
Definition is_backend_read (ev : io_event) : bool :=
  match ev with
  | EvOpen _ mode => (mode =? "r")%string
  | EvS3 _ _ _ (S3GetObject _ _) => true
  | EvHttp req => (http_method req =? "GET")%string
  | _ => false
  end.

#[local] Instance amazon_configured_dec (w : world) : Decision (amazon_configured w).
Proof. unfold amazon_configured. apply _. Defined.

(** What [_initialize_amazon] raises. *)
Definition environment_error : exn :=
  EnvironmentError "One or more Environment Variables not available".

(** A result that is the empty error or a tagged one. *)
Definition clean_or_tagged (e : string) : Prop := e = "" \/ has_tag e = true.

(** Where a write stops before it reaches its backend, and with what. *)
Definition write_stops (json_dumps : pyval -> outcome string)
  (data : pyval) (data_format : string) : option exn :=
  if (data_format =? "json")%string then
    match json_dumps data with
    | Ret _ => None
    | Raise e => Some e
    end
  else if (data_format =? "text")%string then None
  else Some (TypeError unsupported_format).

(** What a read that got past its initialisation comes to, given the one
    event it logs. *)
Definition read_result (json_loads : string -> outcome pyval)
  (host data_format : string) (ev : io_event)
  (r : outcome (pyval * string) * world) (w : world) : Prop :=
  (exists e, r = (Ret (PNone, e), log ev w) /\ has_tag e = true)
  \/ (data_format <> "text" /\ (data_format <> "json" \/ host = "Render")
      /\ r = (Ret (PNone, unsupported_format), log ev w))
  \/ (data_format = "text" /\ exists d, r = (Ret (d, ""), log ev w))
  \/ (data_format = "json" /\ exists text,
        match json_loads text with
        | Ret d => r = (Ret (d, ""), log ev w)
        | Raise e => is_JSONDecodeError e = false /\ r = (Raise e, log ev w)
        end).

(** A text without a carriage return: what reading in text mode leaves
    as it is. *)
Definition no_carriage_return (s : string) : bool :=
  forallb (fun c => negb (Ascii.eqb c "013")) (list_ascii_of_string s).

(** A text made of slashes only. *)
Fixpoint only_slashes (s : string) : bool :=
  match s with
  | EmptyString => true
  | String c rest => Ascii.eqb c "/" && only_slashes rest
  end.

(** [s.endswith('/')] *)
Fixpoint ends_with_slash (s : string) : bool :=
  match s with
  | EmptyString => false
  | String c EmptyString => Ascii.eqb c "/"
  | String _ rest => ends_with_slash rest
  end.


(** A reply from which no ["data"] can be taken: no reply at all, a
    status that [raise_for_status] refuses, a body that is not JSON, or a
    JSON value without that field. *)
Definition exchange_fails (r : http_response) : Prop :=
  match r with
  | ConnectionError _ => True
  | Response st _ body =>
      400 <= st < 600
      \/ match body with
         | Some (PDict items) => find (fun kv => fst kv =? "data")%string items = None
         | _ => True
         end
  end.

(** ** Sample services and worlds *)

Definition no_file_error : string -> string -> option string := fun _ _ => None.

(** The object last put under a bucket and key, in a trace. *)
Fixpoint s3_lookup (tr : list io_event) (bucket key : string) : option string :=
  match tr with
  | [] => None
  | EvS3 _ _ _ (S3PutObject b k body _) :: rest =>
      if ((b =? bucket) && (k =? key))%string then Some body
      else s3_lookup rest bucket key
  | _ :: rest => s3_lookup rest bucket key
  end.

(** An object store that keeps what it is given. *)
Definition s3_store (tr : list io_event) (req : s3_request) : s3_response :=
  match req with
  | S3PutObject _ _ _ _ => S3Ok ""
  | S3GetObject b k =>
      match s3_lookup tr b k with
      | Some body => S3Ok body
      | None => S3Error ("An error occurred (NoSuchKey) when calling the GetObject "
                         +:+ "operation: The specified key does not exist.")
      end
  | S3HeadObject b k =>
      match s3_lookup tr b k with
      | Some _ => S3Ok ""
      | None => S3Error "An error occurred (404) when calling the HeadObject operation: Not Found"
      end
  end.

Definition s3_unreachable (tr : list io_event) (req : s3_request) : s3_response :=
  S3Error "Could not connect to the endpoint URL".

(** What was last put under a URL, in a trace. *)
Fixpoint disk_lookup (tr : list io_event) (url : string) : option (pyval * string) :=
  match tr with
  | [] => None
  | EvHttp (HttpRequest "PUT" u _ _ (Some stored)) :: rest =>
      if (u =? url)%string then Some stored else disk_lookup rest url
  | _ :: rest => disk_lookup rest url
  end.

Definition reply_ok (v : pyval) : http_response :=
  Response 200 "OK" (Some (PDict [("data", v)])).

Definition reply_not_found : http_response :=
  Response 404 "Not Found" (Some (PDict [("detail", PStr "File not found")])).

(** A file service that hands back what it stored, whatever format is
    asked for. *)
Definition plain_service (tr : list io_event) (req : http_request) : http_response :=
  if (http_method req =? "PUT")%string then
    Response 200 "OK" (Some (PDict [("message", PStr "File saved")]))
  else
    match disk_lookup tr (http_url req) with
    | Some (v, _) => reply_ok v
    | None => reply_not_found
    end.

(** A file service that checks the API key and, asked for [json], reads
    the stored text as JSON and replies with the decoded value. *)
Definition decoding_service (api_key : string)
  (tr : list io_event) (req : http_request) : http_response :=
  if negb (bool_decide (http_api_key req = Some api_key)) then
    Response 401 "Unauthorized" (Some (PDict [("detail", PStr "Invalid API key")]))
  else if (http_method req =? "PUT")%string then
    Response 200 "OK" (Some (PDict [("message", PStr "File saved")]))
  else
    match disk_lookup tr (http_url req), http_params req with
    | Some (PStr text, _), Some "json" =>
        match Json.loads text with
        | Ret v => reply_ok v
        | Raise e => Response 500 "Internal Server Error" None
        end
    | Some (v, _), _ => reply_ok v
    | None, _ => reply_not_found
    end.

Definition offline_service (tr : list io_event) (req : http_request) : http_response :=
  ConnectionError "HTTPSConnectionPool(host='file-manager-vist.onrender.com', port=443): Max retries exceeded".

(** A laptop: nothing set in the environment, an empty directory. *)
Definition laptop : world :=
  World ∅ "laptop" ∅ no_file_error s3_unreachable offline_service [].

(** The same with a file [notes.txt]. *)
Definition laptop_with_notes : world :=
  World ∅ "laptop" {[ "notes.txt" := "hello world" ]} no_file_error
        s3_unreachable offline_service [].

(** A Render instance with its API key, talking to the decoding service. *)
Definition render_box : world :=
  World {[ "RENDER" := "true"; "RENDER_FILE_API_KEY" := "s3cret" ]} "srv-1" ∅
        no_file_error s3_unreachable (decoding_service "s3cret") [].

(** That instance after a JSON document was put on the service. *)
Definition render_box_with_cfg : world :=
  snd (put Json.dumps "cfg.json" (PDict [("a", PInt 1)]) "Render" "json" render_box).

(** A Render instance whose API key is not set, and a service that does
    not ask for one. *)
Definition render_box_no_key : world :=
  World {[ "RENDER" := "true" ]} "srv-1" ∅ no_file_error s3_unreachable plain_service [].

(** A Lambda function with the three object-store variables. *)
Definition lambda : world :=
  World {[ "AWS_LAMBDA_FUNCTION_NAME" := "watchdog"; "RENDER" := "true";
           "AWS_WATCHDOG_ACCESS_KEY" := "AKIA"; "AWS_WATCHDOG_SECRET_KEY" := "abc";
           "AWS_WATCHDOG_BUCKET" := "watchdog-bucket" ]}
        "ip-10-0-0-1" ∅ no_file_error s3_store offline_service [].

(** The same without the bucket name. *)
Definition lambda_no_bucket : world :=
  World {[ "AWS_LAMBDA_FUNCTION_NAME" := "watchdog";
           "AWS_WATCHDOG_ACCESS_KEY" := "AKIA"; "AWS_WATCHDOG_SECRET_KEY" := "abc" ]}
        "ip-10-0-0-1" ∅ no_file_error s3_store offline_service [].

(** A Render instance with a local file [draft.txt], after a newer text
    was put on the service under the same name. *)
Definition render_box_with_draft : world :=
  snd (put Json.dumps "draft.txt" (PStr "v2") "Render" "text"
           (set_files {[ "draft.txt" := "v1" ]} render_box_no_key)).

(** A Render instance and a Lambda function with a local file [notes.txt]. *)
Definition render_box_with_notes : world :=
  set_files {[ "notes.txt" := "hello world" ]} render_box_no_key.

Definition lambda_with_notes : world :=
  set_files {[ "notes.txt" := "hello world" ]} lambda.

(** * EmailUtil and ConsoleUtil

    [EmailUtil/send_html_email.py], [EmailUtil/email_error.py] and
    [ConsoleUtil/timed_print.py] run on a [station]: the process
    environment, the files that can be attached, the clock, the console
    and the mail server.  The server is outside the repository, and so
    are [mimetypes] and the HTML parser: the first answers each call as an
    arbitrary function of the calls before it, the other two are
    parameters. *)

(** ** Text *)

(** A double quote, a newline and a carriage return, as texts of one
    character. *)
Definition dq : string := String "034" EmptyString.
Definition newline : string := String "010" EmptyString.
Definition carriage_return : string := String "013" EmptyString.

(** [s.split(sep)] for a separator of one character *)
Fixpoint split_on (sep : ascii) (s : string) : list string :=
  match s with
  | EmptyString => [EmptyString]
  | String c rest =>
      if Ascii.eqb c sep then EmptyString :: split_on sep rest
      else match split_on sep rest with
           | piece :: pieces => String c piece :: pieces
           | [] => [String c EmptyString]
           end
  end.

(** [sub in s] *)
Fixpoint contains (s sub : string) : bool :=
  startswith s sub
  || match s with
     | EmptyString => false
     | String _ rest => contains rest sub
     end.

(** [s.replace(old, new)] for a non-empty [old]: the occurrences are taken
    from the left and do not overlap.  [skip] counts the characters of the
    occurrence just replaced that are still to be passed over. *)
Fixpoint replace_from (skip : nat) (old new s : string) : string :=
  match s with
  | EmptyString => EmptyString
  | String c rest =>
      match skip with
      | S skip' => replace_from skip' old new rest
      | O =>
          if startswith s old
          then new +:+ replace_from (String.length old - 1) old new rest
          else String c (replace_from O old new rest)
      end
  end.

Definition str_replace (old new s : string) : string := replace_from 0 old new s.

(** [template.format(arg)] for a template with a single [{}] field *)
Fixpoint str_format (template arg : string) : string :=
  match template with
  | EmptyString => EmptyString
  | String "{" (String "}" rest) => arg +:+ rest
  | String c rest => String c (str_format rest arg)
  end.

(** [''.join(pieces)] *)
Definition join (pieces : list string) : string :=
  fold_right String.append EmptyString pieces.

(** [enumerate(l)], counting from [i] *)
Fixpoint enumerate_from {A} (i : nat) (l : list A) : list (nat * A) :=
  match l with
  | [] => []
  | x :: rest => (i, x) :: enumerate_from (S i) rest
  end.

(** [s.rfind(c)]: the last index of [c] in [s], or -1 *)
Fixpoint rfind (c : ascii) (s : string) : Z :=
  match s with
  | EmptyString => -1
  | String a rest =>
      let i := rfind c rest in
      if 0 <=? i then i + 1 else if Ascii.eqb a c then 0 else -1
  end.

(** [s[i:j]] for [0 <= i] and [0 <= j] *)
Definition slice (i j : Z) (s : string) : string :=
  substring (Z.to_nat i) (Z.to_nat j - Z.to_nat i) s.

(** [s.lower()] on code points below 256: the capital letters of ASCII
    and of Latin-1 (the multiplication sign lies among the latter). *)
Definition lower_char (c : ascii) : ascii :=
  let n := N_of_ascii c in
  if ((65 <=? n) && (n <=? 90) || (192 <=? n) && (n <=? 222) && negb (n =? 215))%N
  then ascii_of_N (n + 32) else c.

Fixpoint lower (s : string) : string :=
  match s with
  | EmptyString => EmptyString
  | String c rest => String (lower_char c) (lower rest)
  end.

(** [os.path.splitext(p)]: the extension starts at the last dot of the
    last component, unless only dots come before it there. *)
Definition splitext (p : string) : string * string :=
  let sepIndex := rfind "/" p in
  let dotIndex := rfind "." p in
  if sepIndex <? dotIndex then
    let filenameIndex := sepIndex + 1 in
    if existsb (fun c => negb (Ascii.eqb c "."))
               (list_ascii_of_string (slice filenameIndex dotIndex p))
    then (slice 0 dotIndex p, slice dotIndex (Z.of_nat (String.length p)) p)
    else (p, EmptyString)
  else (p, EmptyString).

(** [os.path.basename(p)] *)
Definition basename (p : string) : string :=
  slice (rfind "/" p + 1) (Z.of_nat (String.length p)) p.

(** [s.ljust(width)] *)
Definition ljust (width : nat) (s : string) : string :=
  s +:+ string_of_list_ascii (repeat " "%char (width - String.length s)).

(** ** The station *)

Inductive failure : Type :=
| AttributeError (msg : string)
| IndexError (msg : string)
| ValueError (msg : string)
| OSError (msg : string)
| SMTPException (msg : string).

Inductive result (A : Type) : Type :=
| Done (a : A)
| Failed (e : failure).
Arguments Done {A} a.
Arguments Failed {A} e.

(** A part of a multipart message: the HTML body, or an attachment with
    its type, its content (base64 on the wire) and its
    [Content-Disposition] header. *)
Inductive mime_part : Type :=
| MIMEText (text subtype : string)
| MIMEBase (main_type sub_type payload content_disposition : string).

Record message : Type := MIMEMultipart {
  msg_From : option string;
  msg_To : option string;
  msg_Subject : string;
  msg_parts : list mime_part
}.

(** [msg.attach(part)] *)
Definition attach (part : mime_part) (msg : message) : message :=
  MIMEMultipart (msg_From msg) (msg_To msg) (msg_Subject msg) (msg_parts msg ++ [part]).

(** What goes to the mail server, and the files opened to be attached. *)
Inductive call : Type :=
| SMTP (host port : option string)
| Starttls
| Login (user password : option string)
| SendMessage (msg : message)
| SmtpQuit
| OpenAttachment (path : string).

(** [datetime.datetime.now()], as far as [strftime("%H:%M:%S")] shows it *)
Record datetime : Type := Datetime { hour : Z; minute : Z; second : Z }.

Record station : Type := Station {
  env : gmap string string;
  disk : gmap string string;
  clock : datetime;
  (** what the server makes of a call, given the calls before it: [None]
      when the call goes through, else the text of the exception *)
  mail_server : list call -> call -> option string;
  stdout : string;
  (** every call so far, newest first *)
  calls : list call
}.

Definition Run (A : Type) : Type := station -> result A * station.

#[global] Instance Run_ret : MRet Run := fun A a h => (Done a, h).

#[global] Instance Run_bind : MBind Run := fun A B k m h =>
  match m h with
  | (Done a, h') => k a h'
  | (Failed e, h') => (Failed e, h')
  end.

Definition throw {A} (e : failure) : Run A := fun h => (Failed e, h).

(** [os.getenv(name)] *)
Definition getenv (name : string) : Run (option string) :=
  fun h => (Done (env h !! name), h).

(** [os.get(name)]: the module [os] has no attribute [get] *)
Definition os_get (name : string) : Run (option string) :=
  throw (AttributeError "module 'os' has no attribute 'get'").

(** [print(text, end=last)] *)
Definition print (text last : string) : Run unit :=
  fun h => (Done tt,
            Station (env h) (disk h) (clock h) (mail_server h)
                    (stdout h +:+ text +:+ last) (calls h)).

(** A call of [smtplib]. *)
Definition smtp (c : call) : Run unit :=
  fun h =>
    let h1 := Station (env h) (disk h) (clock h) (mail_server h) (stdout h) (c :: calls h) in
    match mail_server h (calls h) c with
    | None => (Done tt, h1)
    | Some msg => (Failed (SMTPException msg), h1)
    end.

(** [open(path, 'rb')] followed by [file.read()] *)
Definition read_attachment (path : string) : Run string :=
  fun h =>
    let h1 := Station (env h) (disk h) (clock h) (mail_server h) (stdout h)
                      (OpenAttachment path :: calls h) in
    match disk h !! path with
    | Some content => (Done content, h1)
    | None => (Failed (OSError ("[Errno 2] No such file or directory: '" +:+ path +:+ "'")), h1)
    end.

(** ** [send_html_email.py] *)

Module send_html_email.
Section Libraries.

(** The type that [mimetypes.guess_type] gives for a file name, [None]
    when it knows none. *)
Variable mimetypes_guess_type : string -> option string.

(** [guess_mime_type], lines 10-24 *)
Definition guess_mime_type (filename : string) : string :=
  match mimetypes_guess_type filename with
  | None =>
      let ext := lower (snd (splitext filename)) in
      if (ext =? ".log")%string then "text/plain"
      else "application/octet-stream"
  | Some mime_type => mime_type
  end.

(** [main_type, sub_type = mime_type.split('/', 1)] *)
Definition split_mime_type (mime_type : string) : Run (string * string) :=
  match String.index 0 "/" mime_type with
  | Some i =>
      mret (substring 0 i mime_type,
            substring (S i) (String.length mime_type - S i) mime_type)
  | None => throw (ValueError "not enough values to unpack (expected 2, got 1)")
  end.

(** The body of the loop over the attachments, lines 63-79. *)
Definition attach_file (msg : message) (attachment : string) : Run message :=
  let filename := basename attachment in
  let mime_type := guess_mime_type filename in
  '(main_type, sub_type) ← split_mime_type mime_type;
  payload ← read_attachment attachment;
  mret (attach (MIMEBase main_type sub_type payload
                         ("attachment; filename=" +:+ dq +:+ filename +:+ dq))
               msg).

Fixpoint attach_files (msg : message) (attachments : list string) : Run message :=
  match attachments with
  | [] => mret msg
  | attachment :: rest =>
      msg ← attach_file msg attachment;
      attach_files msg rest
  end.

(** [send], lines 27-82 *)
Definition send (to : option string) (subject : string) (body : option string)
  (attachments : list string) : Run unit :=
  root ← getenv "market_root";
  email ← os_get "email_address";
  sender ← getenv "email_sender";
  pwd ← getenv "email_pwd";
  server ← getenv "email_server";
  port ← getenv "email_port";
  _ ← smtp (SMTP server port);
  _ ← smtp Starttls;
  _ ← smtp (Login sender pwd);
  let msg := MIMEMultipart sender to subject [] in
  let msg :=
    match body with
    | Some text => if 0 <? Z.of_nat (String.length text)
                   then attach (MIMEText text "html") msg else msg
    | None => msg
    end in
  msg ← attach_files msg attachments;
  _ ← smtp (SendMessage msg);
  smtp SmtpQuit.

End Libraries.
End send_html_email.

(** ** [email_error.py] *)

Module email_error.
Section Libraries.

Variable mimetypes_guess_type : string -> option string.

(** The parser: for an HTML text, the first [table] it finds there as the
    list of its rows, each the texts of its [td] cells; [None] when it
    finds no table. *)
Variable soup_find_table : string -> option (list (list string)).

(** The lines of the stack that go into the message, lines 26-41. *)
Definition stack_lines (stack : string) : list string :=
  let lines := split_on "010" stack in
  let lines := List.filter (fun s => negb (contains s "^^")) lines in
  let lines :=
    if (2 <? length lines)%nat
    then map snd (List.filter (fun p => fst p mod 2 =? 1)%nat (enumerate_from 0 lines))
    else lines in
  let lines := List.filter (fun s => negb (s =? "")%string) lines in
  let lines := map (str_replace "  File" "File") lines in
  let lines := map (str_replace "<" "&lt;") lines in
  let lines := map (str_replace ">" "&gt;") lines in
  lines.

(** One row of the table per line, lines 44-45: [lines[0]] raises on an
    empty list. *)
Definition stack_rows (lines : list string) : Run (list string) :=
  match lines with
  | [] => throw (IndexError "list index out of range")
  | first :: rest =>
      mret (str_format "<tr><td>Stack &darr;&darr;: </td><td>{}</td></tr>" first
            :: map (str_format "<tr><td></td><td>{}</td></tr>") rest)
  end.

(** The text of the message, lines 48-54. *)
Definition message_body (stack_rows : list string) (msg progress : string) : string :=
  let progress_row :=
    str_format ("<tr><td style=" +:+ dq +:+ "padding-right: 10px;" +:+ dq
            +:+ ">Progress:  </td><td>{}</td></tr>") progress in
  let error_row := str_format "<tr><td>Error: </td><td>{}</td></tr>" msg in
  let msg1 := join stack_rows in
  let msg2 := progress_row in
  let msg3 := error_row in
  let msg := msg1 +:+ msg2 +:+ msg3 in
  str_format ("<!DOCTYPE html><html><body><table style=" +:+ dq +:+ "font-weight: bold;"
          +:+ dq +:+ ">{}</table></body></html>") msg.

(** The row format ['{:<11}{:<}'] applied to the cells, line 63: the first
    cell left-justified in 11 columns, then the second. *)
Definition format_row (cols : list string) : Run string :=
  match cols with
  | [] => throw (IndexError "Replacement index 0 out of range for positional args tuple")
  | [_] => throw (IndexError "Replacement index 1 out of range for positional args tuple")
  | first :: second :: _ => mret (ljust 11 first +:+ second)
  end.

Fixpoint print_rows (rows : list (list string)) : Run unit :=
  match rows with
  | [] => mret tt
  | cols :: rest =>
      line ← format_row cols;
      _ ← print line newline;
      print_rows rest
  end.

Definition Fore_CYAN : string := String "027" "[36m".
Definition Fore_WHITE : string := String "027" "[37m".

(** The copy of the message on the console, lines 57-65. *)
Definition print_to_console (body : string) : Run unit :=
  _ ← print (Fore_CYAN +:+ newline) newline;
  _ ← print "-------------------------------------Start Error Text-----------------------------------" newline;
  table ← match soup_find_table body with
          | Some rows => mret rows
          | None => throw (AttributeError "'NoneType' object has no attribute 'find_all'")
          end;
  _ ← print_rows table;
  _ ← print "--------------------------------------End Error Text-------------------------------------" newline;
  print Fore_WHITE newline.

(** [send], lines 7-69 *)
Definition send (to_addr : option string) (msg stack progress : string)
  (subject : option string) (attachments : list string) : Run unit :=
  to_addr ← match to_addr with
            | None => getenv "email_address"
            | Some _ => mret to_addr
            end;
  let lines := stack_lines stack in
  stack_rows ← stack_rows lines;
  let body := message_body stack_rows msg progress in
  _ ← print_to_console body;
  let subject :=
    match subject with
    | None => "Program Error Notification"
    | Some subject => subject
    end in
  send_html_email.send mimetypes_guess_type to_addr subject (Some body) attachments.

End Libraries.
End email_error.

(** ** [timed_print.py] *)

(** [n] in two digits, as [%H], [%M] and [%S] write it *)
Definition two_digits (n : Z) : string :=
  if n <? 10 then "0" +:+ str_of_Z n else str_of_Z n.

(** [t.strftime("%H:%M:%S")] *)
Definition strftime (t : datetime) : string :=
  two_digits (hour t) +:+ ":" +:+ two_digits (minute t) +:+ ":" +:+ two_digits (second t).

(** ["   " * tabs] *)
Definition indentation (tabs : Z) : string :=
  string_of_list_ascii (concat (repeat [" "; " "; " "]%char (Z.to_nat tabs))).

(** [name in os.environ] *)
Definition environ_has (name : string) : Run bool :=
  fun h => (Done (bool_decide (is_Some (env h !! name))), h).

(** [datetime.datetime.now()] *)
Definition datetime_now : Run datetime :=
  fun h => (Done (clock h), h).

(** [print(a, b, c, end=last)]: one space between the arguments *)
Definition print3 (a b c last : string) : Run unit :=
  print (a +:+ " " +:+ b +:+ " " +:+ c) last.

(** [timed_print], lines 12-17 *)
Definition timed_print (msg : string) (tabs : Z) (no_cr : bool) : Run string :=
  debugging ← environ_has "PYDEVD_LOAD_VALUES_ASYNC";
  if no_cr && negb debugging then
    t ← datetime_now;
    _ ← print3 (strftime t) (indentation tabs) msg carriage_return;
    mret msg
  else
    t ← datetime_now;
    _ ← print3 (strftime t) (indentation tabs) msg newline;
    mret msg.

(** ** Vocabulary of the properties of the utilities *)

(** A frame of a traceback as the interpreter prints it: where the call
    is, the source line and, on recent interpreters, a line of carets
    under the source line. *)
Record frame : Type := Frame {
  location : string;
  source_line : string;
  carets : option string
}.

Definition frame_lines (f : frame) : list string :=
  ("  File " +:+ location f) :: ("    " +:+ source_line f)
  :: match carets f with
     | Some marks => ["    " +:+ marks]
     | None => []
     end.

(** Each line followed by a newline. *)
Definition unlines (lines : list string) : string :=
  join (map (fun l => l +:+ newline) lines).

(** The text of a traceback: the header, the frames from the outermost
    call inwards, and the exception. *)
Definition traceback (header : string) (frames : list frame) (error : string) : string :=
  unlines (header :: concat (map frame_lines frames) ++ [error]).

(** What the three replacements make of a line that is kept. *)
Definition stack_cell (line : string) : string :=
  str_replace ">" "&gt;" (str_replace "<" "&lt;" (str_replace "  File" "File" line)).

(** A text that fits on one line and shows no run of carets. *)
Definition plain_line (s : string) : Prop :=
  contains s newline = false /\ contains s "^^" = false.

(** A frame printed on lines of its own, with carets only on the line of
    carets. *)
Definition printed_frame (f : frame) : Prop :=
  plain_line (location f) /\ plain_line (source_line f)
  /\ match carets f with
     | Some marks =>
         contains marks newline = false /\ contains marks "^^" = true
     | None => True
     end.

(** A time of day. *)
Definition valid_time (t : datetime) : Prop :=
  0 <= hour t < 24 /\ 0 <= minute t < 60 /\ 0 <= second t < 60.

(** The character that ends the line [timed_print] writes. *)
Definition line_end (no_cr : bool) (h : station) : string :=
  if no_cr && negb (bool_decide (is_Some (env h !! "PYDEVD_LOAD_VALUES_ASYNC")))
  then carriage_return else newline.

(** A station with nothing set, at half past nine. *)
Definition office : station :=
  Station ∅ ∅ (Datetime 9 30 0) (fun _ _ => None) "" [].

(** Two stations that differ at most by what is on the console. *)
Definition console_only (h h' : station) : Prop :=
  env h' = env h /\ disk h' = disk h /\ clock h' = clock h
  /\ mail_server h' = mail_server h /\ calls h' = calls h.

(** ** Proof tools *)

(** Unfold the monad. *)
Ltac run :=
  unfold bind, ret, raise, lift, try_except, try_except_only,
         os_getenv, in_environ, socket_gethostname in *.

(** Close [e = "" \/ has_tag e = true] on a concrete prefix. *)
Ltac tagged := first [ left; reflexivity | right; reflexivity ].

(** * Properties *)

(** ** Running the monad *)

Lemma bind_eq {A B} (m : M A) (k : A -> M B) (w : world) :
  bind m k w = match m w with
               | (Ret a, w') => k a w'
               | (Raise e, w') => (Raise e, w')
               end.
Proof. reflexivity. Qed.

Lemma bind_ret_r {A} (m : M A) (w : world) : bind m ret w = m w.
Proof. unfold bind, ret. destruct (m w) as [[a|e] w']; reflexivity. Qed.

Lemma bind_ret_pair_r {A B} (m : M (A * B)) (w : world) :
  bind m (fun x => match x with (a, b) => ret (a, b) end) w = m w.
Proof. unfold bind, ret. destruct (m w) as [[[a b]|e] w']; reflexivity. Qed.

(** ** The JSON codec *)

Module JsonFacts.
Import Json.

Lemma append_nil (b : string) : "" +:+ b = b.
Proof. reflexivity. Qed.

Lemma append_cons (x : ascii) (a b : string) : String x a +:+ b = String x (a +:+ b).
Proof. reflexivity. Qed.

Lemma append_assoc (a b c : string) : (a +:+ b) +:+ c = a +:+ (b +:+ c).
Proof.
  induction a as [|x a IH]; [reflexivity|].
  rewrite !append_cons. f_equal. exact IH.
Qed.

Lemma length_append (a b : string) :
  String.length (a +:+ b) = (String.length a + String.length b)%nat.
Proof.
  induction a as [|x a IH]; [reflexivity|].
  rewrite append_cons. simpl. by rewrite IH.
Qed.

(** *** Strings *)

(** One character written by [escape_char] is read back by one step of
    [scanstring]. *)
Lemma scanstring_escape_char (c : ascii) (fuel : nat) (tail : string) :
  scanstring (S fuel) (escape_char c +:+ tail)
  = match scanstring fuel tail with
    | Parsed s r => Parsed (String c s) r
    | other => other
    end.
Proof.
  destruct c as [[] [] [] [] [] [] [] []]; reflexivity.
Qed.

Lemma length_escape_char (c : ascii) : (1 <= String.length (escape_char c))%nat.
Proof. destruct c as [[] [] [] [] [] [] [] []]; vm_compute; lia. Qed.

Lemma length_escape (s : string) : (String.length s <= String.length (escape s))%nat.
Proof.
  induction s as [|c s IH]; simpl; [lia|].
  rewrite length_append. pose proof (length_escape_char c). lia.
Qed.

Lemma scanstring_escape (s : string) (fuel : nat) (rest : string) :
  (String.length s < fuel)%nat ->
  scanstring fuel (escape s +:+ String quote rest) = Parsed s rest.
Proof.
  revert fuel. induction s as [|c s IH]; intros fuel Hfuel.
  - destruct fuel; [lia|]. reflexivity.
  - destruct fuel as [|fuel]; [simpl in Hfuel; lia|].
    simpl escape. rewrite append_assoc, scanstring_escape_char.
    rewrite IH by (simpl in Hfuel; lia). reflexivity.
Qed.

(** *** Integers *)

Lemma span_digits_uint (d : Decimal.uint) (rest : string) :
  ends_number rest = true ->
  span_digits (NilEmpty.string_of_uint d +:+ rest) = (NilEmpty.string_of_uint d, rest).
Proof.
  intros Hrest. induction d; simpl NilEmpty.string_of_uint;
    rewrite ?append_cons; try (simpl; rewrite IHd; reflexivity).
  rewrite append_nil. destruct rest as [|c rest]; [reflexivity|].
  simpl in *. destruct (is_digit c); [discriminate|reflexivity].
Qed.

Lemma nzhead_not_zero (d d' : Decimal.uint) : Decimal.nzhead d <> Decimal.D0 d'.
Proof. induction d; simpl; try discriminate. exact IHd. Qed.

(** The decimal text of a positive number starts with a digit from 1 to 9. *)
Lemma pos_digits_head (p : positive) :
  exists c tail,
    NilEmpty.string_of_uint (Pos.to_uint p) = String c tail
    /\ is_digit c = true /\ c <> "0"%char.
Proof.
  pose proof (DecimalPos.Unsigned.to_uint_nonnil p) as Hnil.
  pose proof (DecimalPos.Unsigned.to_uint_nonzero p) as Hzero.
  pose proof (DecimalN.Unsigned.to_of (Pos.to_uint p)) as Hnorm.
  change (N.of_uint (Pos.to_uint p)) with (Pos.of_uint (Pos.to_uint p)) in Hnorm.
  rewrite DecimalPos.Unsigned.of_to in Hnorm.
  change (N.to_uint (N.pos p)) with (Pos.to_uint p) in Hnorm.
  destruct (Pos.to_uint p) as [|d|d|d|d|d|d|d|d|d|d] eqn:Hd; try contradiction;
    try (do 2 eexists; split; [reflexivity|split; [reflexivity|discriminate]]).
  exfalso. unfold Decimal.unorm in Hnorm. simpl in Hnorm.
  destruct (Decimal.nzhead d) as [|u|u|u|u|u|u|u|u|u|u] eqn:Hz; try discriminate.
  - apply Hzero. exact Hnorm.
  - by apply (nzhead_not_zero d u).
Qed.

Lemma scan_integer_pos (p : positive) (rest : string) :
  ends_number rest = true ->
  scan_integer (NilEmpty.string_of_uint (Pos.to_uint p) +:+ rest)
  = Some (NilEmpty.string_of_uint (Pos.to_uint p), rest).
Proof.
  intros Hrest. pose proof (span_digits_uint (Pos.to_uint p) rest Hrest) as Hspan.
  destruct (pos_digits_head p) as (c & tail & Heq & Hdigit & Hnz).
  rewrite Heq in *. rewrite append_cons in *.
  unfold scan_integer.
  destruct c as [[] [] [] [] [] [] [] []]; try discriminate Hdigit;
    try (exfalso; apply Hnz; reflexivity);
    cbv match; rewrite Hspan; reflexivity.
Qed.

Lemma int_of_digits_pos (negative : bool) (p : positive) :
  int_of_digits negative (NilEmpty.string_of_uint (Pos.to_uint p))
  = if negative then Zneg p else Zpos p.
Proof.
  unfold int_of_digits. rewrite NilEmpty.usu.
  change (N.of_uint (Pos.to_uint p)) with (Pos.of_uint (Pos.to_uint p)).
  rewrite DecimalPos.Unsigned.of_to. by destruct negative.
Qed.

Lemma scan_frac_ends (rest : string) : ends_number rest = true -> scan_frac rest = None.
Proof.
  destruct rest as [|c rest]; [reflexivity|]. intros H.
  destruct c as [[] [] [] [] [] [] [] []]; try discriminate H; reflexivity.
Qed.

Lemma scan_exp_ends (rest : string) : ends_number rest = true -> scan_exp rest = None.
Proof.
  destruct rest as [|c rest]; [reflexivity|]. intros H.
  destruct c as [[] [] [] [] [] [] [] []]; try discriminate H; reflexivity.
Qed.

Lemma scan_number_int (n : Z) (rest : string) :
  ends_number rest = true ->
  scan_number (encode_int n +:+ rest) = Some (PInt n, rest).
Proof.
  intros Hrest. destruct n as [|p|p]; simpl encode_int.
  - unfold scan_number. simpl.
    by rewrite scan_frac_ends, scan_exp_ends.
  - unfold scan_number.
    destruct (pos_digits_head p) as (c & tail & Heq & Hdigit & Hnz).
    rewrite Heq, append_cons in *.
    destruct c as [[] [] [] [] [] [] [] []]; try discriminate Hdigit;
      rewrite <- append_cons, <- Heq;
      rewrite scan_integer_pos, scan_frac_ends, scan_exp_ends by assumption;
      by rewrite int_of_digits_pos.
  - unfold scan_number. rewrite append_cons.
    rewrite scan_integer_pos, scan_frac_ends, scan_exp_ends by assumption.
    by rewrite int_of_digits_pos.
Qed.

(** *** Values *)

Lemma append_nil_r (a : string) : a +:+ "" = a.
Proof. induction a as [|x a IH]; [reflexivity|]. rewrite append_cons. by rewrite IH. Qed.

Lemma starts_value_append (a b : string) :
  starts_value a = true -> starts_value (a +:+ b) = true.
Proof. destruct a; [discriminate|]. by rewrite append_cons. Qed.

Lemma starts_value_skip_ws (s : string) : starts_value s = true -> skip_ws s = s.
Proof.
  destruct s as [|c s]; [discriminate|]. simpl. destruct (is_ws c); [discriminate|reflexivity].
Qed.

Lemma starts_value_encode (v : pyval) :
  json_serializable v = true -> starts_value (encode v) = true.
Proof.
  destruct v as [| [] | n | s | xs | items | n]; try reflexivity; try discriminate.
  intros _. destruct n as [|p|p]; try reflexivity.
  simpl. destruct (pos_digits_head p) as (c & tail & -> & Hdigit & _).
  destruct c as [[] [] [] [] [] [] [] []]; try discriminate Hdigit; reflexivity.
Qed.

Lemma scan_once_number (c : ascii) (tail : string) (fuel : nat) (v : pyval) (r : string) :
  is_digit c = true \/ c = "-"%char ->
  scan_number (String c tail) = Some (v, r) ->
  scan_once (S fuel) (String c tail) = Parsed v r.
Proof.
  intros Hc Hnum.
  destruct Hc as [Hc| ->];
    [destruct c as [[] [] [] [] [] [] [] []]; try discriminate Hc|];
    lazy -[scan_number]; by rewrite Hnum.
Qed.

Lemma scan_once_int (n : Z) (fuel : nat) (rest : string) :
  ends_number rest = true ->
  scan_once (S fuel) (encode_int n +:+ rest) = Parsed (PInt n) rest.
Proof.
  intros Hrest. pose proof (scan_number_int n rest Hrest) as Hnum.
  destruct n as [|p|p]; simpl encode_int in *.
  - apply scan_once_number; [by left|exact Hnum].
  - destruct (pos_digits_head p) as (c & tail & Heq & Hdigit & _).
    rewrite Heq, append_cons in *. apply scan_once_number; [by left|exact Hnum].
  - rewrite append_cons in *. apply scan_once_number; [by right|exact Hnum].
Qed.

Lemma scan_once_str (s : string) (fuel : nat) (rest : string) :
  scan_once (S fuel) (encode_str s +:+ rest) = Parsed (PStr s) rest.
Proof.
  unfold encode_str. rewrite append_cons, append_assoc, append_cons, append_nil.
  change (scan_once (S fuel) (String quote (escape s +:+ String quote rest)))
    with (match scanstring (S (String.length (escape s +:+ String quote rest)))
                           (escape s +:+ String quote rest) with
          | Parsed str r => Parsed (PStr str) r
          | Malformed m => Malformed m
          | Exhausted => Exhausted
          end).
  rewrite scanstring_escape; [reflexivity|].
  rewrite length_append. pose proof (length_escape s). lia.
Qed.

Lemma scan_once_array (c : ascii) (tail : string) (fuel : nat) :
  starts_value (String c tail) = true ->
  scan_once (S fuel) (String "[" (String c tail)) = scan_elements fuel (String c tail) [].
Proof.
  intros Hc. destruct c as [[] [] [] [] [] [] [] []]; try discriminate Hc; reflexivity.
Qed.

Lemma scan_elements_last (fuel : nat) (s : string) (acc : list pyval)
  (v : pyval) (rest : string) :
  scan_once fuel s = Parsed v ("]" +:+ rest) ->
  scan_elements (S fuel) s acc = Parsed (PList (rev (v :: acc))) rest.
Proof. intros H. simpl. by rewrite H. Qed.

Lemma scan_elements_more (fuel : nat) (s : string) (acc : list pyval)
  (v : pyval) (more : string) :
  scan_once fuel s = Parsed v (", " +:+ more) ->
  starts_value more = true ->
  scan_elements (S fuel) s acc = scan_elements fuel more (v :: acc).
Proof.
  intros H Hmore. simpl. rewrite H.
  change (skip_ws (", " +:+ more)) with (String "," (String " " more)).
  cbv match. change (skip_ws (String " " more)) with (skip_ws more).
  by rewrite starts_value_skip_ws.
Qed.

Lemma ends_number_bracket (rest : string) : ends_number ("]" +:+ rest) = true.
Proof. reflexivity. Qed.

Lemma ends_number_brace (rest : string) : ends_number ("}" +:+ rest) = true.
Proof. reflexivity. Qed.

Lemma ends_number_comma (rest : string) : ends_number (", " +:+ rest) = true.
Proof. reflexivity. Qed.

Lemma length_encode_pos (v : pyval) :
  json_serializable v = true -> (1 <= String.length (encode v))%nat.
Proof.
  intros H. pose proof (starts_value_encode v H) as Hs.
  destruct (encode v); [discriminate|simpl; lia].
Qed.

Lemma scan_elements_encode (xs : list pyval) :
  xs <> [] ->
  Forall (fun x => json_serializable x = true /\ reads_back x) xs ->
  forall fuel acc rest,
    (2 * String.length (encode_elements encode xs) + 2 <= fuel)%nat ->
    scan_elements fuel (encode_elements encode xs +:+ rest) acc
    = Parsed (PList (rev acc ++ xs)%list) rest.
Proof.
  induction xs as [|x xs IH]; [done|]. intros _ Hall fuel acc rest Hfuel.
  apply Forall_cons in Hall as [[Hser Hx] Hall].
  destruct fuel as [|fuel]; [lia|].
  destruct xs as [|y ys].
  - simpl encode_elements in *. rewrite length_append in Hfuel. simpl in Hfuel.
    rewrite append_assoc.
    rewrite (scan_elements_last fuel _ acc x rest).
    + reflexivity.
    + apply Hx; [lia|apply ends_number_bracket].
  - change (encode_elements encode (x :: y :: ys))
      with (encode x +:+ ", " +:+ encode_elements encode (y :: ys)) in *.
    assert (Hstart : starts_value (encode_elements encode (y :: ys)) = true).
    { apply Forall_cons in Hall as [[Hy _] _].
      destruct ys; simpl; apply starts_value_append, starts_value_encode, Hy. }
    remember (encode_elements encode (y :: ys)) as E eqn:HE.
    rewrite !length_append in Hfuel. simpl String.length in Hfuel.
    rewrite !append_assoc.
    rewrite (scan_elements_more fuel _ acc x (E +:+ rest)).
    + rewrite IH; [|done|exact Hall|lia]. simpl rev. by rewrite <- app_assoc.
    + apply Hx; [lia|]. apply ends_number_comma.
    + by apply starts_value_append.
Qed.

Lemma scan_once_object (tail : string) (fuel : nat) :
  scan_once (S fuel) (String "{" (String quote tail)) = scan_members fuel tail [].
Proof. reflexivity. Qed.

Lemma scan_members_eq (fuel : nat) (s : string) (acc : list (string * pyval)) :
  scan_members (S fuel) s acc
  = match scanstring (S (String.length s)) s with
    | Parsed key r =>
        match skip_ws r with
        | String ":" r' =>
            match scan_once fuel (skip_ws r') with
            | Parsed v r2 =>
                match skip_ws r2 with
                | String "}" r3 => Parsed (PDict (dict_of_pairs (rev ((key, v) :: acc)))) r3
                | String "," r3 =>
                    match skip_ws r3 with
                    | String "034" r4 => scan_members fuel r4 ((key, v) :: acc)
                    | _ => Malformed "Expecting property name enclosed in double quotes"
                    end
                | _ => Malformed "Expecting ',' delimiter"
                end
            | other => other
            end
        | _ => Malformed "Expecting ':' delimiter"
        end
    | Malformed m => Malformed m
    | Exhausted => Exhausted
    end.
Proof. reflexivity. Qed.

(** The text of a member from after the opening quote of its key up to
    its value: the key, its closing quote, the colon and a blank. *)
Lemma scan_members_key (fuel : nat) (k vt : string) (acc : list (string * pyval)) :
  starts_value vt = true ->
  scan_members (S fuel) (escape k +:+ String quote (": " +:+ vt)) acc
  = match scan_once fuel vt with
    | Parsed v r2 =>
        match skip_ws r2 with
        | String "}" r3 => Parsed (PDict (dict_of_pairs (rev ((k, v) :: acc)))) r3
        | String "," r3 =>
            match skip_ws r3 with
            | String "034" r4 => scan_members fuel r4 ((k, v) :: acc)
            | _ => Malformed "Expecting property name enclosed in double quotes"
            end
        | _ => Malformed "Expecting ',' delimiter"
        end
    | other => other
    end.
Proof.
  intros Hvt. rewrite scan_members_eq, scanstring_escape.
  - change (skip_ws (": " +:+ vt)) with (String ":" (String " " vt)). cbv match.
    change (skip_ws (String " " vt)) with (skip_ws vt).
    by rewrite starts_value_skip_ws.
  - rewrite length_append. pose proof (length_escape k). lia.
Qed.

Lemma dict_set_fresh (k : string) (v : pyval) (d : list (string * pyval)) :
  k ∉ map fst d -> dict_set k v d = (d ++ [(k, v)])%list.
Proof.
  induction d as [|[k' v'] d IH]; intros Hk; [reflexivity|].
  simpl in *. apply not_elem_of_cons in Hk as [Hne Hk].
  destruct (String.eqb_spec k' k) as [->|_]; [done|]. by rewrite IH.
Qed.

Lemma dict_of_pairs_distinct (items : list (string * pyval)) :
  NoDup (map fst items) -> dict_of_pairs items = items.
Proof.
  unfold dict_of_pairs.
  enough (H : forall l d, NoDup (map fst (d ++ l)%list) ->
            fold_left (fun d kv => dict_set (fst kv) (snd kv) d) l d = (d ++ l)%list)
    by (intros Hnd; apply (H items [] Hnd)).
  induction l as [|[k v] l IH]; intros d Hnd; simpl.
  - by rewrite app_nil_r.
  - rewrite dict_set_fresh.
    + rewrite IH; rewrite <- app_assoc; [reflexivity|exact Hnd].
    + rewrite map_app in Hnd. apply NoDup_app in Hnd as (_ & Hdisj & _).
      intros Hin. apply (Hdisj k Hin). simpl. left.
Qed.

Lemma scan_members_encode (items : list (string * pyval)) :
  items <> [] ->
  Forall (fun kv => json_serializable (snd kv) = true /\ reads_back (snd kv)) items ->
  forall fuel acc rest m,
    encode_members encode items = String quote m ->
    (2 * String.length m + 2 <= fuel)%nat ->
    scan_members fuel (m +:+ rest) acc
    = Parsed (PDict (dict_of_pairs (rev acc ++ items)%list)) rest.
Proof.
  induction items as [|[k x] items IH]; [done|]. intros _ Hall fuel acc rest m Hm Hfuel.
  apply Forall_cons in Hall as [[Hser Hx] Hall]. simpl in Hser, Hx.
  destruct fuel as [|fuel]; [lia|].
  pose proof (starts_value_encode x Hser) as Hsx.
  destruct items as [|[k' y] items].
  - change (encode_members encode [(k, x)])
      with (encode_str k +:+ ": " +:+ encode x +:+ "}") in Hm.
    unfold encode_str in Hm. rewrite append_cons in Hm. injection Hm as <-.
    rewrite !length_append in Hfuel. simpl String.length in Hfuel.
    rewrite !append_assoc, append_cons, append_nil.
    rewrite scan_members_key by (by apply starts_value_append).
    rewrite Hx; [reflexivity|lia|apply ends_number_brace].
  - change (encode_members encode ((k, x) :: (k', y) :: items))
      with (encode_str k +:+ ": " +:+ encode x +:+ ", "
            +:+ encode_members encode ((k', y) :: items)) in Hm.
    assert (Hnext : exists m', encode_members encode ((k', y) :: items) = String quote m').
    { destruct items as [|[]]; eexists; reflexivity. }
    destruct Hnext as [m' Hm']. rewrite Hm' in Hm.
    unfold encode_str in Hm. rewrite append_cons in Hm. injection Hm as <-.
    rewrite !length_append in Hfuel. simpl String.length in Hfuel.
    rewrite !append_assoc, append_cons, append_nil.
    rewrite scan_members_key by (by apply starts_value_append).
    rewrite !append_cons, append_nil.
    rewrite Hx; [|lia|reflexivity].
    change (skip_ws (String "," (String " " (String quote (m' +:+ rest)))))
      with (String "," (String " " (String quote (m' +:+ rest)))). cbv match.
    change (skip_ws (String " " (String quote (m' +:+ rest))))
      with (String quote (m' +:+ rest)). cbv match.
    rewrite (IH ltac:(done) Hall fuel ((k, x) :: acc) rest m' Hm' ltac:(lia)).
    simpl rev. by rewrite <- app_assoc.
Qed.

Lemma Forall_checked {A} (f g : A -> bool) (P : A -> Prop) (xs : list A) :
  forallb f xs = true -> forallb g xs = true ->
  Forall (fun x => f x = true -> g x = true -> P x) xs ->
  Forall (fun x => f x = true /\ P x) xs.
Proof.
  intros Hf Hg Hall. induction Hall as [|x xs Hx Hall IH]; [constructor|].
  simpl in Hf, Hg. apply andb_true_iff in Hf as [Hfx Hf], Hg as [Hgx Hg].
  constructor; auto.
Qed.

(** Every value the encoder accepts, with no key twice in a dict, is
    read back from its text. *)
Lemma reads_back_all (v : pyval) :
  json_serializable v = true -> distinct_keys v = true -> reads_back v.
Proof.
  induction v as [| b | n | s | xs IHxs | items IHitems | n] using pyval_ind;
    intros Hser Hkeys fuel rest Hfuel Hrest.
  - destruct fuel; [lia|]. reflexivity.
  - destruct fuel; [lia|]. by destruct b.
  - destruct fuel; [lia|]. by apply scan_once_int.
  - destruct fuel; [lia|]. by apply scan_once_str.
  - destruct fuel as [|fuel]; [lia|]. simpl encode in *.
    rewrite length_append in Hfuel. simpl String.length in Hfuel.
    rewrite append_assoc, append_cons, append_nil.
    pose proof (Forall_checked _ _ _ xs Hser Hkeys IHxs) as Hall.
    destruct xs as [|x xs]; [reflexivity|].
    assert (Hstart : starts_value (encode_elements encode (x :: xs) +:+ rest) = true).
    { apply starts_value_append. pose proof Hall as Hall'.
      apply Forall_cons in Hall' as [[Hx _] _].
      destruct xs; simpl; apply starts_value_append, starts_value_encode, Hx. }
    destruct (encode_elements encode (x :: xs) +:+ rest) as [|c tail] eqn:Htext;
      [discriminate|].
    rewrite scan_once_array by exact Hstart. rewrite <- Htext.
    rewrite scan_elements_encode by (done || lia). reflexivity.
  - destruct fuel as [|fuel]; [lia|]. simpl encode in *.
    rewrite length_append in Hfuel. simpl String.length in Hfuel.
    rewrite append_assoc, append_cons, append_nil.
    simpl distinct_keys in Hkeys. apply andb_true_iff in Hkeys as [Hkeys Hnd].
    apply bool_decide_eq_true in Hnd.
    pose proof (Forall_checked (fun kv => json_serializable (snd kv))
                  (fun kv => distinct_keys (snd kv)) (fun kv => reads_back (snd kv))
                  items Hser Hkeys IHitems) as Hall.
    destruct items as [|[k x] items]; [reflexivity|].
    assert (Hm : exists m, encode_members encode ((k, x) :: items) = String quote m).
    { destruct items as [|[]]; eexists; reflexivity. }
    destruct Hm as [m Hm]. rewrite Hm in *. rewrite append_cons.
    rewrite scan_once_object. simpl String.length in Hfuel.
    rewrite (scan_members_encode ((k, x) :: items) ltac:(done) Hall fuel [] rest m Hm
               ltac:(lia)).
    simpl rev. rewrite app_nil_l. by rewrite dict_of_pairs_distinct.
  - discriminate.
Qed.

(** *** [dumps] then [loads] *)

Lemma unserializable_none (v : pyval) :
  json_serializable v = true -> unserializable v = None.
Proof.
  induction v as [| b | n | s | xs IHxs | items IHitems | n] using pyval_ind;
    intros Hser; try reflexivity; try discriminate.
  - simpl in *. induction IHxs as [|x xs Hx _ IH]; [reflexivity|].
    simpl in Hser. apply andb_true_iff in Hser as [Hsx Hsxs].
    rewrite (Hx Hsx). by apply IH.
  - simpl in *. induction IHitems as [|[k x] items Hx _ IH]; [reflexivity|].
    simpl in Hser. apply andb_true_iff in Hser as [Hsx Hsxs].
    simpl in Hx. rewrite (Hx Hsx). by apply IH.
Qed.

Lemma dumps_encode (v : pyval) : json_serializable v = true -> dumps v = Ret (encode v).
Proof. intros H. unfold dumps. by rewrite unserializable_none. Qed.

Lemma loads_encode (v : pyval) :
  json_serializable v = true -> distinct_keys v = true -> loads (encode v) = Ret v.
Proof.
  intros Hser Hkeys. unfold loads.
  rewrite (starts_value_skip_ws _ (starts_value_encode v Hser)).
  pose proof (reads_back_all v Hser Hkeys (2 * String.length (encode v) + 1)%nat ""
                ltac:(lia) eq_refl) as Hread.
  rewrite append_nil_r in Hread. by rewrite Hread.
Qed.

(** [json.loads(json.dumps(v)) == v] for every JSON value of the model. *)
Theorem loads_dumps (v : pyval) :
  json_serializable v = true -> distinct_keys v = true ->
  exists text, dumps v = Ret text /\ loads text = Ret v.
Proof.
  intros Hser Hkeys. exists (encode v). split; [by apply dumps_encode|by apply loads_encode].
Qed.

(** *** The text is printable ASCII *)

Lemma printable_append (a b : string) :
  printable a = true -> printable b = true -> printable (a +:+ b) = true.
Proof.
  intros Ha Hb. induction a as [|c a IH]; [exact Hb|].
  rewrite append_cons. simpl in *. apply andb_true_iff in Ha as [-> Ha]. by apply IH.
Qed.

Lemma printable_escape_char (c : ascii) : printable (escape_char c) = true.
Proof. destruct c as [[] [] [] [] [] [] [] []]; reflexivity. Qed.

Lemma printable_escape (s : string) : printable (escape s) = true.
Proof.
  induction s as [|c s IH]; [reflexivity|].
  simpl. apply printable_append; [apply printable_escape_char|exact IH].
Qed.

Lemma printable_uint (d : Decimal.uint) : printable (NilEmpty.string_of_uint d) = true.
Proof. induction d; simpl; auto. Qed.

Lemma printable_encode (v : pyval) : printable (encode v) = true.
Proof.
  induction v as [| b | n | s | xs IHxs | items IHitems | n] using pyval_ind;
    try reflexivity.
  - by destruct b.
  - destruct n; simpl; [reflexivity|apply printable_uint|apply printable_uint].
  - simpl. unfold encode_str. simpl. apply printable_append; [apply printable_escape|done].
  - simpl. apply printable_append; [reflexivity|].
    induction IHxs as [|x xs Hx Hxs IH]; [reflexivity|].
    destruct xs as [|y ys].
    + simpl. by apply printable_append.
    + change (encode_elements encode (x :: y :: ys))
        with (encode x +:+ ", " +:+ encode_elements encode (y :: ys)).
      repeat apply printable_append; try done.
  - simpl. apply printable_append; [reflexivity|].
    induction IHitems as [|[k x] items Hx Hxs IH]; [reflexivity|].
    assert (Hk : printable (encode_str k) = true).
    { unfold encode_str. simpl. apply printable_append; [apply printable_escape|done]. }
    simpl in Hx.
    destruct items as [|[k' y] ys].
    + change (encode_members encode [(k, x)])
        with (encode_str k +:+ ": " +:+ encode x +:+ "}").
      repeat apply printable_append; first [done|apply printable_escape].
    + change (encode_members encode ((k, x) :: (k', y) :: ys))
        with (encode_str k +:+ ": " +:+ encode x +:+ ", "
              +:+ encode_members encode ((k', y) :: ys)).
      repeat apply printable_append; first [done|apply printable_escape].
Qed.

Lemma universal_newlines_printable (s : string) :
  printable s = true -> universal_newlines s = s.
Proof.
  induction s as [|c s IH]; [reflexivity|]. intros H. simpl in H.
  apply andb_true_iff in H as [Hc Hs].
  destruct c as [[] [] [] [] [] [] [] []]; try discriminate Hc;
    simpl; by rewrite IH.
Qed.

End JsonFacts.

(** ** The parser always answers *)

Module JsonTotal.
Import Json JsonFacts.



(** *** Lengths *)









(** *** Enough fuel *)







End JsonTotal.

(** ** Host resolution *)

(** C7: [get_host] answers "Amazon" as soon as AWS_LAMBDA_FUNCTION_NAME is
    in the environment, whatever else is set; failing that "Render" when
    RENDER is exactly "true"; failing that the machine's hostname.  The
    world is not touched. *)
Theorem get_host_order (w : world) :
  get_host w =
    (Ret (if decide (is_Some (environ w !! "AWS_LAMBDA_FUNCTION_NAME")) then "Amazon"
          else if decide (environ w !! "RENDER" = Some "true") then "Render"
          else hostname w),
     w).
Proof.
  unfold get_host. run.
  case_bool_decide; destruct (decide (is_Some _)); try contradiction; [reflexivity|].
  case_bool_decide; destruct (decide (_ = Some "true")); try contradiction; reflexivity.
Qed.

Example get_host_lambda_wins : fst (get_host lambda) = Ret "Amazon".
Proof. reflexivity. Qed.

Example get_host_render : fst (get_host render_box) = Ret "Render".
Proof. reflexivity. Qed.

Example get_host_laptop : fst (get_host laptop) = Ret "laptop".
Proof. reflexivity. Qed.

(** ** Dispatch *)

Section Dispatch.

Variable json_dumps : pyval -> outcome string.
Variable json_loads : string -> outcome pyval.

Lemma put_local file_name data host data_format w :
  host <> "Amazon" -> host <> "Render" ->
  put json_dumps file_name data host data_format w
  = _write_to_local json_dumps file_name data data_format w.
Proof.
  intros Ha Hr. unfold put.
  apply String.eqb_neq in Ha, Hr. rewrite Ha, Hr. apply bind_ret_r.
Qed.

Lemma get_local file_name host data_format w :
  host <> "Amazon" -> host <> "Render" ->
  get json_loads file_name host data_format w
  = _read_from_local json_loads file_name data_format w.
Proof.
  intros Ha Hr. unfold get.
  apply String.eqb_neq in Ha, Hr. rewrite Ha, Hr. apply bind_ret_pair_r.
Qed.

Lemma upload_local local_file_path file_name host w :
  host <> "Amazon" -> host <> "Render" ->
  upload local_file_path file_name host w = (Ret "", w).
Proof.
  intros Ha Hr. unfold upload.
  apply String.eqb_neq in Ha, Hr. rewrite Ha, Hr. reflexivity.
Qed.

Lemma download_local file_name local_file_path host w :
  host <> "Amazon" -> host <> "Render" ->
  download file_name local_file_path host w = (Ret "", w).
Proof.
  intros Ha Hr. unfold download.
  apply String.eqb_neq in Ha, Hr. rewrite Ha, Hr. reflexivity.
Qed.

End Dispatch.

(** C5: a host that is neither "Amazon" nor "Render" takes the local path
    in all four operations: [put] writes the local file, [get] reads it,
    [upload] and [download] return the empty error.  Nothing is raised
    for the host being unknown. *)
Theorem unknown_host_goes_local
  (json_dumps : pyval -> outcome string) (json_loads : string -> outcome pyval)
  (host : string) (Hamazon : host <> "Amazon") (Hrender : host <> "Render") :
  forall (name path : string) (data : pyval) (data_format : string) (w : world),
    put json_dumps name data host data_format w
      = _write_to_local json_dumps name data data_format w
    /\ get json_loads name host data_format w
      = _read_from_local json_loads name data_format w
    /\ upload path name host w = (Ret "", w)
    /\ download name path host w = (Ret "", w).
Proof.
  intros. repeat split.
  - by apply put_local.
  - by apply get_local.
  - by apply upload_local.
  - by apply download_local.
Qed.

Lemma unknown_host_goes_local_witness :
  ("Mystery" <> "Amazon" /\ "Mystery" <> "Render") /\
  put Json.dumps "notes.txt" (PStr "hello world") "Mystery" "text" laptop
    = _write_to_local Json.dumps "notes.txt" (PStr "hello world") "text" laptop.
Proof.
  split; [split; discriminate|].
  exact (proj1 (unknown_host_goes_local Json.dumps Json.loads "Mystery"
                  ltac:(discriminate) ltac:(discriminate)
                  "notes.txt" "" (PStr "hello world") "text" laptop)).
Defined.

Example mystery_host_writes_the_file :
  let '(r, w) := put Json.dumps "notes.txt" (PStr "hello world") "Mystery" "text" laptop in
  r = Ret "" /\ files w !! "notes.txt" = Some "hello world".
Proof. vm_compute. split; reflexivity. Qed.

Example empty_host_reads_the_file :
  fst (get Json.loads "notes.txt" "" "text" laptop_with_notes)
  = Ret (PStr "hello world", "").
Proof. reflexivity. Qed.

(** C6: with a host that takes the local path, [upload] and [download]
    return the empty error at once; the world they return is the world
    they were given, so no file was opened and no file changed. *)
Theorem local_transfer_is_noop
  (host : string) (Hamazon : host <> "Amazon") (Hrender : host <> "Render")
  (local_path name : string) (w : world) :
  upload local_path name host w = (Ret "", w)
  /\ download name local_path host w = (Ret "", w)
  /\ files (snd (upload local_path name host w)) = files w
  /\ trace (snd (upload local_path name host w)) = trace w
  /\ files (snd (download name local_path host w)) = files w
  /\ trace (snd (download name local_path host w)) = trace w.
Proof.
  rewrite upload_local, download_local by assumption. by repeat split.
Qed.

Lemma local_transfer_is_noop_witness :
  upload "report.pdf" "report.pdf" "Local" laptop_with_notes = (Ret "", laptop_with_notes)
  /\ download "report.pdf" "copy.pdf" "laptop" laptop_with_notes = (Ret "", laptop_with_notes).
Proof.
  split.
  - exact (proj1 (local_transfer_is_noop "Local" ltac:(discriminate) ltac:(discriminate)
                    "report.pdf" "report.pdf" laptop_with_notes)).
  - exact (proj1 (proj2 (local_transfer_is_noop "laptop" ltac:(discriminate)
                           ltac:(discriminate) "copy.pdf" "report.pdf" laptop_with_notes))).
Defined.

(** ** Existence checks *)

(** C8: [file_exists] of either adapter returns a boolean whatever the
    backend does and never raises.  For the object store it is [true]
    when the HEAD call returns and [false] when it raises; for the remote
    service it is [true] exactly when the bare GET of the key's URL comes
    back with status 200, and [false] for any other status and when the
    request itself fails. *)
Theorem file_exists_never_raises (w : world) :
  (forall (self : S3Manager.t) (bucket key : string),
     S3Manager.file_exists self bucket key w
     = (Ret (match s3_service w (trace w) (S3HeadObject bucket key) with
             | S3Ok _ => true
             | S3Error _ => false
             end),
        log (EvS3 (S3Manager.aws_access_key self) (S3Manager.aws_secret_key self)
                  (S3Manager.region self) (S3HeadObject bucket key)) w))
  /\
  (forall (self : RenderFileManager.t) (key : string),
     RenderFileManager.file_exists self key w
     = (Ret (match http_service w (trace w)
                     (HttpRequest "GET" (RenderFileManager.file_url self key)
                                  (RenderFileManager.headers self) None None) with
             | Response status _ _ => status =? 200
             | ConnectionError _ => false
             end),
        log (EvHttp (HttpRequest "GET" (RenderFileManager.file_url self key)
                                 (RenderFileManager.headers self) None None)) w)).
Proof.
  split; intros.
  - unfold S3Manager.file_exists, S3Manager.s3_client. run.
    destruct (s3_service _ _ _); reflexivity.
  - unfold RenderFileManager.file_exists, RenderFileManager.requests,
      RenderFileManager.send. run. simpl.
    destruct (http_service _ _ _); reflexivity.
Qed.

Example file_exists_after_put :
  let w1 := snd (put Json.dumps "a.txt" (PStr "x") "Amazon" "text" lambda) in
  fst (S3Manager.file_exists (S3Manager.init "AKIA" "abc") "watchdog-bucket" "a.txt" w1)
    = Ret true
  /\ fst (S3Manager.file_exists (S3Manager.init "AKIA" "abc") "watchdog-bucket" "b.txt" w1)
    = Ret false.
Proof. split; reflexivity. Qed.

Example file_exists_unauthorized_is_false :
  fst (RenderFileManager.file_exists
         (RenderFileManager.init "https://file-manager-vist.onrender.com/" None)
         "a.txt" render_box) = Ret false.
Proof. reflexivity. Qed.

(** ** The router on the remote service *)

Lemma initialize_render_eq (w : world) :
  _initialize_render w = (Ret (render_manager w), w).
Proof. reflexivity. Qed.

(** C10: on host "Render" with format "json", when the adapter hands back
    a value with the empty error, the router parses the value if it is a
    string; for a value of any other type (a mapping the service already
    decoded, say) it returns [None] with the unsupported-format message
    in place of the value. *)
Theorem render_json_needs_a_string
  (json_loads : string -> outcome pyval) (file_name : string) (value : pyval)
  (w w' : world)
  (Hadapter : RenderFileManager.get_object (render_manager w) file_name "json" w
              = (Ret (value, ""), w')) :
  get json_loads file_name "Render" "json" w
  = match value with
    | PStr text =>
        match json_loads text with
        | Ret data => (Ret (data, ""), w')
        | Raise e =>
            if is_JSONDecodeError e
            then (Ret (PNone, "[Render Read Error] " +:+ str_exn e), w')
            else (Raise e, w')
        end
    | _ => (Ret (PNone, unsupported_format), w')
    end.
Proof.
  unfold get, _read_from_render. simpl.
  unfold bind at 1. unfold bind at 1. rewrite initialize_render_eq.
  unfold bind at 1. rewrite Hadapter. simpl.
  destruct value; try reflexivity.
  run. destruct (json_loads s) as [data|e]; [reflexivity|].
  destruct (is_JSONDecodeError e); reflexivity.
Qed.

Lemma render_json_needs_a_string_witness :
  get Json.loads "cfg.json" "Render" "json" render_box_with_cfg
  = (Ret (PNone, unsupported_format),
     log (EvHttp (HttpRequest "GET" "https://file-manager-vist.onrender.com/files/cfg.json"
                              (Some "s3cret") (Some "json") None))
         render_box_with_cfg).
Proof.
  apply (render_json_needs_a_string Json.loads "cfg.json" (PDict [("a", PInt 1)])
           render_box_with_cfg).
  reflexivity.
Defined.

(** C4, at the input where it fails: a JSON document put on the remote
    service is stored as text; the service, asked for it as [json],
    replies with the decoded mapping, and [get] answers with the
    unsupported-format error where the document was expected. *)
Theorem render_json_round_trip_breaks :
  put Json.dumps "cfg.json" (PDict [("a", PInt 1)]) "Render" "json" render_box
    = (Ret "", render_box_with_cfg)
  /\ fst (get Json.loads "cfg.json" "Render" "json" render_box_with_cfg)
    = Ret (PNone, unsupported_format).
Proof. split; reflexivity. Qed.

(** ** Credentials *)

Lemma initialize_amazon_configured (w : world) :
  amazon_configured w ->
  exists access_key secret_key bucket,
    environ w !! "AWS_WATCHDOG_ACCESS_KEY" = Some access_key /\
    environ w !! "AWS_WATCHDOG_SECRET_KEY" = Some secret_key /\
    environ w !! "AWS_WATCHDOG_BUCKET" = Some bucket /\
    _initialize_amazon w = (Ret (S3Manager.init access_key secret_key, bucket), w).
Proof.
  intros ([a Ha] & [s Hs] & [b Hb]). exists a, s, b.
  unfold _initialize_amazon. run. rewrite Ha, Hs, Hb. by repeat split.
Qed.

Lemma initialize_amazon_missing (w : world) :
  ~ amazon_configured w ->
  _initialize_amazon w
  = (Raise (EnvironmentError "One or more Environment Variables not available"), w).
Proof.
  intros Hno. unfold _initialize_amazon. run.
  destruct (environ w !! "AWS_WATCHDOG_ACCESS_KEY") as [a|] eqn:Ha; [|reflexivity].
  destruct (environ w !! "AWS_WATCHDOG_SECRET_KEY") as [s|] eqn:Hs; [|reflexivity].
  destruct (environ w !! "AWS_WATCHDOG_BUCKET") as [b|] eqn:Hb; [|reflexivity].
  exfalso. apply Hno. unfold amazon_configured. rewrite Ha, Hs, Hb. eauto.
Qed.

(** Without one of its three variables each of the four Amazon functions
    stops at [_initialize_amazon]. *)
Lemma amazon_functions_stop_early
  (json_dumps : pyval -> outcome string) (json_loads : string -> outcome pyval)
  (w : world) (Hmissing : ~ amazon_configured w)
  (name path : string) (data : pyval) (data_format : string) :
  _write_to_amazon json_dumps name data data_format w = (Raise environment_error, w)
  /\ _read_from_amazon json_loads name data_format w = (Raise environment_error, w)
  /\ _upload_to_amazon path name w = (Raise environment_error, w)
  /\ _download_from_amazon name path w = (Raise environment_error, w).
Proof.
  pose proof (initialize_amazon_missing w Hmissing) as Hinit.
  unfold _write_to_amazon, _read_from_amazon, _upload_to_amazon, _download_from_amazon.
  rewrite !bind_eq, Hinit. by repeat split.
Qed.

(** X1: without one of its three variables every operation on "Amazon" raises
    the environment error and the world is as it was, so no call went
    out. *)
Theorem amazon_missing_credentials_raise
  (json_dumps : pyval -> outcome string) (json_loads : string -> outcome pyval)
  (w : world) (Hmissing : ~ amazon_configured w)
  (name path : string) (data : pyval) (data_format : string) :
  put json_dumps name data "Amazon" data_format w = (Raise environment_error, w)
  /\ get json_loads name "Amazon" data_format w = (Raise environment_error, w)
  /\ upload path name "Amazon" w = (Raise environment_error, w)
  /\ download name path "Amazon" w = (Raise environment_error, w).
Proof.
  destruct (amazon_functions_stop_early json_dumps json_loads w Hmissing
              name path data data_format) as (Hw & Hr & Hu & Hd).
  unfold put, get, upload, download. simpl.
  rewrite !bind_eq, Hw, Hr, Hu, Hd. by repeat split.
Qed.

Lemma amazon_missing_credentials_raise_witness :
  put Json.dumps "a.txt" (PStr "x") "Amazon" "text" lambda_no_bucket
  = (Raise (EnvironmentError "One or more Environment Variables not available"),
     lambda_no_bucket).
Proof.
  refine (proj1 (amazon_missing_credentials_raise Json.dumps Json.loads lambda_no_bucket
                   _ "a.txt" "" (PStr "x") "text")).
  intros (_ & _ & [b Hb]). vm_compute in Hb. discriminate.
Defined.

(** C1, where it fails: with RENDER_FILE_API_KEY unset nothing stops a
    call on "Render" at construction.  The manager is built with no key
    and the request goes out: [put] and [get] return what the adapter
    makes of the reply, and the trace holds the request, sent without the
    header. *)
Theorem render_missing_key_still_calls
  (json_dumps : pyval -> outcome string) (json_loads : string -> outcome pyval)
  (file_name text : string) (w : world)
  (Hmissing : environ w !! "RENDER_FILE_API_KEY" = None) :
  (exists error,
     put json_dumps file_name (PStr text) "Render" "text" w
     = (Ret error,
        log (EvHttp (HttpRequest "PUT"
                       ("https://file-manager-vist.onrender.com/files/" +:+ file_name)
                       None None (Some (PStr text, "text")))) w))
  /\
  (exists result,
     get json_loads file_name "Render" "text" w
     = (Ret result,
        log (EvHttp (HttpRequest "GET"
                       ("https://file-manager-vist.onrender.com/files/" +:+ file_name)
                       None (Some "text") None)) w)).
Proof.
  split.
  - unfold put, _write_to_render, convert_for_write. simpl.
    unfold bind at 1. unfold bind at 1. rewrite initialize_render_eq.
    unfold render_manager. rewrite Hmissing.
    unfold RenderFileManager.put_object, RenderFileManager.requests,
      RenderFileManager.send, RenderFileManager.raise_for_status. run. simpl.
    destruct (http_service _ _ _) as [st rs b|msg]; simpl; [|eauto].
    destruct ((400 <=? st) && (st <? 500)); [eauto|].
    destruct ((500 <=? st) && (st <? 600)); eauto.
  - unfold get, _read_from_render. simpl.
    unfold bind at 1. unfold bind at 1. rewrite initialize_render_eq.
    unfold render_manager. rewrite Hmissing.
    unfold RenderFileManager.get_object, RenderFileManager.requests,
      RenderFileManager.send, RenderFileManager.raise_for_status,
      RenderFileManager.response_json, RenderFileManager.getitem_data. run. simpl.
    destruct (http_service _ _ _) as [st rs b|msg]; simpl; [|eauto].
    destruct ((400 <=? st) && (st <? 500)); [eauto|].
    destruct ((500 <=? st) && (st <? 600)); [eauto|].
    destruct b as [[]|]; simpl; eauto.
    destruct (find _ _) as [[k v]|]; simpl; eauto.
Qed.

Lemma render_missing_key_still_calls_witness :
  put Json.dumps "notes.txt" (PStr "hello world") "Render" "text" render_box_no_key
  = (Ret "",
     log (EvHttp (HttpRequest "PUT" "https://file-manager-vist.onrender.com/files/notes.txt"
                              None None (Some (PStr "hello world", "text"))))
         render_box_no_key).
Proof.
  destruct (render_missing_key_still_calls Json.dumps Json.loads "notes.txt" "hello world"
              render_box_no_key eq_refl) as [[error Hput] _].
  rewrite Hput. f_equal.
  assert (Hfst : fst (put Json.dumps "notes.txt" (PStr "hello world") "Render" "text"
                        render_box_no_key) = Ret "") by reflexivity.
  rewrite Hput in Hfst. exact Hfst.
Defined.

(** ** What the adapters return *)

#[local] Arguments String.eqb : simpl never.
#[local] Arguments String.append : simpl never.
#[local] Arguments has_tag : simpl never.

Lemma truthy_empty : truthy "" = false.
Proof. reflexivity. Qed.

Lemma has_tag_truthy (e : string) : has_tag e = true -> truthy e = true.
Proof. destruct e; [discriminate|reflexivity]. Qed.

Lemma has_tag_nonempty (e : string) : has_tag e = true -> e <> "".
Proof. intros H ->. discriminate. Qed.

Lemma unsupported_format_untagged : has_tag unsupported_format = false.
Proof. reflexivity. Qed.

Module S3Facts.
Import S3Manager.

Lemma s3_get_text_shape (self : t) (bucket key : string) (w : world) :
  exists d e,
    get_text self bucket key w
    = (Ret (d, e),
       log (EvS3 (aws_access_key self) (aws_secret_key self) (region self)
                 (S3GetObject bucket key)) w)
    /\ ((e = "" /\ exists text, d = PStr text) \/ (d = PNone /\ has_tag e = true)).
Proof.
  unfold get_text, s3_client. run.
  destruct (s3_service _ _ _) as [body|msg]; do 2 eexists; (split; [reflexivity|]).
  - left. eauto.
  - right. split; reflexivity.
Qed.

Lemma s3_put_text_shape (self : t) (bucket key : string) (content : pyval) (w : world) :
  exists e w', put_text self bucket key content w = (Ret e, w') /\ clean_or_tagged e.
Proof.
  unfold put_text, s3_client. run.
  destruct (str_encode content) as [body|ex]; [|do 2 eexists; split; [reflexivity|tagged]].
  destruct (s3_service _ _ _); do 2 eexists; (split; [reflexivity|tagged]).
Qed.

Lemma s3_upload_file_shape (self : t) (bucket path key : string) (w : world) :
  exists e w', upload_file self bucket path key w = (Ret e, w') /\ clean_or_tagged e.
Proof.
  unfold upload_file, s3_client_upload_file, s3_client, read_file. run.
  destruct (file_error _ _ _); [do 2 eexists; split; [reflexivity|tagged]|].
  destruct (files w !! _); [|do 2 eexists; split; [reflexivity|tagged]].
  destruct (s3_service _ _ _); do 2 eexists; (split; [reflexivity|tagged]).
Qed.

Lemma s3_download_file_shape (self : t) (bucket key path : string) (w : world) :
  exists e w', download_file self bucket key path w = (Ret e, w') /\ clean_or_tagged e.
Proof.
  unfold download_file, s3_client_download_file, s3_client, open_truncate, write_bytes. run.
  destruct (s3_service _ _ _); [|do 2 eexists; split; [reflexivity|tagged]].
  cbn [file_error log].
  destruct (file_error _ _ _); do 2 eexists; (split; [reflexivity|tagged]).
Qed.

End S3Facts.

Module RenderFacts.
Import RenderFileManager.

Lemma send_cases (req : http_request) (w : world) :
  (exists r, send req w = (Ret r, log (EvHttp req) w))
  \/ (exists msg, send req w = (Raise (Exception msg), log (EvHttp req) w)).
Proof.
  unfold send. destruct (http_service _ _ _); eauto.
Qed.

Lemma raise_for_status_cases (r : response) (w : world) :
  raise_for_status r w = (Ret tt, w)
  \/ exists msg, raise_for_status r w = (Raise (Exception msg), w).
Proof.
  unfold raise_for_status. run.
  destruct (_ && _); [eauto|]. destruct (_ && _); eauto.
Qed.

Lemma getitem_data_pure (v : pyval) (w : world) :
  exists o, getitem_data v w = (o, w).
Proof.
  unfold getitem_data. run. destruct v; eauto.
  destruct (find _ _); eauto.
Qed.

Lemma render_get_object_shape (self : t) (key data_format : string) (w : world) :
  exists d e,
    get_object self key data_format w
    = (Ret (d, e),
       log (EvHttp (HttpRequest "GET" (file_url self key) (headers self)
                                (Some data_format) None)) w)
    /\ (e = "" \/ (d = PNone /\ has_tag e = true)).
Proof.
  unfold get_object, requests. cbn [http_json].
  unfold try_except, bind at 1.
  destruct (send_cases (HttpRequest "GET" (file_url self key) (headers self)
                                    (Some data_format) None) w) as [[r ->]|[msg ->]].
  - unfold bind at 1.
    destruct (raise_for_status_cases r
                (log (EvHttp (HttpRequest "GET" (file_url self key) (headers self)
                                          (Some data_format) None)) w)) as [->|[msg ->]].
    + unfold bind at 1, response_json.
      destruct (json_body r) as [v|]; run.
      * destruct (getitem_data_pure v
                    (log (EvHttp (HttpRequest "GET" (file_url self key) (headers self)
                                              (Some data_format) None)) w)) as [[d|ex] ->];
          do 2 eexists; (split; [reflexivity|]); [by left|right; split; reflexivity].
      * do 2 eexists; (split; [reflexivity|]). right; split; reflexivity.
    + run. do 2 eexists; (split; [reflexivity|]). right; split; reflexivity.
  - run. do 2 eexists; (split; [reflexivity|]). right; split; reflexivity.
Qed.

Lemma render_put_object_shape (self : t) (key : string) (data : pyval) (data_format : string)
  (w : world) :
  exists e w', put_object self key data data_format w = (Ret e, w') /\ clean_or_tagged e.
Proof.
  unfold put_object, requests. cbn [http_json].
  destruct (json_serializable data);
    [|run; do 2 eexists; split; [reflexivity|tagged]].
  unfold try_except, bind at 1.
  destruct (send_cases (HttpRequest "PUT" (file_url self key) (headers self) None
                                    (Some (data, data_format))) w) as [[r ->]|[msg ->]];
    [|run; do 2 eexists; split; [reflexivity|tagged]].
  unfold bind at 1.
  match goal with
  | |- context [raise_for_status r ?w1] =>
      destruct (raise_for_status_cases r w1) as [->|[msg ->]]
  end; run; do 2 eexists; (split; [reflexivity|tagged]).
Qed.

Lemma render_upload_file_shape (self : t) (path key : string) (w : world) :
  exists e w', upload_file self path key w = (Ret e, w') /\ clean_or_tagged e.
Proof.
  unfold upload_file, requests. cbn [http_json].
  unfold try_except, bind at 1, read_file.
  destruct (file_error _ _ _); [run; do 2 eexists; split; [reflexivity|tagged]|].
  destruct (files w !! _) as [b|]; [|run; do 2 eexists; split; [reflexivity|tagged]].
  destruct (json_serializable _);
    [|run; do 2 eexists; split; [reflexivity|tagged]].
  unfold bind at 1.
  match goal with
  | |- context [send ?req ?w1] =>
      destruct (send_cases req w1) as [[r ->]|[msg ->]]
  end; [|run; do 2 eexists; split; [reflexivity|tagged]].
  unfold bind at 1.
  match goal with
  | |- context [raise_for_status r ?w1] =>
      destruct (raise_for_status_cases r w1) as [->|[msg ->]]
  end; run; do 2 eexists; (split; [reflexivity|tagged]).
Qed.

Lemma render_download_file_shape (self : t) (key path : string) (w : world) :
  exists e w', download_file self key path w = (Ret e, w') /\ clean_or_tagged e.
Proof.
  unfold download_file, requests. cbn [http_json].
  unfold try_except, bind at 1.
  match goal with
  | |- context [send ?req ?w1] =>
      destruct (send_cases req w1) as [[r ->]|[msg ->]]
  end; [|run; do 2 eexists; split; [reflexivity|tagged]].
  unfold bind at 1.
  match goal with
  | |- context [raise_for_status r ?w1] =>
      destruct (raise_for_status_cases r w1) as [->|[msg ->]]
  end; [|run; do 2 eexists; split; [reflexivity|tagged]].
  unfold bind at 1, response_json.
  destruct (json_body r) as [v|]; [|run; do 2 eexists; split; [reflexivity|tagged]].
  unfold ret at 1. unfold bind at 1.
  match goal with
  | |- context [getitem_data v ?w1] =>
      destruct (getitem_data_pure v w1) as [[d|ex] ->]
  end; [|run; do 2 eexists; split; [reflexivity|tagged]].
  unfold open_truncate, write_bytes. run. cbn [file_error log].
  destruct (file_error _ _ _); [do 2 eexists; split; [reflexivity|tagged]|].
  destruct (py_bytes d); do 2 eexists; (split; [reflexivity|tagged]).
Qed.

End RenderFacts.

(** ** What the router returns *)

Section RouterFacts.

Variable json_dumps : pyval -> outcome string.
Variable json_loads : string -> outcome pyval.

Lemma convert_for_write_eq (data : pyval) (data_format : string) (w : world) :
  convert_for_write json_dumps data data_format w
  = if (data_format =? "json")%string then
      match json_dumps data with
      | Ret text => (Ret (PStr text), w)
      | Raise e => (Raise e, w)
      end
    else if (data_format =? "text")%string then (Ret data, w)
    else (Raise (TypeError unsupported_format), w).
Proof.
  unfold convert_for_write. destruct (data_format =? "json")%string.
  - run. destruct (json_dumps data); reflexivity.
  - destruct (data_format =? "text")%string; reflexivity.
Qed.

Lemma write_to_local_spec (path : string) (data : pyval) (data_format : string) (w : world) :
  match write_stops json_dumps data data_format with
  | Some e => _write_to_local json_dumps path data data_format w = (Raise e, w)
  | None => exists e w',
      _write_to_local json_dumps path data data_format w = (Ret e, w') /\ clean_or_tagged e
  end.
Proof.
  unfold _write_to_local, write_stops. rewrite bind_eq, convert_for_write_eq.
  assert (Hwrite : forall d, exists e w',
    bind (try_except
            (bind (open_truncate path "w")
                  (fun _ => bind (write_text path d) (fun _ => ret "")))
            (fun e => ret ("[Local Write Error] " +:+ str_exn e)))
         (fun error => ret error) w = (Ret e, w') /\ clean_or_tagged e).
  { intros d. unfold open_truncate, write_text. run.
    destruct (file_error _ _ _); [do 2 eexists; split; [reflexivity|tagged]|].
    destruct d; do 2 eexists; (split; [reflexivity|tagged]). }
  destruct (data_format =? "json")%string.
  - destruct (json_dumps data); [apply Hwrite|reflexivity].
  - destruct (data_format =? "text")%string; [apply Hwrite|reflexivity].
Qed.

Lemma write_to_render_spec (name : string) (data : pyval) (data_format : string) (w : world) :
  match write_stops json_dumps data data_format with
  | Some e => _write_to_render json_dumps name data data_format w = (Raise e, w)
  | None => exists e w',
      _write_to_render json_dumps name data data_format w = (Ret e, w') /\ clean_or_tagged e
  end.
Proof.
  unfold _write_to_render, write_stops. rewrite bind_eq, initialize_render_eq.
  rewrite bind_eq, convert_for_write_eq.
  assert (Hput : forall d, exists e w',
    bind (RenderFileManager.put_object (render_manager w) name d "text")
         (fun error => ret error) w = (Ret e, w') /\ clean_or_tagged e).
  { intros d. rewrite bind_ret_r. apply RenderFacts.render_put_object_shape. }
  destruct (data_format =? "json")%string.
  - destruct (json_dumps data); [apply Hput|reflexivity].
  - destruct (data_format =? "text")%string; [apply Hput|reflexivity].
Qed.

Lemma write_to_amazon_spec (name : string) (data : pyval) (data_format : string) (w : world) :
  amazon_configured w ->
  match write_stops json_dumps data data_format with
  | Some e => _write_to_amazon json_dumps name data data_format w = (Raise e, w)
  | None => exists e w',
      _write_to_amazon json_dumps name data data_format w = (Ret e, w') /\ clean_or_tagged e
  end.
Proof.
  intros Hcfg. destruct (initialize_amazon_configured w Hcfg) as (a & s & b & _ & _ & _ & Hinit).
  unfold _write_to_amazon, write_stops. rewrite bind_eq, Hinit.
  rewrite bind_eq, convert_for_write_eq.
  assert (Hput : forall d, exists e w',
    bind (S3Manager.put_text (S3Manager.init a s) b name d)
         (fun error => ret error) w = (Ret e, w') /\ clean_or_tagged e).
  { intros d. rewrite bind_ret_r. apply S3Facts.s3_put_text_shape. }
  destruct (data_format =? "json")%string.
  - destruct (json_dumps data); [apply Hput|reflexivity].
  - destruct (data_format =? "text")%string; [apply Hput|reflexivity].
Qed.

(** [put], whole: it raises the environment error on "Amazon" without
    credentials, else what the conversion raises, and in both cases the
    world is untouched; otherwise it returns an empty or tagged error. *)
Lemma put_spec (name : string) (data : pyval) (host data_format : string) (w : world) :
  (host = "Amazon" /\ ~ amazon_configured w
   /\ put json_dumps name data host data_format w = (Raise environment_error, w))
  \/ ((host = "Amazon" -> amazon_configured w)
      /\ match write_stops json_dumps data data_format with
         | Some e => put json_dumps name data host data_format w = (Raise e, w)
         | None => exists e w',
             put json_dumps name data host data_format w = (Ret e, w') /\ clean_or_tagged e
         end).
Proof.
  destruct (String.eqb_spec host "Amazon") as [->|Ha].
  - destruct (decide (amazon_configured w)) as [Hcfg|Hno].
    + right. split; [done|]. unfold put. simpl. rewrite bind_ret_r.
      by apply write_to_amazon_spec.
    + left. repeat split; [done|]. unfold put. simpl. rewrite bind_ret_r.
      apply (amazon_functions_stop_early json_dumps json_loads w Hno name "" data).
  - right. split; [done|]. destruct (String.eqb_spec host "Render") as [->|Hr].
    + unfold put. simpl. rewrite bind_ret_r. apply write_to_render_spec.
    + rewrite put_local by assumption. apply write_to_local_spec.
Qed.

(** [upload] and [download], whole. *)
Lemma transfer_spec (path name host : string) (w : world) :
  (host = "Amazon" /\ ~ amazon_configured w
   /\ upload path name host w = (Raise environment_error, w)
   /\ download name path host w = (Raise environment_error, w))
  \/ ((host = "Amazon" -> amazon_configured w)
      /\ (exists e w', upload path name host w = (Ret e, w') /\ clean_or_tagged e)
      /\ (exists e w', download name path host w = (Ret e, w') /\ clean_or_tagged e)).
Proof.
  destruct (String.eqb_spec host "Amazon") as [->|Ha].
  - destruct (decide (amazon_configured w)) as [Hcfg|Hno].
    + right. split; [done|].
      destruct (initialize_amazon_configured w Hcfg) as (a & s & b & _ & _ & _ & Hinit).
      split.
      * unfold upload, _upload_to_amazon. simpl.
        rewrite bind_ret_r, bind_eq, Hinit. cbn beta iota. rewrite bind_ret_r.
        apply S3Facts.s3_upload_file_shape.
      * unfold download, _download_from_amazon. simpl.
        rewrite bind_ret_r, bind_eq, Hinit. cbn beta iota. rewrite bind_ret_r.
        apply S3Facts.s3_download_file_shape.
    + left. repeat split; [done|..]; unfold upload, download; simpl; rewrite bind_ret_r;
        apply (amazon_functions_stop_early json_dumps json_loads w Hno name path PNone "").
  - right. split; [done|]. destruct (String.eqb_spec host "Render") as [->|Hr].
    + split.
      * unfold upload, _upload_to_render. simpl.
        rewrite bind_ret_r, bind_eq, initialize_render_eq. rewrite bind_ret_r.
        apply RenderFacts.render_upload_file_shape.
      * unfold download, _download_from_render. simpl.
        rewrite bind_ret_r, bind_eq, initialize_render_eq. rewrite bind_ret_r.
        apply RenderFacts.render_download_file_shape.
    + rewrite upload_local, download_local by assumption.
      split; do 2 eexists; (split; [reflexivity|by left]).
Qed.

(** The parse that follows a successful read. *)
Lemma decode_eq (tag text : string) (w : world) :
  try_except_only is_JSONDecodeError
    (bind (lift (json_loads text)) (fun data => ret (data, "")))
    (fun e => ret (PNone, tag +:+ str_exn e)) w
  = match json_loads text with
    | Ret data => (Ret (data, ""), w)
    | Raise e =>
        if is_JSONDecodeError e then (Ret (PNone, tag +:+ str_exn e), w)
        else (Raise e, w)
    end.
Proof. run. destruct (json_loads text); reflexivity. Qed.

Lemma decoded_read_result (host tag text : string) (ev : io_event) (w : world) :
  has_tag (tag +:+ "") = true -> (forall m, has_tag (tag +:+ m) = true) ->
  read_result json_loads host "json" ev
    (match json_loads text with
     | Ret data => (Ret (data, ""), log ev w)
     | Raise e =>
         if is_JSONDecodeError e then (Ret (PNone, tag +:+ str_exn e), log ev w)
         else (Raise e, log ev w)
     end) w.
Proof.
  intros _ Htag. unfold read_result.
  destruct (json_loads text) as [d|e] eqn:Hloads.
  - do 3 right. split; [done|]. exists text. by rewrite Hloads.
  - destruct (is_JSONDecodeError e) eqn:Hcls.
    + left. eexists. split; [reflexivity|apply Htag].
    + do 3 right. split; [done|]. exists text. by rewrite Hloads.
Qed.

Lemma read_attempt_eq (path : string) (w : world) :
  try_except
    (bind (read_file path "r") (fun data => ret (@inr (pyval * string) string data)))
    (fun e => ret (inl (PNone, "[Local Read Error] " +:+ str_exn e))) w
  = (Ret match file_error w path "r" with
         | Some msg => inl (PNone, "[Local Read Error] " +:+ msg)
         | None =>
             match files w !! path with
             | Some content => inr (universal_newlines content)
             | None => inl (PNone, "[Local Read Error] "
                                   +:+ ("[Errno 2] No such file or directory: '"
                                        +:+ path +:+ "'"))
             end
         end,
     log (EvOpen path "r") w).
Proof.
  unfold read_file. run. destruct (file_error _ _ _); [reflexivity|].
  destruct (files w !! path); reflexivity.
Qed.

Lemma read_from_local_spec (path data_format : string) (w : world) :
  read_result json_loads "Local" data_format (EvOpen path "r")
    (_read_from_local json_loads path data_format w) w.
Proof.
  unfold _read_from_local. rewrite bind_eq, read_attempt_eq.
  destruct (file_error _ _ _) as [msg|].
  { left. eexists. split; [reflexivity|reflexivity]. }
  destruct (files w !! path) as [content|].
  2:{ left. eexists. split; [reflexivity|reflexivity]. }
  destruct (String.eqb_spec data_format "json") as [->|Hj].
  - rewrite decode_eq. apply decoded_read_result; [reflexivity|intros; reflexivity].
  - destruct (String.eqb_spec data_format "text") as [->|Ht]; simpl.
    + do 2 right. left. split; [done|]. eauto.
    + right. left. repeat split; [done|by left].
Qed.

Lemma read_from_amazon_spec (name data_format : string) (w : world) :
  amazon_configured w ->
  exists ev, is_backend_read ev = true /\
    read_result json_loads "Amazon" data_format ev (_read_from_amazon json_loads name data_format w) w.
Proof.
  intros Hcfg. destruct (initialize_amazon_configured w Hcfg) as (a & s & b & _ & _ & _ & Hinit).
  unfold _read_from_amazon. rewrite bind_eq, Hinit. cbn beta iota.
  destruct (S3Facts.s3_get_text_shape (S3Manager.init a s) b name w)
    as (d & e & Hget & Hshape).
  rewrite bind_eq, Hget. cbn beta iota.
  exists (EvS3 a s "us-west-2" (S3GetObject b name)). split; [reflexivity|].
  change (log (EvS3 _ _ _ _) w) with (log (EvS3 a s "us-west-2" (S3GetObject b name)) w).
  destruct Hshape as [[-> [text ->]]|[-> Htag]].
  - rewrite truthy_empty. destruct (String.eqb_spec data_format "json") as [->|Hj].
    + rewrite decode_eq. apply decoded_read_result; [reflexivity|intros; reflexivity].
    + destruct (String.eqb_spec data_format "text") as [->|Ht]; simpl.
      * do 2 right. left. split; [done|]. eauto.
      * right. left. repeat split; [done|by left].
  - rewrite (has_tag_truthy _ Htag). left. eauto.
Qed.

Lemma read_from_render_spec (name data_format : string) (w : world) :
  exists ev, is_backend_read ev = true /\
    read_result json_loads "Render" data_format ev (_read_from_render json_loads name data_format w) w.
Proof.
  unfold _read_from_render. rewrite bind_eq, initialize_render_eq.
  destruct (RenderFacts.render_get_object_shape (render_manager w) name data_format w)
    as (d & e & Hget & Hshape).
  rewrite bind_eq, Hget. cbn beta iota.
  exists (EvHttp (HttpRequest "GET" (RenderFileManager.file_url (render_manager w) name)
                              (RenderFileManager.headers (render_manager w))
                              (Some data_format) None)).
  split; [reflexivity|].
  destruct Hshape as [->|[-> Htag]].
  - rewrite truthy_empty. destruct (String.eqb_spec data_format "json") as [->|Hj].
    + destruct d;
        try (right; left; repeat split; [done|by right]).
      rewrite decode_eq. apply decoded_read_result; [reflexivity|intros; reflexivity].
    + destruct d;
        (destruct (String.eqb_spec data_format "text") as [->|Ht]; simpl;
         [do 2 right; left; split; [done|]; eauto
         |right; left; repeat split; [done|by left]]).
  - rewrite (has_tag_truthy _ Htag). left. eauto.
Qed.

(** [get], whole. *)
Lemma get_spec (name host data_format : string) (w : world) :
  (host = "Amazon" /\ ~ amazon_configured w
   /\ get json_loads name host data_format w = (Raise environment_error, w))
  \/ ((host = "Amazon" -> amazon_configured w)
      /\ exists ev, is_backend_read ev = true
           /\ read_result json_loads host data_format ev (get json_loads name host data_format w) w).
Proof.
  destruct (String.eqb_spec host "Amazon") as [->|Ha].
  - destruct (decide (amazon_configured w)) as [Hcfg|Hno].
    + right. split; [done|]. unfold get. simpl. rewrite bind_ret_pair_r.
      by apply read_from_amazon_spec.
    + left. repeat split; [done|]. unfold get. simpl. rewrite bind_ret_pair_r.
      apply (amazon_functions_stop_early json_dumps json_loads w Hno name "" PNone).
  - right. split; [done|]. destruct (String.eqb_spec host "Render") as [->|Hr].
    + unfold get. simpl. rewrite bind_ret_pair_r. apply read_from_render_spec.
    + rewrite get_local by assumption. exists (EvOpen name "r"). split; [reflexivity|].
      pose proof (read_from_local_spec name data_format w) as H.
      unfold read_result in *. destruct H as [H|[(H1 & H2 & H3)|H]]; auto.
      right. left. repeat split; auto. destruct H2 as [H2|H2]; [by left|discriminate].
Qed.

End RouterFacts.

(** ** Unsupported formats *)





Example bad_format_get_on_render_calls_the_service :
  trace (snd (get Json.loads "cfg.json" "Render" "xml" render_box))
  = [EvHttp (HttpRequest "GET" "https://file-manager-vist.onrender.com/files/cfg.json"
                         (Some "s3cret") (Some "xml") None)].
Proof. reflexivity. Qed.

(** ** Exceptions at the public boundary *)





(** ** Tags on returned errors *)

(** C9 as the spec has it fails: the error [get] returns for an
    unsupported format is not empty and carries no tag. *)
Lemma get_bad_format_error_untagged :
  fst (get Json.loads "notes.txt" "Local" "xml" laptop_with_notes)
    = Ret (PNone, unsupported_format)
  /\ unsupported_format <> ""
  /\ has_tag unsupported_format = false.
Proof. repeat split. discriminate. Qed.

(** C9, amended: an error string returned by [put], [upload] or
    [download] is empty or starts with one of the bracketed tags, and so
    does one returned by [get] with format "text", or with format "json"
    on "Amazon" or the local path.  With a format that is neither, [get]
    returns a tagged error or the untagged unsupported-format message. *)
Theorem returned_errors_are_tagged
  (json_dumps : pyval -> outcome string) (json_loads : string -> outcome pyval)
  (w : world) :
  (forall name data host data_format e w',
     put json_dumps name data host data_format w = (Ret e, w') ->
     e = "" \/ has_tag e = true)
  /\ (forall path name host e w',
        upload path name host w = (Ret e, w') -> e = "" \/ has_tag e = true)
  /\ (forall name path host e w',
        download name path host w = (Ret e, w') -> e = "" \/ has_tag e = true)
  /\ (forall name host data_format d e w',
        get json_loads name host data_format w = (Ret (d, e), w') ->
        (data_format = "text" \/ (data_format = "json" /\ host <> "Render") ->
         e = "" \/ has_tag e = true)
        /\ (data_format <> "text" -> data_format <> "json" ->
            has_tag e = true \/ e = unsupported_format)).
Proof.
  repeat split.
  - intros name data host data_format e w' Hput.
    destruct (put_spec json_dumps json_loads name data host data_format w)
      as [(_ & _ & H)|[_ H]]; [congruence|].
    destruct (write_stops _ _ _); [congruence|].
    destruct H as (e0 & w0 & H & Hok). replace e with e0 by congruence. exact Hok.
  - intros path name host e w' Hup.
    destruct (transfer_spec json_dumps json_loads path name host w)
      as [(_ & _ & H & _)|(_ & (e0 & w0 & H & Hok) & _)]; [congruence|].
    replace e with e0 by congruence. exact Hok.
  - intros name path host e w' Hdown.
    destruct (transfer_spec json_dumps json_loads path name host w)
      as [(_ & _ & _ & H)|(_ & _ & (e0 & w0 & H & Hok))]; [congruence|].
    replace e with e0 by congruence. exact Hok.
  - intros Hfmt.
    destruct (get_spec json_dumps json_loads name host data_format w)
      as [(_ & _ & Hget)|(_ & ev & _ & Hres)]; [congruence|].
    destruct Hres as [(e0 & Hget & Htag)|[(Ht & Hj & Hget)|[(_ & d0 & Hget)|(_ & text & Hres)]]].
    + right. congruence.
    + exfalso. destruct Hfmt as [?|[? ?]]; [done|]. destruct Hj; done.
    + left. congruence.
    + destruct (json_loads text); [left|destruct Hres]; congruence.
  - intros Ht Hj.
    destruct (get_spec json_dumps json_loads name host data_format w)
      as [(_ & _ & Hget)|(_ & ev & _ & Hres)]; [congruence|].
    destruct Hres as [(e0 & Hget & Htag)|[(_ & _ & Hget)|[(? & _)|(? & _)]]];
      try contradiction.
    + left. congruence.
    + right. congruence.
Qed.

Lemma returned_errors_are_tagged_witness :
  "[Local Read Error] [Errno 2] No such file or directory: 'missing.txt'" = ""
  \/ has_tag "[Local Read Error] [Errno 2] No such file or directory: 'missing.txt'" = true.
Proof.
  pose proof (returned_errors_are_tagged Json.dumps Json.loads laptop)
    as (_ & _ & _ & Hget).
  apply (Hget "missing.txt" "Local" "text" PNone _ (log (EvOpen "missing.txt" "r") laptop)).
  - reflexivity.
  - by left.
Defined.

(** ** The JSON round trip *)

(** X2, the JSON round trip on the local path: once [put] with format
    "json" has returned the empty error, [get] with format "json" returns
    the value that was put, provided the file can be opened for reading. *)
Theorem local_json_round_trip (name host : string) (obj : pyval) (w w1 : world) :
  host <> "Amazon" -> host <> "Render" ->
  json_serializable obj = true -> distinct_keys obj = true ->
  file_error w name "r" = None ->
  put Json.dumps name obj host "json" w = (Ret "", w1) ->
  get Json.loads name host "json" w1 = (Ret (obj, ""), log (EvOpen name "r") w1).
Proof.
  intros Ha Hr Hser Hkeys Hread Hput.
  rewrite put_local in Hput by assumption. rewrite get_local by assumption.
  unfold _write_to_local in Hput. rewrite bind_eq, convert_for_write_eq in Hput.
  change ("json" =? "json")%string with true in Hput. cbv iota in Hput.
  rewrite (JsonFacts.dumps_encode obj Hser) in Hput.
  unfold open_truncate, write_text in Hput. run.
  destruct (file_error w name "w") as [msg|] eqn:Hwrite; [discriminate|].
  injection Hput as <-.
  unfold _read_from_local, read_file. run. simpl.
  rewrite Hread. rewrite lookup_insert_eq.
  rewrite (JsonFacts.universal_newlines_printable _ (JsonFacts.printable_encode obj)).
  by rewrite (JsonFacts.loads_encode obj Hser Hkeys).
Qed.

Lemma local_json_round_trip_witness :
  fst (get Json.loads "cfg.json" "Local" "json"
         (snd (put Json.dumps "cfg.json" (PDict [("a", PList [PInt 1; PNone])]) "Local"
                   "json" laptop)))
  = Ret (PDict [("a", PList [PInt 1; PNone])], "").
Proof.
  exact (f_equal fst
           (local_json_round_trip "cfg.json" "Local" (PDict [("a", PList [PInt 1; PNone])])
              laptop
              (snd (put Json.dumps "cfg.json" (PDict [("a", PList [PInt 1; PNone])])
                        "Local" "json" laptop))
              ltac:(discriminate) ltac:(discriminate) eq_refl eq_refl eq_refl eq_refl)).
Defined.





(** ** The arguments of the upload to the object store *)

(** X4: [_upload_to_amazon] hands [S3Manager.upload_file] the local path
    where the method takes the bucket and the bucket where it takes the
    local path: the file that is opened is the one named like the bucket,
    and what is stored goes to a bucket named like the local path. *)
Theorem upload_to_amazon_swaps_path_and_bucket
  (path name access_key secret_key bucket : string) (w : world)
  (Haccess : environ w !! "AWS_WATCHDOG_ACCESS_KEY" = Some access_key)
  (Hsecret : environ w !! "AWS_WATCHDOG_SECRET_KEY" = Some secret_key)
  (Hbucket : environ w !! "AWS_WATCHDOG_BUCKET" = Some bucket) :
  exists e w',
    upload path name "Amazon" w = (Ret e, w')
    /\ (trace w' = EvOpen bucket "rb" :: trace w
        \/ exists body,
             files w !! bucket = Some body
             /\ trace w' = EvS3 access_key secret_key "us-west-2"
                                (S3PutObject path name body "binary/octet-stream")
                           :: EvOpen bucket "rb" :: trace w).
Proof.
  unfold upload, _upload_to_amazon. simpl. rewrite bind_ret_r.
  unfold _initialize_amazon. run. rewrite Haccess, Hsecret, Hbucket. simpl.
  unfold S3Manager.upload_file, S3Manager.s3_client_upload_file, S3Manager.s3_client,
    read_file. run. simpl.
  destruct (file_error w bucket "rb"); [do 2 eexists; split; [reflexivity|by left]|].
  destruct (files w !! bucket) as [body|] eqn:Hfile;
    [|do 2 eexists; split; [reflexivity|by left]].
  simpl. destruct (s3_service w _ _);
    do 2 eexists; (split; [reflexivity|right; exists body; by split]).
Qed.

Lemma upload_to_amazon_swaps_path_and_bucket_witness :
  trace (snd (upload "report.pdf" "reports/r.pdf" "Amazon" lambda))
  = [EvOpen "watchdog-bucket" "rb"].
Proof.
  destruct (upload_to_amazon_swaps_path_and_bucket "report.pdf" "reports/r.pdf"
              "AKIA" "abc" "watchdog-bucket" lambda eq_refl eq_refl eq_refl)
    as (e & w' & Hup & Htrace).
  rewrite Hup. destruct Htrace as [Ht|(body & Hfile & _)]; [exact Ht|].
  discriminate Hfile.
Defined.

(** * Further properties of the router and its adapters *)

(** ** Data and error *)

(** X6: [get] never hands back data together with an error.  Whenever
    it returns a pair whose error is not empty, the data of the pair is
    [None], on every host and for every format. *)
Theorem get_error_means_no_data
  (json_dumps : pyval -> outcome string) (json_loads : string -> outcome pyval)
  (name host data_format : string) (d : pyval) (e : string) (w w' : world) :
  get json_loads name host data_format w = (Ret (d, e), w') ->
  e <> "" -> d = PNone.
Proof.
  intros Hget He.
  destruct (get_spec json_dumps json_loads name host data_format w)
    as [(_ & _ & Hraise)|(_ & ev & _ & Hres)].
  { rewrite Hraise in Hget. discriminate. }
  unfold read_result in Hres. rewrite Hget in Hres.
  destruct Hres as [(e' & Heq & _)|[(_ & _ & Heq)|[(_ & d' & Heq)|(_ & text & Hloads)]]].
  - congruence.
  - congruence.
  - exfalso. apply He. congruence.
  - destruct (json_loads text) as [d'|ex].
    + exfalso. apply He. congruence.
    + destruct Hloads as [_ Heq]. discriminate.
Qed.

Lemma get_error_means_no_data_witness :
  get Json.loads "missing.txt" "Local" "text" laptop
  = (Ret (PNone, "[Local Read Error] [Errno 2] No such file or directory: 'missing.txt'"),
     log (EvOpen "missing.txt" "r") laptop)
  /\ PNone = PNone.
Proof.
  split; [reflexivity|].
  exact (get_error_means_no_data Json.dumps Json.loads "missing.txt" "Local" "text" PNone
           "[Local Read Error] [Errno 2] No such file or directory: 'missing.txt'"
           laptop (log (EvOpen "missing.txt" "r") laptop) eq_refl ltac:(discriminate)).
Defined.

(** ** Text through the three backends *)

Lemma universal_newlines_fixed (s : string) :
  universal_newlines s = s <-> no_carriage_return s = true.
Proof.
  unfold no_carriage_return. induction s as [|c s IH]; [done|].
  cbn [list_ascii_of_string forallb].
  destruct (Ascii.eqb_spec c "013") as [->|Hc].
  - split; [|discriminate]. destruct s as [|c' s]; [discriminate|].
    simpl. destruct c' as [[] [] [] [] [] [] [] []]; discriminate.
  - cbn [negb andb]. rewrite <- IH.
    assert (Heq : universal_newlines (String c s) = String c (universal_newlines s)).
    { destruct c as [[] [] [] [] [] [] [] []]; try reflexivity. by destruct Hc. }
    rewrite Heq. split; [by injection 1|by intros ->].
Qed.

(** X7, text on the local path, where the line separator of the system
    is the newline: once [put] with format "text" has written a string,
    [get] with format "text" returns that string with every ["\r\n"] and
    every lone ["\r"] turned into ["\n"], because the file is read in
    text mode.  What comes back is what was put exactly when the text
    holds no carriage return. *)
Theorem local_text_round_trip
  (json_dumps : pyval -> outcome string) (json_loads : string -> outcome pyval)
  (name host text : string) (w w1 : world) :
  host <> "Amazon" -> host <> "Render" ->
  file_error w name "r" = None ->
  put json_dumps name (PStr text) host "text" w = (Ret "", w1) ->
  get json_loads name host "text" w1
  = (Ret (PStr (universal_newlines text), ""), log (EvOpen name "r") w1)
  /\ (universal_newlines text = text <-> no_carriage_return text = true).
Proof.
  intros Ha Hr Hread Hput. split; [|apply universal_newlines_fixed].
  rewrite put_local in Hput by assumption. rewrite get_local by assumption.
  unfold _write_to_local in Hput. rewrite bind_eq, convert_for_write_eq in Hput.
  change ("text" =? "json")%string with false in Hput.
  change ("text" =? "text")%string with true in Hput. cbv iota in Hput.
  unfold open_truncate, write_text in Hput. run.
  destruct (file_error w name "w") as [msg|] eqn:Hwrite; [discriminate|].
  injection Hput as <-.
  unfold _read_from_local, read_file. run. simpl.
  rewrite Hread. by rewrite lookup_insert_eq.
Qed.

Lemma local_text_round_trip_witness :
  fst (get Json.loads "notes.txt" "Local" "text"
         (snd (put Json.dumps "notes.txt"
                   (PStr (String "a" (String "013" (String "010" "b"))))
                   "Local" "text" laptop)))
  = Ret (PStr (String "a" (String "010" "b")), "").
Proof.
  exact (f_equal fst
           (proj1 (local_text_round_trip Json.dumps Json.loads "notes.txt" "Local"
              (String "a" (String "013" (String "010" "b"))) laptop
              (snd (put Json.dumps "notes.txt"
                        (PStr (String "a" (String "013" (String "010" "b"))))
                        "Local" "text" laptop))
              ltac:(discriminate) ltac:(discriminate) eq_refl eq_refl))).
Defined.

(** X8, text on the object store: when the store keeps what it is
    given, [put] with format "text" returns the empty error and the [get]
    that follows returns the very string that was put, carriage returns
    included. *)
Theorem amazon_text_round_trip
  (json_dumps : pyval -> outcome string) (json_loads : string -> outcome pyval)
  (name text : string) (w : world) :
  amazon_configured w -> s3_service w = s3_store ->
  exists w1,
    put json_dumps name (PStr text) "Amazon" "text" w = (Ret "", w1)
    /\ fst (get json_loads name "Amazon" "text" w1) = Ret (PStr text, "").
Proof.
  intros Hcfg Hs3.
  destruct (initialize_amazon_configured w Hcfg) as (a & s & b & Ha & Hs & Hb & Hinit).
  eexists. split.
  - unfold put, _write_to_amazon. simpl. rewrite bind_ret_r, bind_eq, Hinit.
    cbn beta iota. rewrite bind_eq, convert_for_write_eq.
    change ("text" =? "json")%string with false.
    change ("text" =? "text")%string with true. cbv iota. rewrite bind_ret_r.
    unfold S3Manager.put_text, S3Manager.s3_client. run. simpl.
    rewrite Hs3. reflexivity.
  - unfold get, _read_from_amazon. simpl. rewrite bind_ret_pair_r.
    unfold _initialize_amazon, S3Manager.get_text, S3Manager.s3_client. run. simpl.
    rewrite Ha, Hs, Hb. simpl. rewrite Hs3. simpl. rewrite !String.eqb_refl. reflexivity.
Qed.

Lemma amazon_text_round_trip_witness :
  exists w1,
    put Json.dumps "notes.txt" (PStr "hello") "Amazon" "text" lambda = (Ret "", w1)
    /\ fst (get Json.loads "notes.txt" "Amazon" "text" w1) = Ret (PStr "hello", "").
Proof.
  apply (amazon_text_round_trip Json.dumps Json.loads "notes.txt" "hello" lambda);
    try reflexivity.
  repeat split; eexists; reflexivity.
Defined.

(** X9, format "text" on the remote service: [put] sends the data as it
    is, of whatever type the JSON encoder accepts, and with a service
    that hands back what it stored [get] returns that value unchanged
    and unchecked: a dict put as "text" comes back as a dict. *)
Theorem render_text_round_trip
  (json_dumps : pyval -> outcome string) (json_loads : string -> outcome pyval)
  (name : string) (data : pyval) (w : world) :
  http_service w = plain_service -> json_serializable data = true ->
  exists w1,
    put json_dumps name data "Render" "text" w = (Ret "", w1)
    /\ fst (get json_loads name "Render" "text" w1) = Ret (data, "").
Proof.
  intros Hhttp Hser. eexists. split.
  - unfold put, _write_to_render. simpl. rewrite bind_ret_r, bind_eq, initialize_render_eq.
    rewrite bind_eq, convert_for_write_eq.
    change ("text" =? "json")%string with false.
    change ("text" =? "text")%string with true. cbv iota. rewrite bind_ret_r.
    unfold RenderFileManager.put_object, RenderFileManager.requests,
      RenderFileManager.send, RenderFileManager.raise_for_status. run. simpl.
    rewrite Hser, Hhttp. reflexivity.
  - unfold get, _read_from_render. simpl. rewrite bind_ret_pair_r.
    rewrite bind_eq, initialize_render_eq.
    unfold RenderFileManager.get_object, RenderFileManager.requests,
      RenderFileManager.send, RenderFileManager.raise_for_status,
      RenderFileManager.response_json, RenderFileManager.getitem_data. run. simpl.
    rewrite Hhttp. unfold plain_service. simpl. rewrite String.eqb_refl. simpl.
    by destruct data.
Qed.

Lemma render_text_round_trip_witness :
  exists w1,
    put Json.dumps "notes.txt" (PDict [("a", PInt 1)]) "Render" "text" render_box_no_key
      = (Ret "", w1)
    /\ fst (get Json.loads "notes.txt" "Render" "text" w1) = Ret (PDict [("a", PInt 1)], "").
Proof.
  apply (render_text_round_trip Json.dumps Json.loads "notes.txt" (PDict [("a", PInt 1)])
           render_box_no_key); reflexivity.
Defined.



(** ** Files through the adapters *)

(** X11: a download from the remote service that fails on the payload
    destroys the local file.  When the reply gets through (a status
    outside 400-599, a JSON body with a ["data"] field) but [bytes]
    refuses the data, the local file has been opened for writing
    already: [download_file] returns a "[Render Download Error]" and the
    local file is left empty. *)
Theorem render_download_bad_payload_empties_file
  (self : RenderFileManager.t) (key path : string) (w : world)
  (st : Z) (rs : string) (items : list (string * pyval)) (content : pyval) (ex : exn) :
  http_service w (trace w)
    (HttpRequest "GET" (RenderFileManager.file_url self key)
                 (RenderFileManager.headers self) (Some "pickle") None)
  = Response st rs (Some (PDict items)) ->
  (st < 400 \/ 600 <= st) ->
  find (fun kv => fst kv =? "data")%string items = Some ("data", content) ->
  py_bytes content = Raise ex ->
  file_error w path "wb" = None ->
  exists w',
    RenderFileManager.download_file self key path w
    = (Ret ("[Render Download Error] " +:+ str_exn ex), w')
    /\ files w' = <[path := ""]> (files w).
Proof.
  intros Hreply Hst Hfind Hbytes Hopen.
  unfold RenderFileManager.download_file, RenderFileManager.requests,
    RenderFileManager.send, RenderFileManager.raise_for_status,
    RenderFileManager.response_json, RenderFileManager.getitem_data,
    open_truncate, write_bytes. run. cbn [http_json].
  rewrite Hreply. cbn [RenderFileManager.status_code RenderFileManager.json_body].
  assert (H4 : (400 <=? st) && (st <? 500) = false) by lia.
  assert (H5 : (500 <=? st) && (st <? 600) = false) by lia.
  rewrite H4, H5, Hfind. cbn [snd file_error log]. rewrite Hopen, Hbytes.
  eexists. split; reflexivity.
Qed.

Lemma render_download_bad_payload_empties_file_witness :
  exists w',
    RenderFileManager.download_file (render_manager render_box_with_draft)
      "draft.txt" "draft.txt" render_box_with_draft
    = (Ret "[Render Download Error] string argument without an encoding", w')
    /\ files render_box_with_draft !! "draft.txt" = Some "v1"
    /\ files w' !! "draft.txt" = Some "".
Proof.
  destruct (render_download_bad_payload_empties_file
              (render_manager render_box_with_draft) "draft.txt" "draft.txt"
              render_box_with_draft 200 "OK" [("data", PStr "v2")] (PStr "v2")
              (TypeError "string argument without an encoding")
              eq_refl ltac:(lia) eq_refl eq_refl eq_refl) as (w' & Hdown & Hfiles).
  exists w'. split; [exact Hdown|]. split; [reflexivity|].
  rewrite Hfiles. apply lookup_insert_eq.
Defined.

(** X24: a download from the remote service that fails at the exchange
    leaves the local files alone.  When no reply comes, or the status is
    in 400-599, or the body is not JSON or has no ["data"] field,
    [download_file] returns a tagged error and the request is the only
    call that was made: the local file was not opened.  A JSON object
    without the field gives the error "[Render Download Error] 'data'". *)
Theorem render_download_failed_exchange_keeps_file
  (self : RenderFileManager.t) (key path : string) (w : world) :
  let req := HttpRequest "GET" (RenderFileManager.file_url self key)
                         (RenderFileManager.headers self) (Some "pickle") None in
  exchange_fails (http_service w (trace w) req) ->
  exists e,
    RenderFileManager.download_file self key path w = (Ret e, log (EvHttp req) w)
    /\ has_tag e = true
    /\ (forall st rs items,
          http_service w (trace w) req = Response st rs (Some (PDict items)) ->
          (st < 400 \/ 600 <= st) ->
          e = "[Render Download Error] 'data'").
Proof.
  intros req Hfails.
  unfold RenderFileManager.download_file, RenderFileManager.requests,
    RenderFileManager.send, RenderFileManager.raise_for_status,
    RenderFileManager.response_json, RenderFileManager.getitem_data. run.
  cbn [http_json]. fold req.
  destruct (http_service w (trace w) req) as [st rs body|msg] eqn:Hreply.
  2:{ eexists. split; [reflexivity|]. split; [reflexivity|]. intros ? ? ? [=]. }
  cbn [RenderFileManager.status_code RenderFileManager.json_body RenderFileManager.reason
       RenderFileManager.url].
  destruct ((400 <=? st) && (st <? 500)) eqn:H4.
  { eexists. split; [reflexivity|]. split; [reflexivity|]. intros ? ? ? [= -> _ _] ?. lia. }
  destruct ((500 <=? st) && (st <? 600)) eqn:H5.
  { eexists. split; [reflexivity|]. split; [reflexivity|]. intros ? ? ? [= -> _ _] ?. lia. }
  destruct Hfails as [Hst|Hbody]; [lia|].
  destruct body as [v|].
  2:{ eexists. split; [reflexivity|]. split; [reflexivity|]. intros ? ? ? [=]. }
  destruct v; try (eexists; split; [reflexivity|]; split; [reflexivity|]; by intros ? ? ? [=]).
  rewrite Hbody. eexists. split; [reflexivity|]. split; [reflexivity|]. by intros.
Qed.

Lemma render_download_failed_exchange_keeps_file_witness :
  exists e,
    RenderFileManager.download_file (render_manager render_box_with_notes)
      "missing.bin" "notes.txt" render_box_with_notes
    = (Ret e,
       log (EvHttp (HttpRequest "GET"
                      (RenderFileManager.file_url (render_manager render_box_with_notes)
                                                  "missing.bin")
                      (RenderFileManager.headers (render_manager render_box_with_notes))
                      (Some "pickle") None))
           render_box_with_notes)
    /\ has_tag e = true.
Proof.
  destruct (render_download_failed_exchange_keeps_file
              (render_manager render_box_with_notes) "missing.bin" "notes.txt"
              render_box_with_notes) as (e & Hdown & Htag & _).
  - left. cbn. lia.
  - exists e. by split.
Defined.

Lemma bytes_of_list_of_bytes (b : string) :
  py_bytes (list_of_bytes b) = Ret b.
Proof.
  unfold list_of_bytes, py_bytes. induction b as [|c b IH]; [reflexivity|].
  cbn [list_ascii_of_string map bytes_of_items]. rewrite IH.
  unfold byte_of_item.
  assert (Hrange : (0 <=? Z.of_N (N_of_ascii c)) && (Z.of_N (N_of_ascii c) <? 256) = true).
  { pose proof (N_ascii_bounded c). lia. }
  rewrite Hrange, N2Z.id, ascii_N_embedding. reflexivity.
Qed.

Lemma list_of_bytes_serializable (b : string) :
  json_serializable (list_of_bytes b) = true.
Proof.
  unfold list_of_bytes. cbn [json_serializable].
  induction (list_ascii_of_string b); [reflexivity|done].
Qed.

(** X12, a file through the remote service: with a service that hands
    back what it stored, [upload] of a readable local file returns the
    empty error and the [download] that follows writes the same bytes
    to the local destination; [bytes(list(b))] is [b]. *)
Theorem render_upload_download_round_trip
  (src name dst content : string) (w : world) :
  http_service w = plain_service ->
  files w !! src = Some content ->
  file_error w src "rb" = None -> file_error w dst "wb" = None ->
  exists w1 w2,
    upload src name "Render" w = (Ret "", w1)
    /\ download name dst "Render" w1 = (Ret "", w2)
    /\ files w2 = <[dst := content]> (files w).
Proof.
  intros Hhttp Hsrc Hread Hwrite. do 2 eexists. split; [|split].
  - unfold upload, _upload_to_render. simpl.
    rewrite bind_ret_r, bind_eq, initialize_render_eq, bind_ret_r.
    unfold RenderFileManager.upload_file, RenderFileManager.requests,
      RenderFileManager.send, RenderFileManager.raise_for_status, read_file. run.
    cbn [http_json]. rewrite Hread, Hsrc, list_of_bytes_serializable.
    cbn [http_service log trace]. rewrite Hhttp. reflexivity.
  - unfold download, _download_from_render. simpl.
    rewrite bind_ret_r, bind_eq, initialize_render_eq, bind_ret_r.
    unfold RenderFileManager.download_file, RenderFileManager.requests,
      RenderFileManager.send, RenderFileManager.raise_for_status,
      RenderFileManager.response_json, RenderFileManager.getitem_data,
      open_truncate, write_bytes. run.
    cbn [http_json http_service log trace]. rewrite Hhttp.
    unfold plain_service. cbn [http_method http_url disk_lookup].
    change ("GET" =? "PUT")%string with false. cbn iota.
    rewrite String.eqb_refl. cbn [reply_ok].
    unfold reply_ok. cbn -[py_bytes list_of_bytes]. rewrite String.eqb_refl.
    cbn -[py_bytes list_of_bytes]. rewrite Hwrite, bytes_of_list_of_bytes. reflexivity.
  - cbn. by rewrite insert_insert_eq.
Qed.

Lemma render_upload_download_round_trip_witness :
  exists w1 w2,
    upload "notes.txt" "backup/notes.txt" "Render" render_box_with_notes = (Ret "", w1)
    /\ download "backup/notes.txt" "copy.txt" "Render" w1 = (Ret "", w2)
    /\ files w2 = <[ "copy.txt" := "hello world" ]> (files render_box_with_notes).
Proof.
  exact (render_upload_download_round_trip "notes.txt" "backup/notes.txt" "copy.txt"
           "hello world" render_box_with_notes eq_refl eq_refl eq_refl eq_refl).
Defined.

(** X13, a file through the object-store adapter: with a store that
    keeps what it is given, [S3Manager.upload_file] of a readable local
    file followed by [S3Manager.download_file] of the same bucket and key
    writes the same bytes to the local destination. *)
Theorem s3_upload_download_round_trip
  (self : S3Manager.t) (bucket src key dst content : string) (w : world) :
  s3_service w = s3_store ->
  files w !! src = Some content ->
  file_error w src "rb" = None -> file_error w dst "wb" = None ->
  exists w1 w2,
    S3Manager.upload_file self bucket src key w = (Ret "", w1)
    /\ S3Manager.download_file self bucket key dst w1 = (Ret "", w2)
    /\ files w2 = <[dst := content]> (files w).
Proof.
  intros Hs3 Hsrc Hread Hwrite. do 2 eexists. split; [|split].
  - unfold S3Manager.upload_file, S3Manager.s3_client_upload_file, S3Manager.s3_client,
      read_file. run.
    rewrite Hread, Hsrc. cbn [s3_service log trace]. rewrite Hs3. reflexivity.
  - unfold S3Manager.download_file, S3Manager.s3_client_download_file, S3Manager.s3_client,
      open_truncate, write_bytes. run.
    cbn [s3_service log trace file_error]. rewrite Hs3.
    cbn [s3_store s3_lookup]. rewrite !String.eqb_refl. cbn [andb].
    cbn [file_error log]. rewrite Hwrite. reflexivity.
  - cbn. by rewrite insert_insert_eq.
Qed.

Lemma s3_upload_download_round_trip_witness :
  exists w1 w2,
    S3Manager.upload_file (S3Manager.init "AKIA" "abc") "watchdog-bucket" "notes.txt"
      "backup/notes.txt" lambda_with_notes = (Ret "", w1)
    /\ S3Manager.download_file (S3Manager.init "AKIA" "abc") "watchdog-bucket"
         "backup/notes.txt" "copy.txt" w1 = (Ret "", w2)
    /\ files w2 = <[ "copy.txt" := "hello world" ]> (files lambda_with_notes).
Proof.
  exact (s3_upload_download_round_trip (S3Manager.init "AKIA" "abc") "watchdog-bucket"
           "notes.txt" "backup/notes.txt" "copy.txt" "hello world" lambda_with_notes
           eq_refl eq_refl eq_refl eq_refl).
Defined.

(** X14: [upload] to the remote service reads the local file before it
    sends anything.  When the file cannot be opened or does not exist,
    [upload] returns a tagged error and the opening of the file is the
    only call that was made: no request went out. *)
Theorem render_upload_reads_before_it_sends (path name : string) (w : world) :
  (file_error w path "rb" <> None \/ files w !! path = None) ->
  exists e,
    upload path name "Render" w = (Ret e, log (EvOpen path "rb") w)
    /\ has_tag e = true.
Proof.
  intros Hbad. unfold upload, _upload_to_render. simpl.
  rewrite bind_ret_r, bind_eq, initialize_render_eq, bind_ret_r.
  unfold RenderFileManager.upload_file, read_file. run.
  destruct (file_error w path "rb") as [msg|]; [eexists; split; reflexivity|].
  destruct Hbad as [Hbad|Hbad]; [done|]. rewrite Hbad. eexists; split; reflexivity.
Qed.

Lemma render_upload_reads_before_it_sends_witness :
  trace (snd (upload "report.pdf" "r.pdf" "Render" render_box)) = [EvOpen "report.pdf" "rb"].
Proof.
  destruct (render_upload_reads_before_it_sends "report.pdf" "r.pdf" render_box
              (or_intror eq_refl)) as (e & Hup & _).
  rewrite Hup. reflexivity.
Defined.

(** ** The address of the remote service *)

Lemma rstrip_slash_only_slashes (t : string) :
  only_slashes t = true -> rstrip_slash t = "".
Proof.
  induction t as [|c t IH]; [done|]. simpl. intros [Hc Ht]%andb_true_iff.
  rewrite (IH Ht). by rewrite Hc.
Qed.

Lemma rstrip_slash_append (s t : string) :
  only_slashes t = true -> rstrip_slash (s +:+ t) = rstrip_slash s.
Proof.
  intros Ht. induction s as [|c s IH].
  - change ("" +:+ t) with t. by rewrite rstrip_slash_only_slashes.
  - change (String c s +:+ t) with (String c (s +:+ t)). simpl. by rewrite IH.
Qed.

Lemma rstrip_slash_no_trailing (s : string) :
  ends_with_slash (rstrip_slash s) = false.
Proof.
  induction s as [|c s IH]; [done|]. simpl.
  destruct (rstrip_slash s) as [|c' s'] eqn:Hs.
  - destruct (Ascii.eqb_spec c "/"); [done|]. simpl. by apply Ascii.eqb_neq.
  - exact IH.
Qed.

(** X15: slashes at the end of the service URL do not matter.  A
    manager built from a URL followed by any number of slashes is the
    manager built from the URL itself, so both address the same files;
    and the base URL a manager keeps never ends with a slash. *)
Theorem render_trailing_slashes_ignored
  (service_url tail : string) (api_key : option string) :
  only_slashes tail = true ->
  RenderFileManager.init (service_url +:+ tail) api_key
  = RenderFileManager.init service_url api_key
  /\ ends_with_slash (RenderFileManager.base_url (RenderFileManager.init service_url api_key))
     = false.
Proof.
  intros Ht. unfold RenderFileManager.init. rewrite (rstrip_slash_append _ _ Ht).
  split; [reflexivity|apply rstrip_slash_no_trailing].
Qed.

Lemma render_trailing_slashes_ignored_witness :
  RenderFileManager.file_url
    (RenderFileManager.init ("https://file-manager-vist.onrender.com" +:+ "//") None) "a.txt"
  = "https://file-manager-vist.onrender.com/files/a.txt".
Proof.
  rewrite (proj1 (render_trailing_slashes_ignored "https://file-manager-vist.onrender.com"
                    "//" None eq_refl)).
  reflexivity.
Defined.

(** ** What counts as success on the remote service *)

(** X16: [put_object] judges by the status alone.  For data the JSON
    encoder accepts and a reply that comes back, it returns the empty
    error exactly when the status lies outside 400-599, whatever the body
    of the reply says: a redirect or a 204 counts as stored. *)
Theorem render_put_succeeds_outside_4xx_5xx
  (self : RenderFileManager.t) (key : string) (data : pyval) (data_format : string)
  (w : world) (st : Z) (rs : string) (body : option pyval) :
  json_serializable data = true ->
  http_service w (trace w)
    (HttpRequest "PUT" (RenderFileManager.file_url self key)
                 (RenderFileManager.headers self) None (Some (data, data_format)))
  = Response st rs body ->
  fst (RenderFileManager.put_object self key data data_format w) = Ret ""
  <-> (st < 400 \/ 600 <= st).
Proof.
  intros Hser Hreply.
  unfold RenderFileManager.put_object, RenderFileManager.requests,
    RenderFileManager.send, RenderFileManager.raise_for_status. run.
  cbn [http_json]. rewrite Hser, Hreply. cbn [RenderFileManager.status_code].
  destruct ((400 <=? st) && (st <? 500)) eqn:H4.
  { cbn. split; [discriminate|lia]. }
  destruct ((500 <=? st) && (st <? 600)) eqn:H5.
  { cbn. split; [discriminate|lia]. }
  cbn. split; [lia|done].
Qed.

Lemma render_put_succeeds_outside_4xx_5xx_witness :
  fst (RenderFileManager.put_object (render_manager render_box) "a.txt" (PStr "x") "text"
         render_box) = Ret ""
  <-> (200 < 400 \/ 600 <= 200).
Proof.
  exact (render_put_succeeds_outside_4xx_5xx (render_manager render_box) "a.txt" (PStr "x")
           "text" render_box 200 "OK" (Some (PDict [("message", PStr "File saved")]))
           eq_refl eq_refl).
Defined.

(** * Properties of the mail and console utilities *)

Lemma run_bind_eq {A B} (m : Run A) (k : A -> Run B) (h : station) :
  (m ≫= k) h = match m h with
               | (Done a, h') => k a h'
               | (Failed e, h') => (Failed e, h')
               end.
Proof. reflexivity. Qed.

(** ** No mail leaves *)

(** X17: [send_html_email.send] never sends.  Its second statement
    calls [os.get], which the module [os] does not have, so for every
    recipient, subject, body and attachments, in every environment and
    with every mail server, the call ends with an AttributeError and the
    station is as it was: no connection was opened, no file was read. *)
Theorem html_mail_always_raises
  (mimetypes_guess_type : string -> option string)
  (to : option string) (subject : string) (body : option string)
  (attachments : list string) (h : station) :
  send_html_email.send mimetypes_guess_type to subject body attachments h
  = (Failed (AttributeError "module 'os' has no attribute 'get'"), h).
Proof. reflexivity. Qed.

Lemma console_only_refl (h : station) : console_only h h.
Proof. by repeat split. Qed.

Lemma console_only_trans (h1 h2 h3 : station) :
  console_only h1 h2 -> console_only h2 h3 -> console_only h1 h3.
Proof. unfold console_only. intros (?&?&?&?&?) (?&?&?&?&?). repeat split; congruence. Qed.

Lemma print_console_only (text last : string) (h : station) :
  exists h', print text last h = (Done tt, h') /\ console_only h h'.
Proof. eexists. split; [reflexivity|by repeat split]. Qed.

(** How the printing of the table can end. *)
Lemma print_rows_console_only (rows : list (list string)) (h : station) :
  exists r h',
    email_error.print_rows rows h = (r, h') /\ console_only h h'
    /\ (r = Done tt \/ exists msg, r = Failed (IndexError msg)).
Proof.
  revert h. induction rows as [|cols rows IH]; intros h.
  - do 2 eexists. split; [reflexivity|]. split; [apply console_only_refl|by left].
  - cbn [email_error.print_rows]. rewrite run_bind_eq.
    destruct cols as [|first [|second cols]];
      [do 2 eexists; split; [reflexivity|]; split; [apply console_only_refl|right; eauto]..|].
    cbn [email_error.format_row]. unfold mret at 1, Run_ret at 1. rewrite run_bind_eq.
    destruct (print_console_only (ljust 11 first +:+ second) newline h) as (h1 & -> & H1).
    destruct (IH h1) as (r & h' & -> & H2 & Hr). do 2 eexists.
    split; [reflexivity|]. split; [by eapply console_only_trans|exact Hr].
Qed.

Lemma print_to_console_console_only
  (soup_find_table : string -> option (list (list string))) (body : string) (h : station) :
  exists r h',
    email_error.print_to_console soup_find_table body h = (r, h') /\ console_only h h'
    /\ (r = Done tt \/ (exists msg, r = Failed (IndexError msg))
        \/ exists msg, r = Failed (AttributeError msg)).
Proof.
  unfold email_error.print_to_console. rewrite run_bind_eq.
  destruct (print_console_only (email_error.Fore_CYAN +:+ newline) newline h)
    as (h1 & -> & H1).
  rewrite run_bind_eq.
  match goal with
  | |- context [print ?t newline h1] =>
      destruct (print_console_only t newline h1) as (h2 & -> & H2)
  end.
  pose proof (console_only_trans _ _ _ H1 H2) as H12.
  rewrite run_bind_eq.
  destruct (soup_find_table body) as [rows|];
    [|do 2 eexists; split; [reflexivity|]; split; [exact H12|right; right; eauto]].
  unfold mret at 1, Run_ret at 1. rewrite run_bind_eq.
  destruct (print_rows_console_only rows h2) as (r & h3 & -> & H3 & Hr).
  pose proof (console_only_trans _ _ _ H12 H3) as H13.
  destruct Hr as [->|[msg ->]];
    [|do 2 eexists; split; [reflexivity|]; split; [exact H13|right; left; eauto]].
  rewrite run_bind_eq.
  match goal with
  | |- context [print ?t newline h3] =>
      destruct (print_console_only t newline h3) as (h4 & -> & H4)
  end.
  destruct (print_console_only email_error.Fore_WHITE newline h4) as (h5 & -> & H5).
  do 2 eexists. split; [reflexivity|]. split; [|by left].
  eapply console_only_trans; [exact H13|]. by eapply console_only_trans.
Qed.

(** X18: [email_error.send] never returns and never reaches the mail
    server.  Whatever the arguments, the environment and the parser, it
    ends with an IndexError (no line of the stack is left, or a row of
    the table has fewer than two cells) or with an AttributeError (no
    table was found, or [send_html_email.send] was reached and stopped at
    [os.get]); at most the console has been written to. *)
Theorem error_mail_is_never_sent
  (mimetypes_guess_type : string -> option string)
  (soup_find_table : string -> option (list (list string)))
  (to_addr : option string) (msg stack progress : string) (subject : option string)
  (attachments : list string) (h : station) :
  exists e h',
    email_error.send mimetypes_guess_type soup_find_table
                     to_addr msg stack progress subject attachments h
    = (Failed e, h')
    /\ ((exists m, e = IndexError m) \/ (exists m, e = AttributeError m))
    /\ console_only h h'.
Proof.
  unfold email_error.send. rewrite run_bind_eq.
  assert (Hto : exists a,
    match to_addr with
    | Some _ => mret to_addr
    | None => getenv "email_address"
    end h = (Done a, h)) by (destruct to_addr; eexists; reflexivity).
  destruct Hto as (a & ->). rewrite run_bind_eq.
  destruct (email_error.stack_lines stack) as [|first rest].
  { do 2 eexists. split; [reflexivity|]. split; [left; eauto|apply console_only_refl]. }
  cbn [email_error.stack_rows]. unfold mret at 1, Run_ret at 1. rewrite run_bind_eq.
  match goal with
  | |- context [email_error.print_to_console _ ?b h] =>
      destruct (print_to_console_console_only soup_find_table b h)
        as (r & h1 & -> & H1 & [->|[[m ->]|[m ->]]])
  end.
  - do 2 eexists. split; [reflexivity|].
    split; [right; eauto|exact H1].
  - do 2 eexists. split; [reflexivity|]. split; [left; eauto|exact H1].
  - do 2 eexists. split; [reflexivity|]. split; [right; eauto|exact H1].
Qed.

(** ** The lines of the stack *)

Lemma selected_lines_Forall (P : string -> Prop) (keep : nat * string -> bool)
  (i : nat) (lines : list string) :
  Forall P lines -> Forall P (map snd (List.filter keep (enumerate_from i lines))).
Proof.
  intros H. revert i. induction H as [|l lines Hl _ IH]; intros i; [constructor|].
  cbn [enumerate_from List.filter]. destruct (keep (i, l)); cbn [map]; auto.
Qed.

(** A stack whose lines are all empty or marked with carets leaves no
    line. *)
Lemma stack_lines_blank (stack : string) :
  Forall (fun l => l = "" \/ contains l "^^" = true) (split_on "010" stack) ->
  email_error.stack_lines stack = [].
Proof.
  intros Hblank. unfold email_error.stack_lines.
  set (kept := List.filter (fun s => negb (contains s "^^")) (split_on "010" stack)).
  assert (Hkept : Forall (fun l => l = "") kept).
  { subst kept. induction Hblank as [|l lines Hl _ IH]; [constructor|].
    cbn [List.filter]. destruct (contains l "^^") eqn:Hc; cbn [negb]; [exact IH|].
    constructor; [|exact IH]. by destruct Hl. }
  set (picked := if (2 <? length kept)%nat then _ else kept).
  assert (Hpicked : Forall (fun l => l = "") picked).
  { subst picked. destruct (2 <? length kept)%nat; [|exact Hkept].
    by apply selected_lines_Forall. }
  assert (Hnone : List.filter (fun s => negb (s =? "")%string) picked = []).
  { clear -Hpicked. induction Hpicked as [|l lines -> _ IH]; [reflexivity|exact IH]. }
  by rewrite Hnone.
Qed.

(** X19: an empty stack makes [email_error.send] fail at once.  When
    every line of [stack] is empty or holds a run of carets (the empty
    string, for one), no line is left for the first row of the table and
    [lines[0]] raises IndexError before anything is printed or sent: the
    station is as it was. *)
Theorem blank_stack_raises_index_error
  (mimetypes_guess_type : string -> option string)
  (soup_find_table : string -> option (list (list string)))
  (to_addr : option string) (msg stack progress : string) (subject : option string)
  (attachments : list string) (h : station) :
  Forall (fun l => l = "" \/ contains l "^^" = true) (split_on "010" stack) ->
  email_error.send mimetypes_guess_type soup_find_table
                   to_addr msg stack progress subject attachments h
  = (Failed (IndexError "list index out of range"), h).
Proof.
  intros Hblank. unfold email_error.send.
  rewrite (stack_lines_blank stack Hblank). by destruct to_addr.
Qed.

Lemma blank_stack_raises_index_error_witness :
  email_error.send (fun _ => None) (fun _ => None) (Some "ops@example.org")
                   "disk full" "" "step 3" None [] office
  = (Failed (IndexError "list index out of range"), office).
Proof.
  apply blank_stack_raises_index_error. repeat constructor.
Defined.

(** *** Angle brackets *)

Lemma contains_char (s : string) (c : ascii) :
  contains s (String c "") = existsb (Ascii.eqb c) (list_ascii_of_string s).
Proof.
  induction s as [|a s IH]; [reflexivity|].
  cbn [contains startswith list_ascii_of_string existsb]. rewrite IH.
  by rewrite andb_true_r.
Qed.

Lemma contains_char_append (s t : string) (c : ascii) :
  contains (s +:+ t) (String c "") = contains s (String c "") || contains t (String c "").
Proof.
  rewrite !contains_char. induction s as [|a s IH]; [reflexivity|].
  rewrite JsonFacts.append_cons. cbn [list_ascii_of_string existsb]. rewrite IH.
  by rewrite orb_assoc.
Qed.

Lemma replace_char_cons (c a : ascii) (new s : string) :
  str_replace (String c "") new (String a s)
  = if Ascii.eqb c a then new +:+ str_replace (String c "") new s
    else String a (str_replace (String c "") new s).
Proof.
  unfold str_replace. cbn [replace_from startswith]. rewrite andb_true_r.
  by destruct (Ascii.eqb c a).
Qed.

(** Replacing a character by a text without it removes the character. *)
Lemma replace_char_removes (c : ascii) (new s : string) :
  contains new (String c "") = false ->
  contains (str_replace (String c "") new s) (String c "") = false.
Proof.
  intros Hnew. induction s as [|a s IH]; [reflexivity|].
  rewrite replace_char_cons. destruct (Ascii.eqb c a) eqn:Hca.
  - by rewrite contains_char_append, Hnew, IH.
  - change (String a ?x) with (String a "" +:+ x).
    rewrite contains_char_append, IH. rewrite contains_char. cbn. by rewrite Hca.
Qed.

(** And it brings in no character that neither the text nor the
    replacement holds. *)
Lemma replace_char_keeps_out (c d : ascii) (new s : string) :
  contains new (String d "") = false ->
  contains s (String d "") = false ->
  contains (str_replace (String c "") new s) (String d "") = false.
Proof.
  intros Hnew. induction s as [|a s IH]; [reflexivity|]. intros Hs.
  change (String a s) with (String a "" +:+ s) in Hs.
  rewrite contains_char_append in Hs. apply orb_false_iff in Hs as [Ha Hs].
  rewrite replace_char_cons. destruct (Ascii.eqb c a).
  - by rewrite contains_char_append, Hnew, IH.
  - change (String a ?x) with (String a "" +:+ x).
    by rewrite contains_char_append, Ha, IH.
Qed.

(** X20: no angle bracket of the stack reaches the HTML.  For every
    stack, none of the lines that go into the rows of the table holds a
    ["<"] or a [">"]: both are replaced by their entities, the second
    replacement leaving the result of the first intact. *)
Theorem stack_lines_hold_no_markup (stack : string) :
  Forall (fun l => contains l "<" = false /\ contains l ">" = false)
         (email_error.stack_lines stack).
Proof.
  unfold email_error.stack_lines.
  generalize (map (str_replace "  File" "File")
    (List.filter (fun s => negb (s =? "")%string)
       (if (2 <? length (List.filter (fun s => negb (contains s "^^"))
                                     (split_on "010" stack)))%nat
        then map snd (List.filter (fun p => fst p mod 2 =? 1)%nat
                        (enumerate_from 0 (List.filter (fun s => negb (contains s "^^"))
                                             (split_on "010" stack))))
        else List.filter (fun s => negb (contains s "^^")) (split_on "010" stack)))).
  intros lines. induction lines as [|l lines IH]; [constructor|].
  cbn [map]. constructor; [|exact IH]. split.
  - apply replace_char_keeps_out; [reflexivity|]. by apply replace_char_removes.
  - by apply replace_char_removes.
Qed.

(** *** A traceback *)

Lemma split_on_line (l rest : string) :
  contains l newline = false ->
  split_on "010" (l +:+ newline +:+ rest) = l :: split_on "010" rest.
Proof.
  unfold newline. induction l as [|c l IH]; intros Hl; [reflexivity|].
  change (String c l) with (String c "" +:+ l) in Hl.
  rewrite contains_char_append, contains_char in Hl.
  apply orb_false_iff in Hl as [Hc Hl].
  cbn [list_ascii_of_string existsb] in Hc. rewrite orb_false_r in Hc.
  rewrite JsonFacts.append_cons. cbn [split_on].
  rewrite Ascii.eqb_sym, Hc. by rewrite (IH Hl).
Qed.

Lemma split_on_unlines (lines : list string) :
  Forall (fun l => contains l newline = false) lines ->
  split_on "010" (unlines lines) = (lines ++ [""])%list.
Proof.
  induction 1 as [|l lines Hl _ IH]; [reflexivity|].
  unfold unlines, join in *. cbn [map fold_right].
  rewrite JsonFacts.append_assoc, (split_on_line _ _ Hl). by rewrite IH.
Qed.

Lemma after_odd_index (i : nat) :
  (i mod 2 = 1 -> S i mod 2 = 0 /\ S (S i) mod 2 = 1)%nat.
Proof.
  intros Hi. pose proof (Nat.div_mod_eq i 2) as Heq. rewrite Hi in Heq. split.
  - replace (S i) with (0 + (i / 2 + 1) * 2)%nat by lia. by rewrite Nat.Div0.mod_add.
  - replace (S (S i)) with (1 + (i / 2 + 1) * 2)%nat by lia. by rewrite Nat.Div0.mod_add.
Qed.

(** From an odd index on, the selection keeps the first line of every
    pair. *)
Lemma selected_frames (frames : list frame) (rest : list string) (i : nat) :
  (i mod 2 = 1)%nat ->
  map snd (List.filter (fun p => fst p mod 2 =? 1)%nat
             (enumerate_from i
                (concat (map (fun f => ["  File " +:+ location f; "    " +:+ source_line f])
                             frames) ++ rest)))
  = (map (fun f => "  File " +:+ location f) frames
     ++ map snd (List.filter (fun p => fst p mod 2 =? 1)%nat
                   (enumerate_from (i + 2 * length frames) rest)))%list.
Proof.
  revert i. induction frames as [|f frames IH]; intros i Hi.
  - cbn. by rewrite Nat.add_0_r.
  - cbn [map concat app enumerate_from List.filter fst].
    destruct (after_odd_index i Hi) as [Hcode Hnext].
    rewrite Hi, Hcode. cbn [Nat.eqb map snd app]. f_equal.
    rewrite (IH (S (S i)) Hnext). do 4 f_equal. cbn [length]. lia.
Qed.

Lemma frame_lines_one_line (f : frame) :
  printed_frame f ->
  Forall (fun l => contains l newline = false) (frame_lines f).
Proof.
  unfold printed_frame, plain_line, newline.
  intros ([Hloc _] & [Hsrc _] & Hmarks). unfold frame_lines.
  constructor; [by rewrite contains_char_append, Hloc|].
  constructor; [by rewrite contains_char_append, Hsrc|].
  destruct (carets f) as [marks|]; [|constructor].
  destruct Hmarks as [Hm _]. constructor; [|constructor].
  by rewrite contains_char_append, Hm.
Qed.

Lemma frame_lines_kept (f : frame) :
  printed_frame f ->
  List.filter (fun s => negb (contains s "^^")) (frame_lines f)
  = ["  File " +:+ location f; "    " +:+ source_line f].
Proof.
  intros ([_ Hloc] & [_ Hsrc] & Hmarks). unfold frame_lines. cbn [List.filter].
  change (contains ("  File " +:+ location f) "^^") with (contains (location f) "^^").
  change (contains ("    " +:+ source_line f) "^^") with (contains (source_line f) "^^").
  rewrite Hloc, Hsrc. cbn [negb]. do 2 f_equal.
  destruct (carets f) as [marks|]; [|reflexivity]. destruct Hmarks as [_ Hm].
  cbn [List.filter].
  change (contains ("    " +:+ marks) "^^") with (contains marks "^^").
  by rewrite Hm.
Qed.

Lemma traceback_lines_kept (frames : list frame) (rest : list string) :
  Forall printed_frame frames ->
  List.filter (fun s => negb (contains s "^^")) (concat (map frame_lines frames) ++ rest)
  = (concat (map (fun f => ["  File " +:+ location f; "    " +:+ source_line f]) frames)
     ++ List.filter (fun s => negb (contains s "^^")) rest)%list.
Proof.
  induction 1 as [|f frames Hf _ IH]; [reflexivity|].
  cbn [map concat]. rewrite <- !app_assoc, List.filter_app, (frame_lines_kept f Hf), IH.
  reflexivity.
Qed.

(** X21: what is kept of a traceback.  For the text the interpreter
    prints (a header, for each frame its location, its source line and
    possibly a line of carets, then the exception, each on a line of its
    own), the lines that go into the message are the locations of the
    frames, in order, followed by the exception: the header, the source
    lines and the carets are dropped.  Each kept line has its leading
    ["  File"] cut to ["File"] and its angle brackets replaced. *)
Theorem traceback_keeps_locations_and_error
  (header : string) (frames : list frame) (error : string) :
  plain_line header -> plain_line error -> error <> "" ->
  Forall printed_frame frames ->
  email_error.stack_lines (traceback header frames error)
  = (map (fun f => stack_cell ("  File " +:+ location f)) frames ++ [stack_cell error])%list.
Proof.
  intros [Hh1 Hh2] [He1 He2] Herr Hframes.
  unfold email_error.stack_lines, traceback.
  rewrite split_on_unlines.
  2:{ constructor; [exact Hh1|]. apply Forall_app. split.
      - induction Hframes as [|f frames Hf _ IH]; [constructor|].
        cbn [map concat]. apply Forall_app. split; [by apply frame_lines_one_line|exact IH].
      - by constructor. }
  cbn [app List.filter]. rewrite Hh2. cbn [negb].
  rewrite <- app_assoc, (traceback_lines_kept _ _ Hframes).
  cbn [app List.filter]. rewrite He2. cbn [negb].
  change (contains "" "^^") with false. cbn [negb].
  set (pairs := concat (map (fun f => ["  File " +:+ location f; "    " +:+ source_line f])
                            frames)).
  assert (Hlong : (2 <? length (header :: pairs ++ [error; ""]))%nat = true).
  { apply Nat.ltb_lt. cbn [length]. rewrite length_app. cbn [length]. lia. }
  rewrite Hlong. cbn [enumerate_from List.filter fst].
  change (0 mod 2 =? 1)%nat with false. cbv iota.
  subst pairs. rewrite (selected_frames frames [error; ""] 1 eq_refl).
  cbn [enumerate_from List.filter fst].
  assert (Hodd : ((1 + 2 * length frames) mod 2 = 1)%nat).
  { rewrite Nat.mul_comm. by rewrite Nat.Div0.mod_add. }
  destruct (after_odd_index _ Hodd) as [Heven _]. rewrite Hodd, Heven.
  cbn [Nat.eqb map snd]. rewrite List.filter_app. cbn [List.filter].
  assert (Hne : negb (error =? "")%string = true).
  { apply negb_true_iff. by apply String.eqb_neq. }
  rewrite Hne.
  assert (Hfiles : List.filter (fun s => negb (s =? "")%string)
                     (map (fun f => "  File " +:+ location f) frames)
                   = map (fun f => "  File " +:+ location f) frames).
  { clear. induction frames as [|f frames IH]; [reflexivity|].
    cbn [map List.filter]. change (("  File " +:+ location f) =? "")%string with false.
    cbn [negb]. by rewrite IH. }
  rewrite Hfiles, !map_app, !map_map. reflexivity.
Qed.

Lemma traceback_keeps_locations_and_error_witness :
  email_error.stack_lines
    (traceback "Traceback (most recent call last):"
               [Frame (dq +:+ "job.py" +:+ dq +:+ ", line 3, in <module>") "run()"
                      (Some "^^^^^");
                Frame (dq +:+ "job.py" +:+ dq +:+ ", line 2, in run") "raise ValueError('x')"
                      None]
               "ValueError: x")
  = [stack_cell ("  File " +:+ dq +:+ "job.py" +:+ dq +:+ ", line 3, in <module>");
     stack_cell ("  File " +:+ dq +:+ "job.py" +:+ dq +:+ ", line 2, in run");
     stack_cell "ValueError: x"].
Proof.
  apply (traceback_keeps_locations_and_error "Traceback (most recent call last):"
           [Frame (dq +:+ "job.py" +:+ dq +:+ ", line 3, in <module>") "run()" (Some "^^^^^");
            Frame (dq +:+ "job.py" +:+ dq +:+ ", line 2, in run") "raise ValueError('x')" None]
           "ValueError: x").
  - split; reflexivity.
  - split; reflexivity.
  - discriminate.
  - repeat constructor.
Defined.

(** ** The type of an attachment *)

Lemma rfind_absent (c : ascii) (s : string) :
  contains s (String c "") = false -> rfind c s = -1.
Proof.
  rewrite contains_char. induction s as [|a s IH]; [reflexivity|].
  cbn [list_ascii_of_string existsb rfind]. intros [Ha Hs]%orb_false_iff.
  rewrite (IH Hs). rewrite Ascii.eqb_sym, Ha. reflexivity.
Qed.

Lemma rfind_last (c : ascii) (s t : string) :
  contains t (String c "") = false ->
  rfind c (s +:+ String c t) = Z.of_nat (String.length s).
Proof.
  intros Ht. induction s as [|a s IH].
  - rewrite JsonFacts.append_nil. cbn [rfind]. rewrite (rfind_absent _ _ Ht).
    by rewrite Ascii.eqb_refl.
  - rewrite JsonFacts.append_cons. cbn [rfind String.length]. rewrite IH.
    destruct (0 <=? Z.of_nat (String.length s)) eqn:H0; lia.
Qed.

Lemma substring_prefix (s t : string) :
  substring 0 (String.length s) (s +:+ t) = s.
Proof.
  induction s as [|a s IH]; [by destruct t|].
  rewrite JsonFacts.append_cons. cbn [String.length substring]. by rewrite IH.
Qed.

Lemma substring_suffix (s t : string) :
  substring (String.length s) (String.length t) (s +:+ t) = t.
Proof.
  induction s as [|a s IH].
  - rewrite JsonFacts.append_nil. cbn [String.length].
    induction t as [|b t IHt]; [reflexivity|].
    cbn [String.length substring]. by rewrite IHt.
  - rewrite JsonFacts.append_cons. cbn [String.length substring]. exact IH.
Qed.

(** The extension of a name with a stem that is not made of dots only. *)
Lemma splitext_extension (stem ext : string) :
  contains stem "/" = false -> contains ext "/" = false -> contains ext "." = false ->
  existsb (fun c => negb (Ascii.eqb c ".")) (list_ascii_of_string stem) = true ->
  splitext (stem +:+ "." +:+ ext) = (stem, "." +:+ ext).
Proof.
  intros Hstem Hext Hdot Hname. unfold splitext.
  assert (Hsep : rfind "/" (stem +:+ "." +:+ ext) = -1).
  { apply rfind_absent. change ("." +:+ ext) with (String "." "" +:+ ext).
    rewrite !contains_char_append, Hstem, Hext. reflexivity. }
  change ("." +:+ ext) with (String "." ext) in *.
  rewrite Hsep, (rfind_last "." stem ext Hdot).
  assert (Hlt : (-1 <? Z.of_nat (String.length stem)) = true) by (apply Z.ltb_lt; lia).
  rewrite Hlt. unfold slice. cbn [Z.add]. change (Z.to_nat (-1 + 1)) with 0%nat.
  rewrite !Nat2Z.id, Nat.sub_0_r. change (Z.to_nat 0) with 0%nat. rewrite Nat.sub_0_r.
  rewrite substring_prefix, Hname.
  rewrite JsonFacts.length_append, Nat.add_sub_swap, Nat.sub_diag by lia.
  rewrite Nat.add_0_l. by rewrite substring_suffix.
Qed.

(** A name that starts with its last dot, or with dots only before it,
    has no extension. *)
Lemma splitext_hidden (dots name : string) :
  contains name "/" = false -> contains name "." = false ->
  forallb (fun c => Ascii.eqb c ".") (list_ascii_of_string dots) = true ->
  splitext (dots +:+ "." +:+ name) = (dots +:+ "." +:+ name, "").
Proof.
  intros Hname Hdot Hdots. unfold splitext.
  assert (Hsep : rfind "/" (dots +:+ "." +:+ name) = -1).
  { apply rfind_absent. change ("." +:+ name) with (String "." "" +:+ name).
    rewrite !contains_char_append, Hname. rewrite orb_false_r.
    rewrite contains_char. clear -Hdots. induction dots as [|c dots IH]; [reflexivity|].
    cbn [list_ascii_of_string forallb existsb] in *.
    apply andb_true_iff in Hdots as [Hc Hdots]. apply Ascii.eqb_eq in Hc as ->.
    by rewrite (IH Hdots). }
  change ("." +:+ name) with (String "." name) in *.
  rewrite Hsep, (rfind_last "." dots name Hdot).
  assert (Hlt : (-1 <? Z.of_nat (String.length dots)) = true) by (apply Z.ltb_lt; lia).
  rewrite Hlt. unfold slice. change (Z.to_nat (-1 + 1)) with 0%nat.
  rewrite !Nat2Z.id, Nat.sub_0_r. rewrite substring_prefix.
  assert (Hnone : existsb (fun c => negb (Ascii.eqb c ".")) (list_ascii_of_string dots) = false).
  { clear -Hdots. induction dots as [|c dots IH]; [reflexivity|].
    cbn [list_ascii_of_string forallb existsb] in *.
    apply andb_true_iff in Hdots as [Hc Hdots]. by rewrite Hc, (IH Hdots). }
  by rewrite Hnone.
Qed.

(** X22: the type of a file that [mimetypes] does not know.  For a file
    name without a directory, written [stem.ext] with no dot in [ext],
    [guess_mime_type] answers "text/plain" exactly when [ext] is "log"
    in any mix of upper and lower case and [stem] holds a character
    other than a dot; for every other extension, and for a hidden file
    such as [.log], it answers "application/octet-stream". *)
Theorem unknown_type_falls_back_on_log_extension
  (mimetypes_guess_type : string -> option string) (stem ext : string) :
  contains stem "/" = false -> contains ext "/" = false -> contains ext "." = false ->
  mimetypes_guess_type (stem +:+ "." +:+ ext) = None ->
  send_html_email.guess_mime_type mimetypes_guess_type (stem +:+ "." +:+ ext)
  = if existsb (fun c => negb (Ascii.eqb c ".")) (list_ascii_of_string stem)
       && (lower ext =? "log")%string
    then "text/plain" else "application/octet-stream".
Proof.
  intros Hstem Hext Hdot Hguess. unfold send_html_email.guess_mime_type. rewrite Hguess.
  destruct (existsb _ (list_ascii_of_string stem)) eqn:Hname.
  - rewrite (splitext_extension stem ext Hstem Hext Hdot Hname). cbn [snd andb].
    change ("." +:+ ext) with (String "." ext). cbn [lower].
    change (lower_char ".") with "."%char.
    change (String "." (lower ext) =? ".log")%string with (lower ext =? "log")%string.
    reflexivity.
  - rewrite splitext_hidden; [reflexivity|assumption..|].
    clear -Hname. induction stem as [|c stem IH]; [reflexivity|].
    cbn [list_ascii_of_string forallb existsb] in *.
    apply orb_false_iff in Hname as [Hc Hname]. apply negb_false_iff in Hc.
    by rewrite Hc, (IH Hname).
Qed.

Lemma unknown_type_falls_back_on_log_extension_witness :
  send_html_email.guess_mime_type (fun _ => None) ("server" +:+ "." +:+ "LOG") = "text/plain".
Proof.
  exact (unknown_type_falls_back_on_log_extension (fun _ => None) "server" "LOG"
           eq_refl eq_refl eq_refl eq_refl).
Defined.

(** ** The line of [timed_print] *)

Lemma two_digits_length (n : Z) : 0 <= n < 100 -> String.length (two_digits n) = 2%nat.
Proof.
  intros Hn.
  assert (Hin : List.In n (map Z.of_nat (seq 0 100))).
  { apply List.in_map_iff. exists (Z.to_nat n). split; [lia|]. apply List.in_seq. lia. }
  vm_compute in Hin.
  repeat (destruct Hin as [<-|Hin]; [reflexivity|]). destruct Hin.
Qed.

Lemma strftime_length (t : datetime) : valid_time t -> String.length (strftime t) = 8%nat.
Proof.
  intros (Hh & Hm & Hs). unfold strftime.
  rewrite !JsonFacts.length_append, !two_digits_length by lia. reflexivity.
Qed.

Lemma indentation_length (tabs : Z) :
  String.length (indentation tabs) = (3 * Z.to_nat tabs)%nat.
Proof.
  unfold indentation. induction (Z.to_nat tabs) as [|n IH]; [reflexivity|].
  cbn [repeat concat app string_of_list_ascii String.length]. rewrite IH. lia.
Qed.

(** X23: the line [timed_print] writes.  At any time of day the
    function returns its message and adds one line to the console, in
    which the message starts at column [10 + 3 * tabs] (a negative
    [tabs] counts as zero): eight characters of time, a space, the
    indentation and one more space, so that with [tabs = 0] two spaces
    separate the time from the message.  The line ends with a carriage
    return when [no_cr] is set and [PYDEVD_LOAD_VALUES_ASYNC] is not in
    the environment, else with a newline. *)
Theorem timed_print_aligns_message (msg : string) (tabs : Z) (no_cr : bool) (h : station) :
  valid_time (clock h) ->
  exists line h',
    timed_print msg tabs no_cr h = (Done msg, h')
    /\ stdout h' = stdout h +:+ line +:+ line_end no_cr h
    /\ String.length line = (10 + 3 * Z.to_nat tabs + String.length msg)%nat
    /\ substring (10 + 3 * Z.to_nat tabs) (String.length msg) line = msg
    /\ console_only h h'.
Proof.
  intros Hvalid.
  exists ((strftime (clock h) +:+ " " +:+ indentation tabs +:+ " ") +:+ msg).
  assert (Hprefix : String.length (strftime (clock h) +:+ " " +:+ indentation tabs +:+ " ")
                    = (10 + 3 * Z.to_nat tabs)%nat).
  { rewrite !JsonFacts.length_append, (strftime_length _ Hvalid), indentation_length.
    cbn. lia. }
  exists (Station (env h) (disk h) (clock h) (mail_server h)
                  (stdout h
                   +:+ (strftime (clock h) +:+ " " +:+ indentation tabs +:+ " " +:+ msg)
                   +:+ line_end no_cr h)
                  (calls h)).
  split; [|split; [|split; [|split]]].
  - unfold timed_print, environ_has, datetime_now, print3, line_end. rewrite run_bind_eq.
    destruct (no_cr && negb _); reflexivity.
  - cbn [stdout]. by rewrite !JsonFacts.append_assoc.
  - by rewrite JsonFacts.length_append, Hprefix.
  - rewrite <- Hprefix. apply substring_suffix.
  - by repeat split.
Qed.

Lemma timed_print_aligns_message_witness :
  exists line h',
    timed_print "done" 2 false office = (Done "done", h')
    /\ stdout h' = stdout office +:+ line +:+ line_end false office
    /\ String.length line = (10 + 3 * Z.to_nat 2 + String.length "done")%nat
    /\ substring (10 + 3 * Z.to_nat 2) (String.length "done") line = "done"
    /\ console_only office h'.
Proof.
  apply (timed_print_aligns_message "done" 2 false office).
  unfold valid_time. cbn. lia.
Defined.
